(** * Jira / Confluence command-line skills: a shallow embedding

    The repository is a set of independent Python scripts.  Every script
    loads a [.env] file into [os.environ], reads its configuration, and
    talks to the Jira or Confluence REST API through a small helper built
    on [urllib].  This file embeds the functions the specification talks
    about and proves (or refutes) the specification's statements on them.

    Conventions of the embedding.
    - Python [str] values are Rocq [string]s of ASCII text; the case
      conversions ([lower], [upper]) act on the ASCII letters and
      [strip] removes the ASCII white space.
    - Python values that travel through JSON are [pyval]s (numbers are
      integers).  A Python [dict] literal is an insertion-ordered
      association list; a dict that is only queried by key (a section of
      [build_adf], [os.environ]) is a [gmap].
    - Statements run in a state-and-exception monad over the process
      state [proc]: the remote server, the log of the requests sent, the
      three standard streams, [os.environ], the [.env] files and the
      output of [git log].  [time.sleep] has no effect on that state.
    - An exception is a value of [exn]; [except Exception] catches all of
      them but [SystemExit], and the exit status of a run is read off its
      result with [exit_code].
    - A request is one that [urllib] lets out: its URL has a scheme and
      a path of printable ASCII characters without blanks.  Where a
      theorem lets a caller choose a part of the path, it says so in a
      hypothesis ([url_safe]).
    - The remote server, [json.loads] and [repr] of containers are not
      code of the repository: they are the fields of the class [Remote],
      and every theorem holds for all of them.  Concrete runs use the
      scripted server of [Scripted], which gives its replies in order. *)

From stdpp Require Import gmap strings list pretty.
From Stdlib Require Import ZArith Lia.
From Stdlib Require Strings.Ascii.

Abbreviation ascii := Stdlib.Strings.Ascii.ascii.
Abbreviation ascii_of_N := Stdlib.Strings.Ascii.ascii_of_N.
Abbreviation N_of_ascii := Stdlib.Strings.Ascii.N_of_ascii.
Abbreviation ascii_eqb := Stdlib.Strings.Ascii.eqb.

Open Scope Z_scope.

(** ** Strings *)

Module Str.

Fixpoint map (f : ascii → ascii) (s : string) : string :=
  match s with
  | EmptyString => EmptyString
  | String c s' => String (f c) (map f s')
  end.

Definition in_range (lo hi : N) (c : ascii) : bool :=
  let n := N_of_ascii c in (N.leb lo n) && (N.leb n hi).

Definition is_upper (c : ascii) : bool := in_range 65 90 c.
Definition is_lower (c : ascii) : bool := in_range 97 122 c.
Definition is_digit (c : ascii) : bool := in_range 48 57 c.

Definition lower_char (c : ascii) : ascii :=
  if is_upper c then ascii_of_N (N_of_ascii c + 32) else c.

Definition upper_char (c : ascii) : ascii :=
  if is_lower c then ascii_of_N (N_of_ascii c - 32) else c.

(** [s.lower()] and [s.upper()] *)
Definition lower : string → string := map lower_char.
Definition upper : string → string := map upper_char.

(** [s[:n]] *)
Fixpoint take (n : nat) (s : string) : string :=
  match n, s with
  | S n', String c s' => String c (take n' s')
  | _, _ => EmptyString
  end.

(** [sub in s] for two strings *)
Fixpoint contains (sub s : string) : bool :=
  if String.prefix sub s then true
  else match s with
       | EmptyString => false
       | String _ s' => contains sub s'
       end.

(** [c in s] for a one-character string [c] *)
Fixpoint has_char (c : ascii) (s : string) : bool :=
  match s with
  | EmptyString => false
  | String d s' => if ascii_eqb c d then true else has_char c s'
  end.

(** The characters [str.strip()] removes: tab, line feed, vertical tab,
    form feed, carriage return, the four separators 0x1c-0x1f, space. *)
Definition is_space (c : ascii) : bool :=
  in_range 9 13 c || in_range 28 32 c.

Fixpoint lstrip (s : string) : string :=
  match s with
  | String c s' => if is_space c then lstrip s' else s
  | EmptyString => EmptyString
  end.

Fixpoint rstrip (s : string) : string :=
  match s with
  | EmptyString => EmptyString
  | String c s' =>
      match rstrip s' with
      | EmptyString => if is_space c then EmptyString else String c EmptyString
      | r => String c r
      end
  end.

(** [s.strip()] *)
Definition strip (s : string) : string := rstrip (lstrip s).

(** [s.split(c, 1)] when [c] occurs in [s]: the text before the first
    [c] and the text after it. *)
Fixpoint split_once (c : ascii) (s : string) : option (string * string) :=
  match s with
  | EmptyString => None
  | String d s' =>
      if ascii_eqb c d then Some (EmptyString, s')
      else match split_once c s' with
           | Some (k, v) => Some (String d k, v)
           | None => None
           end
  end.

Definition LF : ascii := ascii_of_N 10.
Definition CR : ascii := ascii_of_N 13.

(** The lines of a text file opened in text mode, line ends removed
    (["\n"], ["\r"] and ["\r\n"] all end a line). *)
Fixpoint lines_go (cur : string) (s : string) : list string :=
  match s with
  | EmptyString => if String.eqb cur "" then [] else [String.rev cur]
  | String c s' =>
      if ascii_eqb c LF then String.rev cur :: lines_go "" s'
      else if ascii_eqb c CR then
        match s' with
        | String d s'' =>
            if ascii_eqb d LF then String.rev cur :: lines_go "" s''
            else String.rev cur :: lines_go "" s'
        | EmptyString => [String.rev cur]
        end
      else lines_go (String c cur) s'
  end.

Definition lines : string → list string := lines_go "".

(** [s.split(c)] for a one-character separator *)
Fixpoint split_go (c : ascii) (cur : string) (s : string) : list string :=
  match s with
  | EmptyString => [String.rev cur]
  | String d s' =>
      if ascii_eqb c d then String.rev cur :: split_go c "" s'
      else split_go c (String d cur) s'
  end.

Definition split (c : ascii) : string → list string := split_go c "".

(** [c * n] for a one-character string *)
Fixpoint repeat (c : ascii) (n : nat) : string :=
  match n with
  | O => EmptyString
  | S n' => String c (repeat c n')
  end.

Definition hex_digit (n : N) : ascii :=
  if (n <? 10)%N then ascii_of_N (48 + n) else ascii_of_N (55 + n).

(** The characters [urllib.parse.quote] leaves as they are: letters,
    digits, [_.-~] and the slash. *)
Definition is_unreserved (c : ascii) : bool :=
  is_upper c || is_lower c || is_digit c
  || ascii_eqb c (ascii_of_N 95) || ascii_eqb c (ascii_of_N 46)
  || ascii_eqb c (ascii_of_N 45) || ascii_eqb c (ascii_of_N 126)
  || ascii_eqb c (ascii_of_N 47).

(** [urllib.parse.quote(s)] *)
Fixpoint quote (s : string) : string :=
  match s with
  | EmptyString => EmptyString
  | String c s' =>
      if is_unreserved c then String c (quote s')
      else String (ascii_of_N 37)
             (String (hex_digit (N_of_ascii c / 16))
                (String (hex_digit (N_of_ascii c mod 16)) (quote s')))
  end.

(** a line feed and a double quote, as strings *)
Definition nl : string := String LF "".
Definition dq : string := String (ascii_of_N 34) "".

(** ['=' * 40], ['!' * 50] *)
Definition rule40 : string := repeat (ascii_of_N 61) 40.
Definition bang50 : string := repeat (ascii_of_N 33) 50.

End Str.

Arguments Str.take : simpl nomatch.
Arguments Str.repeat : simpl never.

(** ** Python values, exceptions and results *)

(** The values that are built by the scripts and exchanged as JSON.  A
    [PDict] keeps the insertion order of the Python dict it stands for. *)
#[warnings="-register-all"]
Inductive pyval : Type :=
| PNone
| PBool (b : bool)
| PInt (n : Z)
| PStr (s : string)
| PList (l : list pyval)
| PDict (d : list (string * pyval)).

(** Truth value of a Python object, as [if v:] and [not v] test it. *)
Definition truthy (v : pyval) : bool :=
  match v with
  | PNone => false
  | PBool b => b
  | PInt n => negb (n =? 0)
  | PStr s => negb (String.eqb s "")
  | PList l => match l with [] => false | _ => true end
  | PDict d => match d with [] => false | _ => true end
  end.

Fixpoint assoc (k : string) (d : list (string * pyval)) : option pyval :=
  match d with
  | [] => None
  | (k', v) :: d' => if String.eqb k k' then Some v else assoc k d'
  end.

Inductive exn : Type :=
| Exception (msg : string)
| HTTPError (code : Z) (reason body : string)
| URLError (reason : string)
| JSONDecodeError (msg : string)
| KeyError (key : string)
| TypeError (msg : string)
| AttributeError (msg : string)
| ValueError (msg : string)
| EOFError
| SystemExit (code : Z).

(** [except Exception] catches everything but [SystemExit]. *)
Definition is_Exception (e : exn) : bool :=
  match e with
  | SystemExit _ => false
  | _ => true
  end.

(** [str(e)] *)
Definition str_exn (e : exn) : string :=
  match e with
  | Exception msg => msg
  | HTTPError code reason _ => "HTTP Error " +:+ pretty code +:+ ": " +:+ reason
  | URLError reason => "<urlopen error " +:+ reason +:+ ">"
  | JSONDecodeError msg => msg
  | KeyError key => "'" +:+ key +:+ "'"
  | TypeError msg => msg
  | AttributeError msg => msg
  | ValueError msg => msg
  | EOFError => ""
  | SystemExit code => pretty code
  end.

Inductive result (A : Type) : Type :=
| Ok (a : A)
| Raise (e : exn).
Arguments Ok {A} a.
Arguments Raise {A} e.

Definition type_name (v : pyval) : string :=
  match v with
  | PNone => "NoneType"
  | PBool _ => "bool"
  | PInt _ => "int"
  | PStr _ => "str"
  | PList _ => "list"
  | PDict _ => "dict"
  end.

(** [v[k]] for a string key [k] *)
Definition get_item (v : pyval) (k : string) : result pyval :=
  match v with
  | PDict d =>
      match assoc k d with
      | Some x => Ok x
      | None => Raise (KeyError k)
      end
  | PList _ => Raise (TypeError "list indices must be integers or slices, not str")
  | PStr _ => Raise (TypeError "string indices must be integers, not 'str'")
  | _ => Raise (TypeError ("'" +:+ type_name v +:+ "' object is not subscriptable"))
  end.

(** [v.get(k, default)] *)
Definition dict_get (v : pyval) (k : string) (default : pyval) : result pyval :=
  match v with
  | PDict d => Ok (match assoc k d with Some x => x | None => default end)
  | _ => Raise (AttributeError
                  ("'" +:+ type_name v +:+ "' object has no attribute 'get'"))
  end.

(** [v.lower()] *)
Definition method_lower (v : pyval) : result string :=
  match v with
  | PStr s => Ok (Str.lower s)
  | _ => Raise (AttributeError
                  ("'" +:+ type_name v +:+ "' object has no attribute 'lower'"))
  end.

(** The values [for x in v] runs through. *)
Definition iterate (v : pyval) : result (list pyval) :=
  match v with
  | PList l => Ok l
  | PDict d => Ok ((λ kv, PStr kv.1) <$> d)
  | PStr s => Ok ((λ c, PStr (String c "")) <$> String.list_ascii_of_string s)
  | _ => Raise (TypeError ("'" +:+ type_name v +:+ "' object is not iterable"))
  end.

Definition and_then {A B} (r : result A) (k : A → result B) : result B :=
  match r with
  | Ok a => k a
  | Raise e => Raise e
  end.

(** The exit status of the process that ran [main]: 0 when it returns,
    the code of [sys.exit], 1 when an exception reaches the top level. *)
Definition exit_code {A} (r : result A) : Z :=
  match r with
  | Ok _ => 0
  | Raise (SystemExit code) => code
  | Raise _ => 1
  end.

(** [len(v)] *)
Definition py_len (v : pyval) : result Z :=
  match v with
  | PList l => Ok (Z.of_nat (length l))
  | PDict d => Ok (Z.of_nat (length d))
  | PStr s => Ok (Z.of_nat (String.length s))
  | PInt _ | PBool _ =>
      Raise (TypeError ("object of type '" +:+ type_name v +:+ "' has no len()"))
  | PNone => Raise (TypeError "object of type 'NoneType' has no len()")
  end.

(** [v[:n]].  A dict cannot be sliced: [TypeError] up to Python 3.11
    (later versions raise [KeyError] instead). *)
Definition slice_to (n : nat) (v : pyval) : result pyval :=
  match v with
  | PList l => Ok (PList (take n l))
  | PStr s => Ok (PStr (Str.take n s))
  | PDict _ => Raise (TypeError "unhashable type: 'slice'")
  | _ => Raise (TypeError ("'" +:+ type_name v +:+ "' object is not subscriptable"))
  end.

(** ** The world outside the scripts *)

Record request : Type := {
  req_url : string;
  req_data : option pyval;          (* the value [json.dumps] serialises *)
  req_headers : list (string * string);
  req_method : string
}.

Inductive reply : Type :=
| HttpReply (status : Z) (reason body : string)
| Unreachable (reason : string).

Class Remote : Type := {
  server : Type;
  (** what the server answers to a request, and its next state *)
  answer : server → request → reply * server;
  (** [json.loads]: the value, or the message of the [JSONDecodeError] *)
  json_loads : string → string + pyval;
  (** [repr] of a list or a dict *)
  repr : pyval → string
}.

Section Process.
Context {R : Remote}.

Record proc : Type := {
  remote : server;
  sent : list request;
  stdout : list string;
  stderr : list string;
  stdin : list string;
  environ : gmap string string;
  (** the text of the [.env] file found [n] directories above the
      directory of the script, if the file exists *)
  dotenv : nat → option string;
  (** the output of [git log -n --pretty=format:%s], if git succeeds *)
  git_log : nat → option string
}.

(** the state once the request [rq] is out and the server has moved to
    [srv] *)
Definition set_remote (srv : server) (rq : request) (s : proc) : proc :=
  {| remote := srv; sent := sent s ++ [rq]; stdout := stdout s;
     stderr := stderr s; stdin := stdin s; environ := environ s;
     dotenv := dotenv s; git_log := git_log s |}.

Definition set_stdout (out : list string) (s : proc) : proc :=
  {| remote := remote s; sent := sent s; stdout := out;
     stderr := stderr s; stdin := stdin s; environ := environ s;
     dotenv := dotenv s; git_log := git_log s |}.

Definition set_stderr (err : list string) (s : proc) : proc :=
  {| remote := remote s; sent := sent s; stdout := stdout s;
     stderr := err; stdin := stdin s; environ := environ s;
     dotenv := dotenv s; git_log := git_log s |}.

Definition set_stdin (inp : list string) (s : proc) : proc :=
  {| remote := remote s; sent := sent s; stdout := stdout s;
     stderr := stderr s; stdin := inp; environ := environ s;
     dotenv := dotenv s; git_log := git_log s |}.

Definition set_environ (env : gmap string string) (s : proc) : proc :=
  {| remote := remote s; sent := sent s; stdout := stdout s;
     stderr := stderr s; stdin := stdin s; environ := env;
     dotenv := dotenv s; git_log := git_log s |}.

Definition M (A : Type) : Type := proc → result A * proc.

Definition ret {A} (a : A) : M A := λ s, (Ok a, s).

Definition bind {A B} (m : M A) (k : A → M B) : M B :=
  λ s, match m s with
       | (Ok a, s') => k a s'
       | (Raise e, s') => (Raise e, s')
       end.

Definition raise {A} (e : exn) : M A := λ s, (Raise e, s).

Definition lift {A} (r : result A) : M A := λ s, (r, s).

(** [try: body / except Exception as e: handler e] *)
Definition try_except {A} (body : M A) (handler : exn → M A) : M A :=
  λ s, match body s with
       | (Raise e, s') =>
           if is_Exception e then handler e s' else (Raise e, s')
       | r => r
       end.

(** [try: body / except: handler] catches every exception. *)
Definition try_except_all {A} (body : M A) (handler : M A) : M A :=
  λ s, match body s with
       | (Raise e, s') => handler s'
       | r => r
       end.

(** [try: body / except HTTPError as e: handler e.code e.reason e.read()] *)
Definition except_HTTPError {A} (body : M A)
    (handler : Z → string → string → M A) : M A :=
  λ s, match body s with
       | (Raise (HTTPError code reason text), s') => handler code reason text s'
       | r => r
       end.

Definition print (line : string) : M unit :=
  λ s, (Ok tt, set_stdout (stdout s ++ [line]) s).

(** [print(line, file=sys.stderr)] *)
Definition eprint (line : string) : M unit :=
  λ s, (Ok tt, set_stderr (stderr s ++ [line]) s).

(** [input(prompt)] *)
Definition input (prompt : string) : M string :=
  λ s, let s' := set_stdout (stdout s ++ [prompt]) s in
       match stdin s with
       | [] => (Raise EOFError, s')
       | l :: rest => (Ok l, set_stdin rest s')
       end.

Definition sys_exit {A} (code : Z) : M A := raise (SystemExit code).

(** [urlopen(req)], for a request that [urllib] lets out (see the
    conventions): the request goes out and the server gives its final
    reply (redirects followed).  A status in 200..299 gives the response
    (status and decoded body), any other status raises [HTTPError], an
    unreachable server raises [URLError]. *)
Definition urlopen (req : request) : M (Z * string) :=
  λ s, let '(r, srv) := answer (remote s) req in
       let s' := set_remote srv req s in
       match r with
       | HttpReply status reason body =>
           if (200 <=? status) && (status <? 300)
           then (Ok (status, body), s')
           else (Raise (HTTPError status reason body), s')
       | Unreachable reason => (Raise (URLError reason), s')
       end.

(** [os.environ.get(key)] and [os.environ.get(key, default)] *)
Definition environ_get (key : string) : M pyval :=
  λ s, (Ok (match environ s !! key with
            | Some v => PStr v
            | None => PNone
            end), s).

Definition environ_get_default (key default : string) : M pyval :=
  λ s, (Ok (PStr (match environ s !! key with
                  | Some v => v
                  | None => default
                  end)), s).

(** [os.environ.setdefault(key, value)]: a variable that is set is left
    alone; setting a new one goes through [putenv], which refuses a
    NUL character and an empty name with [ValueError]. *)
Definition environ_setdefault (key value : string) : M unit :=
  λ s, match environ s !! key with
       | Some _ => (Ok tt, s)
       | None =>
           if Str.has_char (ascii_of_N 0) key || Str.has_char (ascii_of_N 0) value
           then (Raise (ValueError "embedded null byte"), s)
           else if String.eqb key ""
           then (Raise (ValueError "illegal environment variable name"), s)
           else (Ok tt, set_environ (<[key := value]> (environ s)) s)
       end.

(** [for x in xs: body x] *)
Fixpoint for_each {A} (xs : list A) (body : A → M unit) : M unit :=
  match xs with
  | [] => ret tt
  | x :: xs' => bind (body x) (λ _, for_each xs' body)
  end.

(** [for x in xs: acc = body x acc], for a loop that updates locals *)
Fixpoint for_fold {A B} (xs : list A) (body : A → B → M B) (acc : B) : M B :=
  match xs with
  | [] => ret acc
  | x :: xs' => bind (body x acc) (for_fold xs' body)
  end.

(** [json.loads(text)] *)
Definition loads (text : string) : M pyval :=
  match json_loads text with
  | inr v => ret v
  | inl msg => raise (JSONDecodeError msg)
  end.

(** [str(v)], as an f-string formats [v] *)
Definition py_str (v : pyval) : string :=
  match v with
  | PNone => "None"
  | PBool true => "True"
  | PBool false => "False"
  | PInt n => pretty n
  | PStr s => s
  | _ => repr v
  end.

End Process.

Notation "'let*' x ':=' m 'in' k" := (bind m (λ x, k))
  (at level 10, x name, m at level 100, k at level 200,
   format "'[v' 'let*'  x  :=  m  'in' '/' k ']'").
Notation "m '>>' k" := (bind m (λ _, k))
  (at level 100, k at level 200, right associativity,
   format "'[v' m  >> '/' k ']'").

(** ** templates/python-jira-utils.py *)

Module Template.
Section Template.
Context {R : Remote}.

Definition load_env_line (line : string) : M unit :=
  let line := Str.strip line in
  if negb (String.eqb line "")
     && negb (String.prefix "#" line)
     && Str.has_char (ascii_of_N 61) line
  then match Str.split_once (ascii_of_N 61) line with
       | Some (key, value) =>
           environ_setdefault (Str.strip key) (Str.strip value)
       | None => ret tt
       end
  else ret tt.

Definition load_env (levels_up : nat) : M unit :=
  λ s, match dotenv s levels_up with
       | Some text => for_each (Str.lines text) load_env_line s
       | None => (Ok tt, s)
       end.

Definition get_config : M pyval :=
  let* email := environ_get "JIRA_EMAIL" in
  let* token := environ_get "JIRA_API_TOKEN" in
  let* base_url := environ_get "JIRA_BASE_URL" in
  let* project_key := environ_get_default "JIRA_PROJECT_KEY" "SCRUM" in
  let* board_id := environ_get_default "JIRA_BOARD_ID" "1" in
  let config := PDict [("email", email); ("token", token);
                       ("base_url", base_url);
                       ("project_key", project_key);
                       ("board_id", board_id)] in
  if negb (truthy email && truthy token && truthy base_url) then
    eprint "Error: Missing required environment variables." >>
    eprint "Required: JIRA_EMAIL, JIRA_API_TOKEN, JIRA_BASE_URL" >>
    eprint "Set these in .claude/skills/jira/.env or export them manually." >>
    sys_exit 1
  else ret config.

Definition jira_request (base_url : string) (headers : list (string * string))
    (path method : string) (data : pyval) : M pyval :=
  let url := base_url +:+ "/rest/api/3" +:+ path in
  let body := if truthy data then Some data else None in
  let req := {| req_url := url; req_data := body;
                req_headers := headers; req_method := method |} in
  except_HTTPError
    (let* response := urlopen req in
     if response.1 =? 204 then ret PNone
     else loads response.2)
    (λ code _ error_body,
       raise (Exception (pretty code +:+ ": " +:+ Str.take 300 error_body))).

Definition text_node (text : pyval) : pyval :=
  PDict [("type", PStr "text"); ("text", text)].

Definition heading_block (section : gmap string pyval) (text : pyval) : pyval :=
  PDict [("type", PStr "heading");
         ("attrs", PDict [("level", default (PInt 2) (section !! "level"))]);
         ("content", PList [text_node text])].

Definition paragraph_block (text : pyval) : pyval :=
  PDict [("type", PStr "paragraph"); ("content", PList [text_node text])].

Definition list_item (bullet : pyval) : pyval :=
  PDict [("type", PStr "listItem"); ("content", PList [paragraph_block bullet])].

Definition bullet_list_block (bullets : list pyval) : pyval :=
  PDict [("type", PStr "bulletList"); ("content", PList (list_item <$> bullets))].

Definition code_block (section : gmap string pyval) (text : pyval) : pyval :=
  PDict [("type", PStr "codeBlock");
         ("attrs", PDict [("language", default (PStr "text") (section !! "language"))]);
         ("content", PList [text_node text])].

(** The body of the loop of [build_adf]: the blocks one section appends
    to [content]. *)
Definition add_section (content : list pyval) (section : gmap string pyval)
    : result (list pyval) :=
  let content :=
    match section !! "heading" with
    | Some text => content ++ [heading_block section text]
    | None => content
    end in
  let content :=
    match section !! "paragraph" with
    | Some text => content ++ [paragraph_block text]
    | None => content
    end in
  match
    match section !! "bullets" with
    | Some bullets =>
        match iterate bullets with
        | Ok items => Ok (content ++ [bullet_list_block items])
        | Raise e => Raise e
        end
    | None => Ok content
    end
  with
  | Ok content =>
      Ok match section !! "code" with
         | Some text => content ++ [code_block section text]
         | None => content
         end
  | Raise e => Raise e
  end.

Fixpoint build_adf_loop (content : list pyval)
    (sections : list (gmap string pyval)) : result (list pyval) :=
  match sections with
  | [] => Ok content
  | section :: rest =>
      match add_section content section with
      | Ok content' => build_adf_loop content' rest
      | Raise e => Raise e
      end
  end.

Definition doc (content : list pyval) : pyval :=
  PDict [("type", PStr "doc"); ("version", PInt 1); ("content", PList content)].

Definition build_adf (sections : list (gmap string pyval)) : result pyval :=
  match build_adf_loop [] sections with
  | Ok content => Ok (doc content)
  | Raise e => Raise e
  end.

Definition simple_adf (text : pyval) : pyval := doc [paragraph_block text].

Definition jira_agile_request (base_url : string) (headers : list (string * string))
    (path method : string) (data : pyval) : M pyval :=
  let url := base_url +:+ "/rest/agile/1.0" +:+ path in
  let body := if truthy data then Some data else None in
  let req := {| req_url := url; req_data := body;
                req_headers := headers; req_method := method |} in
  except_HTTPError
    (let* response := urlopen req in
     if response.1 =? 204 then ret PNone
     else loads response.2)
    (λ code _ error_body,
       raise (Exception (pretty code +:+ ": " +:+ Str.take 300 error_body))).

Definition create_epic (base_url : string) (headers : list (string * string))
    (project_key summary : string)
    (description_sections : list (gmap string pyval)) : M pyval :=
  let* description := lift (build_adf description_sections) in
  let fields := PDict [("project", PDict [("key", PStr project_key)]);
                       ("issuetype", PDict [("name", PStr "Epic")]);
                       ("summary", PStr summary);
                       ("description", description)] in
  jira_request base_url headers "/issue" "POST" (PDict [("fields", fields)]).

Definition create_story (base_url : string) (headers : list (string * string))
    (project_key summary : string)
    (description_sections : list (gmap string pyval))
    (parent_epic_key labels : pyval) : M pyval :=
  let* description := lift (build_adf description_sections) in
  let fields := [("project", PDict [("key", PStr project_key)]);
                 ("issuetype", PDict [("name", PStr "Story")]);
                 ("summary", PStr summary);
                 ("description", description)] in
  let fields :=
    if truthy parent_epic_key then
      fields ++ [("parent", PDict [("key", parent_epic_key)])]
    else fields in
  let fields :=
    if truthy labels then fields ++ [("labels", labels)] else fields in
  jira_request base_url headers "/issue" "POST" (PDict [("fields", PDict fields)]).

Definition create_subtask (base_url : string) (headers : list (string * string))
    (project_key parent_key summary : string) : M pyval :=
  let fields := PDict [("project", PDict [("key", PStr project_key)]);
                       ("issuetype", PDict [("name", PStr "Subtask")]);
                       ("parent", PDict [("key", PStr parent_key)]);
                       ("summary", PStr summary)] in
  jira_request base_url headers "/issue" "POST" (PDict [("fields", fields)]).

Definition get_issue (base_url : string) (headers : list (string * string))
    (issue_key : string) (fields : pyval) : M pyval :=
  let path := "/issue/" +:+ issue_key in
  let path :=
    if truthy fields then path +:+ "?fields=" +:+ py_str fields else path in
  jira_request base_url headers path "GET" PNone.

Definition search_issues (base_url : string) (headers : list (string * string))
    (jql : string) (fields : pyval) (max_results : Z) : M pyval :=
  let data := [("jql", PStr jql); ("maxResults", PInt max_results)] in
  let data := if truthy fields then data ++ [("fields", fields)] else data in
  jira_request base_url headers "/search" "POST" (PDict data).

Definition delete_issue (base_url : string) (headers : list (string * string))
    (issue_key : string) : M pyval :=
  jira_request base_url headers ("/issue/" +:+ issue_key) "DELETE" PNone.

End Template.
End Template.

(** ** The scripts

    Every script reads its configuration into module-level globals when
    it is loaded (the same [load_env] and the same check as
    [Template.get_config]). *)

Class Globals : Type := {
  JIRA_BASE_URL : string;
  PROJECT_KEY : string;
  HEADERS : list (string * string)
}.

(** *** jira-agile/scripts/bulk-create.py *)

Module BulkCreate.
Section BulkCreate.
Context {R : Remote} {G : Globals}.

Definition make_request (method path : string) (data : pyval) : M pyval :=
  let url := JIRA_BASE_URL +:+ "/rest/api/3" +:+ path in
  let body := if truthy data then Some data else None in
  let req := {| req_url := url; req_data := body;
                req_headers := HEADERS; req_method := method |} in
  except_HTTPError
    (let* response := urlopen req in
     let status := response.1 in
     if status =? 204 then ret PNone
     else loads response.2)
    (λ code _ error_body,
       raise (Exception (pretty code +:+ ": " +:+ Str.take 200 error_body))).

Definition get_git_commits (count : nat) : M (list string) :=
  λ s, match git_log s count with
       | Some out =>
           let commits := Str.split Str.LF (Str.strip out) in
           (Ok (filter (λ c, c ≠ "") commits), s)
       | None => (Ok [], s)
       end.

Definition create_issue (summary issue_type : string) : M pyval :=
  let fields := PDict [("project", PDict [("key", PStr PROJECT_KEY)]);
                       ("issuetype", PDict [("name", PStr issue_type)]);
                       ("summary", PStr (Str.take 255 summary))] in
  make_request "POST" "/issue" (PDict [("fields", fields)]).

Definition get_transitions (issue_key : pyval) : M pyval :=
  let* result :=
    make_request "GET" ("/issue/" +:+ py_str issue_key +:+ "/transitions") PNone in
  lift (get_item result "transitions").

(** The search loop of [transition_to_done]; [PNone] when it ends
    without a [break]. *)
Fixpoint find_done (transitions : list pyval) : result pyval :=
  match transitions with
  | [] => Ok PNone
  | t :: rest =>
      and_then (get_item t "to") (λ to,
      and_then (get_item to "name") (λ name,
      and_then (method_lower name) (λ lowered,
      if String.eqb lowered "done" then Ok t else find_done rest)))
  end.

Definition transition_to_done (issue_key : pyval) : M bool :=
  let* transitions := get_transitions issue_key in
  let* items := lift (iterate transitions) in
  let* done_transition := lift (find_done items) in
  if truthy done_transition then
    let* id := lift (get_item done_transition "id") in
    let data := PDict [("transition", PDict [("id", id)])] in
    make_request "POST" ("/issue/" +:+ py_str issue_key +:+ "/transitions") data >>
    ret true
  else ret false.

Definition batch_size : nat := 5.

(** [range(start, stop, step)] for a positive step *)
Fixpoint range_go (fuel i stop step : nat) : list nat :=
  match fuel with
  | O => []
  | S fuel' =>
      if (i <? stop)%nat then i :: range_go fuel' (i + step)%nat stop step
      else []
  end.

Definition range (start stop step : nat) : list nat :=
  range_go stop start stop step.

(** [commits[i:i + batch_size]] for each [i] of the outer loop *)
Definition batch_at (commits : list string) (i : nat) : list string :=
  take batch_size (drop i commits).

Definition batches (commits : list string) : list (list string) :=
  batch_at commits <$> range 0 (length commits) batch_size.

(** The body of the [try] for one commit message. *)
Definition try_item (commit_msg : string) : M unit :=
  let* issue := create_issue commit_msg "Story" in
  let* key := lift (get_item issue "key") in
  print ("[OK] Created " +:+ py_str key +:+ ": "
         +:+ Str.take 50 commit_msg +:+ "...") >>
  let* key := lift (get_item issue "key") in
  let* moved := transition_to_done key in
  if moved then
    let* key := lift (get_item issue "key") in
    print ("  -> " +:+ py_str key +:+ " transitioned to Done")
  else ret tt.

(** One turn of the inner loop on the counters [(created, failed)];
    [time.sleep(0.1)] has no effect on the state. *)
Definition process_item (commit_msg : string) (counts : Z * Z) : M (Z * Z) :=
  try_except
    (try_item commit_msg >>
     ret (counts.1 + 1, counts.2))
    (λ e,
       print ("[FAIL] Failed: " +:+ Str.take 40 commit_msg
              +:+ "... (" +:+ str_exn e +:+ ")") >>
       ret (counts.1, counts.2 + 1)).

Definition process_batch (commits : list string) (i : nat) (counts : Z * Z)
    : M (Z * Z) :=
  let batch := batch_at commits i in
  let batch_num := (i / batch_size + 1)%nat in
  let total_batches := ((length commits + batch_size - 1) / batch_size)%nat in
  print (Str.nl +:+ "--- Processing batch " +:+ pretty batch_num +:+ "/"
         +:+ pretty total_batches +:+ " ---") >>
  for_fold batch process_item counts.

(** The batch loop of [main], from [created = 0] and [failed = 0]. *)
Definition main_loop (commits : list string) : M (Z * Z) :=
  for_fold (range 0 (length commits) batch_size) (process_batch commits) (0, 0).

Definition main : M unit :=
  print Str.rule40 >>
  print "  BULK ISSUE CREATION FROM COMMITS (PYTHON)" >>
  print Str.rule40 >>
  let* commits := get_git_commits 50 in
  print (Str.nl +:+ "Creating " +:+ pretty (length commits)
         +:+ " issues in project " +:+ PROJECT_KEY +:+ Str.nl) >>
  match commits with
  | [] => print "No commits found."
  | _ =>
      let* counts := main_loop commits in
      print (Str.nl +:+ Str.rule40) >>
      print "  SUMMARY" >>
      print Str.rule40 >>
      print ("Created: " +:+ pretty counts.1) >>
      print ("Failed: " +:+ pretty counts.2) >>
      print (Str.nl +:+ "View: " +:+ JIRA_BASE_URL +:+ "/jira/software/projects/"
             +:+ PROJECT_KEY +:+ "/boards/1/backlog") >>
      print Str.rule40
  end.

End BulkCreate.
End BulkCreate.

(** *** jira-issues/scripts/create-one.py *)

Module CreateOne.
Section CreateOne.
Context {R : Remote} {G : Globals}.

(** [make_request] has the text of the one in bulk-create.py. *)
Definition make_request : string → string → pyval → M pyval :=
  BulkCreate.make_request.

Definition create_issue (summary issue_type : string)
    (description parent_key : pyval) : M pyval :=
  let fields := [("project", PDict [("key", PStr PROJECT_KEY)]);
                 ("issuetype", PDict [("name", PStr issue_type)]);
                 ("summary", PStr summary)] in
  let fields :=
    if truthy description then
      fields ++ [("description", Template.doc [Template.paragraph_block description])]
    else fields in
  let fields :=
    if truthy parent_key then
      fields ++ [("parent", PDict [("key", parent_key)])]
    else fields in
  make_request "POST" "/issue" (PDict [("fields", PDict fields)]).

(** The [try] statement of [main]. *)
Definition create_and_show : M unit :=
  try_except
    (let* issue :=
       create_issue "[Test-Python] Story created from Python script" "Story"
         (PStr "This is a test story created by the Python Jira script.") PNone in
     print ("[OK] Story created successfully!" +:+ Str.nl) >>
     let* key := lift (get_item issue "key") in
     print ("Key: " +:+ py_str key) >>
     let* id := lift (get_item issue "id") in
     print ("ID: " +:+ py_str id) >>
     let* key := lift (get_item issue "key") in
     print (Str.nl +:+ "Direct link: " +:+ JIRA_BASE_URL +:+ "/browse/" +:+ py_str key) >>
     print (Str.nl +:+ "Backlog: " +:+ JIRA_BASE_URL +:+ "/jira/software/projects/"
            +:+ PROJECT_KEY +:+ "/boards/1/backlog") >>
     let* key := lift (get_item issue "key") in
     let* issue_details :=
       make_request "GET" ("/issue/" +:+ py_str key +:+ "?fields=status") PNone in
     let* fields := lift (get_item issue_details "fields") in
     let* status := lift (get_item fields "status") in
     let* name := lift (get_item status "name") in
     print (Str.nl +:+ "Status: " +:+ py_str name))
    (λ e, print ("[FAIL] Error: " +:+ str_exn e)).

Definition main : M unit :=
  print ("Creating test story in backlog..." +:+ Str.nl) >>
  create_and_show.

End CreateOne.
End CreateOne.

(** *** jira-search/scripts/check-issues.py *)

Module CheckIssues.
Section CheckIssues.
Context {R : Remote} {G : Globals}.

Definition make_request (method path : string) (data : pyval) : M pyval :=
  let url := JIRA_BASE_URL +:+ "/rest/api/3" +:+ path in
  let body := if truthy data then Some data else None in
  let req := {| req_url := url; req_data := body;
                req_headers := HEADERS; req_method := method |} in
  except_HTTPError
    (let* response := urlopen req in
     loads response.2)
    (λ code _ error_body,
       raise (Exception (pretty code +:+ ": " +:+ Str.take 200 error_body))).

End CheckIssues.
End CheckIssues.

(** *** jira-transitions/scripts/workflow-demo.py *)

Module WorkflowDemo.
Section WorkflowDemo.
Context {R : Remote} {G : Globals}.

(** [make_request] has the text of the one in bulk-create.py. *)
Definition make_request : string → string → pyval → M pyval :=
  BulkCreate.make_request.

Definition get_transitions (issue_key : string) : M pyval :=
  let* result :=
    make_request "GET"
      ("/issue/" +:+ issue_key +:+ "/transitions?expand=transitions.fields")
      PNone in
  lift (get_item result "transitions").

Definition do_transition (issue_key : string) (transition_id : pyval) : M unit :=
  let data := PDict [("transition", PDict [("id", transition_id)])] in
  make_request "POST" ("/issue/" +:+ issue_key +:+ "/transitions") data >>
  ret tt.

(** The condition of the search loop: the destination status is
    compared first, the display name only when that fails. *)
Definition matches (t : pyval) (target_status : string) : result bool :=
  and_then (get_item t "to") (λ to,
  and_then (get_item to "name") (λ to_name,
  and_then (method_lower to_name) (λ lowered,
  if String.eqb lowered (Str.lower target_status) then Ok true
  else
    and_then (get_item t "name") (λ name,
    and_then (method_lower name) (λ lowered,
    Ok (String.eqb lowered (Str.lower target_status))))))).

(** The search loop of [transition_to]; [PNone] when it ends without a
    [break]. *)
Fixpoint find_transition (transitions : list pyval) (target_status : string)
    : result pyval :=
  match transitions with
  | [] => Ok PNone
  | t :: rest =>
      and_then (matches t target_status) (λ hit,
      if hit then Ok t else find_transition rest target_status)
  end.

Definition print_transition (t : pyval) : M unit :=
  let* name := lift (get_item t "name") in
  let* to := lift (get_item t "to") in
  let* to_name := lift (get_item to "name") in
  print ("  - " +:+ py_str name +:+ " -> " +:+ py_str to_name).

Definition transition_to (issue_key target_status : string) : M bool :=
  let* transitions := get_transitions issue_key in
  let* items := lift (iterate transitions) in
  let* transition := lift (find_transition items target_status) in
  if negb (truthy transition) then
    print ("No transition to " +:+ Str.dq +:+ target_status +:+ Str.dq
           +:+ " available.") >>
    print "Available transitions:" >>
    for_each items print_transition >>
    ret false
  else
    let* id := lift (get_item transition "id") in
    do_transition issue_key id >>
    ret true.

Definition get_issue (issue_key : string) : M pyval :=
  make_request "GET" ("/issue/" +:+ issue_key +:+ "?fields=summary,status") PNone.

Definition add_comment (issue_key comment_text : string) : M unit :=
  let data :=
    PDict [("body",
            PDict [("type", PStr "doc"); ("version", PInt 1);
                   ("content",
                    PList [PDict [("type", PStr "paragraph");
                                  ("content",
                                   PList [PDict [("type", PStr "text");
                                                 ("text", PStr comment_text)]])]])])] in
  make_request "POST" ("/issue/" +:+ issue_key +:+ "/comment") data >>
  ret tt.

(** [issue["fields"]["status"]["name"]] *)
Definition status_name (issue : pyval) : result pyval :=
  and_then (get_item issue "fields") (λ fields,
  and_then (get_item fields "status") (λ status,
  get_item status "name")).

Definition show_status (issue_key : string) : M unit :=
  let* issue := get_issue issue_key in
  let* status := lift (status_name issue) in
  let* fields := lift (get_item issue "fields") in
  let* summary := lift (get_item fields "summary") in
  print (issue_key +:+ ": " +:+ py_str status) >>
  print ("Summary: " +:+ py_str summary).

Definition print_demo_transition (t : pyval) : M unit :=
  let* id := lift (get_item t "id") in
  let* name := lift (get_item t "name") in
  let* to := lift (get_item t "to") in
  let* to_name := lift (get_item to "name") in
  print ("  - " +:+ py_str id +:+ ": " +:+ Str.dq +:+ py_str name +:+ Str.dq
         +:+ " -> " +:+ py_str to_name).

Definition run_demo (issue_key : string) : M unit :=
  print Str.rule40 >>
  print "  JIRA WORKFLOW DEMO (PYTHON)" >>
  print Str.rule40 >>
  print (Str.nl +:+ "Issue: " +:+ issue_key) >>
  print ("Project: " +:+ PROJECT_KEY) >>
  print ("URL: " +:+ JIRA_BASE_URL +:+ "/browse/" +:+ issue_key) >>
  print (Str.nl +:+ "--- Step 1: Check Current Status ---") >>
  let* issue := get_issue issue_key in
  let* current_status := lift (status_name issue) in
  print ("Initial status: " +:+ py_str current_status) >>
  print (Str.nl +:+ "--- Step 2: Available Transitions ---") >>
  let* transitions := get_transitions issue_key in
  let* count := lift (py_len transitions) in
  print ("Found " +:+ pretty count +:+ " transitions:") >>
  let* items := lift (iterate transitions) in
  for_each items print_demo_transition >>
  print (Str.nl +:+ "--- Step 3: Start Work ---") >>
  print (Str.nl +:+ "Starting work on " +:+ issue_key +:+ "...") >>
  let* issue := get_issue issue_key in
  let* status := lift (status_name issue) in
  print ("  Current status: " +:+ py_str status) >>
  let* moved := transition_to issue_key "Progressing" in
  (if moved then
     add_comment issue_key "[Python Demo] Work started" >>
     print "  Transitioned to: Progressing" >>
     print "  Added start comment"
   else ret tt) >>
  print (Str.nl +:+ "--- Step 4: Simulating Work ---") >>
  print "  [Simulating development work...]" >>
  print "  [Work complete!]" >>
  print (Str.nl +:+ "--- Step 5: Complete Work ---") >>
  print (Str.nl +:+ "Completing work on " +:+ issue_key +:+ "...") >>
  let* issue := get_issue issue_key in
  let* status := lift (status_name issue) in
  print ("  Current status: " +:+ py_str status) >>
  let* moved := transition_to issue_key "Done" in
  (if moved then
     add_comment issue_key "[Python Demo] Work completed" >>
     print "  Transitioned to: Done" >>
     print "  Added completion comment"
   else ret tt) >>
  print (Str.nl +:+ "--- Step 6: Final Status ---") >>
  let* issue := get_issue issue_key in
  let* status := lift (status_name issue) in
  print ("Final status: " +:+ py_str status) >>
  print (Str.nl +:+ Str.rule40) >>
  print "  WORKFLOW DEMO COMPLETE" >>
  print Str.rule40 >>
  print (Str.nl +:+ "View issue: " +:+ JIRA_BASE_URL +:+ "/browse/" +:+ issue_key).

Definition print_usage : M unit :=
  print "Usage:" >>
  print "  python jira-workflow-demo.py demo SCRUM-55" >>
  print "  python jira-workflow-demo.py start SCRUM-55" >>
  print "  python jira-workflow-demo.py complete SCRUM-55" >>
  print "  python jira-workflow-demo.py reopen SCRUM-55" >>
  print "  python jira-workflow-demo.py status SCRUM-55".

(** The [try] statement of [main]: the action on the issue. *)
Definition dispatch (action issue_key : string) : M unit :=
  try_except
    (if String.eqb action "demo" then run_demo issue_key
     else if String.eqb action "start" then
       print ("Starting work on " +:+ issue_key +:+ "...") >>
       let* moved := transition_to issue_key "Progressing" in
       if moved then
         add_comment issue_key "Work started" >>
         print ("[OK] " +:+ issue_key +:+ " transitioned to Progressing")
       else ret tt
     else if String.eqb action "complete" then
       print ("Completing work on " +:+ issue_key +:+ "...") >>
       let* moved := transition_to issue_key "Done" in
       if moved then
         add_comment issue_key "Work completed" >>
         print ("[OK] " +:+ issue_key +:+ " transitioned to Done")
       else ret tt
     else if String.eqb action "reopen" then
       print ("Reopening " +:+ issue_key +:+ "...") >>
       let* moved := transition_to issue_key "To Do" in
       if moved then
         add_comment issue_key "Issue reopened" >>
         print ("[OK] " +:+ issue_key +:+ " transitioned to To Do")
       else ret tt
     else if String.eqb action "status" then show_status issue_key
     else
       print ("Unknown action: " +:+ action) >>
       sys_exit 1)
    (λ e,
       print ("Error: " +:+ str_exn e) >>
       sys_exit 1).

(** [main], on [argv = sys.argv].  The issue key is [sys.argv[2]] or
    [None]; where [None] reaches a format string it reads None. *)
Definition main (argv : list string) : M unit :=
  match argv with
  | _ :: action :: rest =>
      let issue_key := match rest with k :: _ => PStr k | [] => PNone end in
      if negb (truthy issue_key) && negb (String.eqb action "help") then
        print "Error: Issue key required" >>
        sys_exit 1
      else dispatch action (py_str issue_key)
  | _ => print_usage >> sys_exit 0
  end.

End WorkflowDemo.
End WorkflowDemo.

(** *** jira-issues/scripts/delete-all.py *)

Module DeleteAll.
Section DeleteAll.
Context {R : Remote} {G : Globals}.

Definition make_request (method path : string) (data : pyval) : M pyval :=
  let url := JIRA_BASE_URL +:+ "/rest/api/3" +:+ path in
  let body := if truthy data then Some data else None in
  let req := {| req_url := url; req_data := body;
                req_headers := HEADERS; req_method := method |} in
  except_HTTPError
    (let* response := urlopen req in
     let status := response.1 in
     if status =? 204 then ret PNone
     else loads response.2)
    (λ code _ error_body,
       if code =? 404 then ret PNone
       else raise (Exception (pretty code +:+ ": " +:+ Str.take 200 error_body))).

Definition delete_issue (issue_key : string) (delete_subtasks : bool) : M bool :=
  let subtask_param := if delete_subtasks then "true" else "false" in
  let path := "/issue/" +:+ issue_key +:+ "?deleteSubtasks=" +:+ subtask_param in
  let req := {| req_url := JIRA_BASE_URL +:+ "/rest/api/3" +:+ path;
                req_data := None;
                req_headers := HEADERS; req_method := "DELETE" |} in
  except_HTTPError
    (let* response := urlopen req in
     ret (response.1 =? 204))
    (λ code reason error_body,
       if code =? 404 then ret true
       else raise (HTTPError code reason error_body)).

Definition search_issues (jql : string) (max_results : Z) : M pyval :=
  let encoded_jql := Str.quote jql in
  let path := "/search/jql?jql=" +:+ encoded_jql +:+ "&maxResults="
              +:+ pretty max_results +:+ "&fields=key" in
  make_request "GET" path PNone.

(** The dry run: the report of what would be deleted. *)
Definition dry_run_report (issues : pyval) : M unit :=
  print (Str.nl +:+ "[DRY RUN] Would delete:") >>
  let* first := lift (slice_to 20 issues) in
  let* items := lift (iterate first) in
  for_each items (λ issue,
    let* key := lift (get_item issue "key") in
    print ("  - " +:+ py_str key)) >>
  let* count := lift (py_len issues) in
  (if 20 <? count then
     let* count := lift (py_len issues) in
     print ("  ... and " +:+ pretty (count - 20) +:+ " more")
   else ret tt) >>
  print (Str.nl +:+ "Run with --confirm to actually delete.").

(** One turn of the deletion loop on the counters [(deleted, failed)]. *)
Definition delete_one (issue : pyval) (counts : Z * Z) : M (Z * Z) :=
  try_except
    (let* key := lift (get_item issue "key") in
     let* gone := delete_issue (py_str key) true in
     if gone then
       let* key := lift (get_item issue "key") in
       print ("  [OK] Deleted: " +:+ py_str key) >>
       ret (counts.1 + 1, counts.2)
     else
       let* key := lift (get_item issue "key") in
       print ("  [FAIL] Failed: " +:+ py_str key) >>
       ret (counts.1, counts.2 + 1))
    (λ e,
       let* key := lift (get_item issue "key") in
       print ("  [FAIL] Error " +:+ py_str key +:+ ": " +:+ str_exn e) >>
       ret (counts.1, counts.2 + 1)).

(** The deletion loop, from [deleted = 0] and [failed = 0]. *)
Definition delete_loop (issues : pyval) : M (Z * Z) :=
  let* items := lift (iterate issues) in
  for_fold items delete_one (0, 0).

(** The [try] statement of [main]. *)
Definition search_and_delete (dry_run : bool) : M unit :=
  try_except
    (let jql := "project = " +:+ PROJECT_KEY +:+ " ORDER BY key ASC" in
     let* result := search_issues jql 500 in
     let* issues := lift (dict_get result "issues" (PList [])) in
     let* count := lift (py_len issues) in
     let* total := lift (dict_get result "total" (PInt count)) in
     print ("Found " +:+ py_str total +:+ " issues to delete") >>
     if dry_run then dry_run_report issues
     else
       print (Str.nl +:+ "Deleting issues...") >>
       let* counts := delete_loop issues in
       print (Str.nl +:+ Str.rule40) >>
       print "  SUMMARY" >>
       print Str.rule40 >>
       print ("Deleted: " +:+ pretty counts.1) >>
       print ("Failed: " +:+ pretty counts.2) >>
       print Str.rule40)
    (λ e,
       print ("Error: " +:+ str_exn e) >>
       sys_exit 1).

(** [main], on [argv = sys.argv] *)
Definition main (argv : list string) : M unit :=
  let confirm := bool_decide ("--confirm" ∈ argv) in
  let dry_run := negb confirm in
  print Str.rule40 >>
  print "  JIRA DELETE ALL ISSUES (PYTHON)" >>
  print Str.rule40 >>
  print ("Project: " +:+ PROJECT_KEY) >>
  print ("Mode: " +:+ (if dry_run then "DRY RUN (no changes)" else "LIVE DELETE")) >>
  print "" >>
  search_and_delete dry_run.

End DeleteAll.
End DeleteAll.

(** *** jira-spaces/scripts/delete-space.py *)

Module DeleteSpace.
Section DeleteSpace.
Context {R : Remote} {G : Globals}.

Definition confluence_request (path method : string) (data : pyval) : M pyval :=
  let url := JIRA_BASE_URL +:+ "/wiki/rest/api" +:+ path in
  let body := if truthy data then Some data else None in
  let req := {| req_url := url; req_data := body;
                req_headers := HEADERS; req_method := method |} in
  except_HTTPError
    (let* response := urlopen req in
     if (response.1 =? 204) || (response.1 =? 202) then ret PNone
     else loads response.2)
    (λ code _ error_body,
       raise (Exception (pretty code +:+ ": " +:+ Str.take 300 error_body))).

Definition get_space (key : string) : M pyval :=
  try_except_all
    (confluence_request ("/space/" +:+ key +:+ "?expand=description.plain")
       "GET" PNone)
    (ret PNone).

Definition delete_space (key : string) : M pyval :=
  confluence_request ("/space/" +:+ key) "DELETE" PNone.

Definition usage : string :=
  Str.nl +:+ "Delete Confluence Space" +:+ Str.nl
  +:+ Str.nl
  +:+ "WARNING: This permanently deletes a space and ALL its content!" +:+ Str.nl
  +:+ Str.nl
  +:+ "Usage:" +:+ Str.nl
  +:+ "  python delete-space.py KEY              (interactive confirmation)" +:+ Str.nl
  +:+ "  python delete-space.py KEY --confirm    (skip confirmation)" +:+ Str.nl
  +:+ Str.nl
  +:+ "Arguments:" +:+ Str.nl
  +:+ "  KEY       Space key to delete" +:+ Str.nl
  +:+ "  --confirm Skip interactive confirmation (use with caution!)" +:+ Str.nl
  +:+ Str.nl
  +:+ "Examples:" +:+ Str.nl
  +:+ "  python delete-space.py DOCS" +:+ Str.nl
  +:+ "  python delete-space.py TEMP --confirm" +:+ Str.nl.

Definition show_usage : M unit := print usage.

Definition wants_help (args : list string) : bool :=
  bool_decide ("--help" ∈ args) || bool_decide ("-h" ∈ args).

(** The [try] statement that ends [main]: the deletion and its report;
    every exception is answered with a message and [sys.exit(1)]. *)
Definition delete_and_report (space_key : string) : M unit :=
  try_except
    (print (Str.nl +:+ "Deleting space " +:+ space_key +:+ "...") >>
     delete_space space_key >>
     print (Str.nl +:+ "Space deleted successfully!") >>
     print "(Note: Deletion may take a few moments to fully propagate)" >>
     print (Str.nl +:+ Str.rule40) >>
     print "  RESULT" >>
     print Str.rule40 >>
     print ("Space " +:+ space_key +:+ " has been deleted.") >>
     print (Str.rule40 +:+ Str.nl))
    (λ e,
       let error_msg := str_exn e in
       (if Str.contains "403" error_msg then
          print "Error: You do not have permission to delete this space." >>
          print "Contact your Confluence administrator."
        else if Str.contains "404" error_msg then
          print ("Error: Space '" +:+ space_key
                 +:+ "' not found (may have already been deleted).")
        else
          print ("Error deleting space: " +:+ str_exn e)) >>
       sys_exit 1).

(** [main], on [args = sys.argv[1:]] *)
Definition main (args : list string) : M unit :=
  match args with
  | [] => show_usage >> sys_exit (if wants_help args then 0 else 1)
  | arg0 :: _ =>
      if wants_help args then show_usage >> sys_exit 0
      else
        let space_key := Str.upper arg0 in
        let skip_confirm := bool_decide ("--confirm" ∈ args) in
        print Str.rule40 >>
        print "  DELETE CONFLUENCE SPACE" >>
        print (Str.rule40 +:+ Str.nl) >>
        print ("Looking up space " +:+ space_key +:+ "...") >>
        let* space := get_space space_key in
        if negb (truthy space) then
          print ("Error: Space '" +:+ space_key +:+ "' not found.") >>
          sys_exit 1
        else
          print (Str.nl +:+ "Space found:") >>
          let* key := lift (get_item space "key") in
          print ("  Key:    " +:+ py_str key) >>
          let* name := lift (get_item space "name") in
          print ("  Name:   " +:+ py_str name) >>
          let* type := lift (get_item space "type") in
          print ("  Type:   " +:+ py_str type) >>
          let* status := lift (dict_get space "status" (PStr "current")) in
          print ("  Status: " +:+ py_str status) >>
          print (Str.nl +:+ Str.bang50) >>
          print "  WARNING: This will permanently delete:" >>
          print "  - All pages in the space" >>
          print "  - All attachments" >>
          print "  - All comments" >>
          print "  - The space itself" >>
          print "  THIS CANNOT BE UNDONE!" >>
          print (Str.bang50 +:+ Str.nl) >>
          let* proceed :=
            if negb skip_confirm then
              let* answer :=
                input ("Type 'yes' to delete space " +:+ space_key +:+ ": ") in
              ret (bool_decide (Str.lower answer ∈ ["y"; "yes"]))
            else ret skip_confirm in
          if negb proceed then
            print (Str.nl +:+ "Deletion cancelled.") >>
            sys_exit 0
          else delete_and_report space_key
  end.

End DeleteSpace.
End DeleteSpace.

(** *** jira-spaces/scripts/create-space.py *)

Module CreateSpace.
Section CreateSpace.
Context {R : Remote} {G : Globals}.

(** [confluence_request] has the text of the one in delete-space.py. *)
Definition confluence_request : string → string → pyval → M pyval :=
  DeleteSpace.confluence_request.

Definition create_space (key name description : string) : M pyval :=
  let data := [("key", PStr (Str.upper key)); ("name", PStr name);
               ("type", PStr "global")] in
  let data :=
    if negb (String.eqb description "") then
      data ++ [("description",
                PDict [("plain", PDict [("value", PStr description);
                                        ("representation", PStr "plain")])])]
    else data in
  confluence_request "/space" "POST" (PDict data).

Definition usage : string :=
  Str.nl +:+ "Create Confluence Space" +:+ Str.nl
  +:+ Str.nl
  +:+ "Usage:" +:+ Str.nl
  +:+ "  python create-space.py KEY " +:+ Str.dq +:+ "Space Name" +:+ Str.dq +:+ Str.nl
  +:+ "  python create-space.py KEY " +:+ Str.dq +:+ "Space Name" +:+ Str.dq
  +:+ " " +:+ Str.dq +:+ "Description" +:+ Str.dq +:+ Str.nl
  +:+ Str.nl
  +:+ "Arguments:" +:+ Str.nl
  +:+ "  KEY         Space key (uppercase letters/numbers, no spaces)" +:+ Str.nl
  +:+ "  Name        Display name for the space" +:+ Str.nl
  +:+ "  Description Optional description" +:+ Str.nl
  +:+ Str.nl
  +:+ "Examples:" +:+ Str.nl
  +:+ "  python create-space.py DOCS " +:+ Str.dq +:+ "Project Documentation"
  +:+ Str.dq +:+ Str.nl
  +:+ "  python create-space.py TUSTLE " +:+ Str.dq +:+ "Tustle Docs" +:+ Str.dq
  +:+ " " +:+ Str.dq +:+ "Technical documentation for Tustle MVP" +:+ Str.dq
  +:+ Str.nl.

Definition show_usage : M unit := print usage.

Definition wants_help (args : list string) : bool :=
  bool_decide ("--help" ∈ args) || bool_decide ("-h" ∈ args).

(** [[A-Z0-9]*$]: upper-case letters and digits up to the end of the
    string, or up to a line feed that ends the string. *)
Fixpoint match_rest (s : string) : bool :=
  match s with
  | EmptyString => true
  | String c s' =>
      if Str.is_upper c || Str.is_digit c then match_rest s'
      else ascii_eqb c Str.LF && String.eqb s' ""
  end.

(** [re.match(r'^[A-Z][A-Z0-9]*$', s)] finds a match *)
Definition key_pattern_matches (s : string) : bool :=
  match s with
  | EmptyString => false
  | String c s' => Str.is_upper c && match_rest s'
  end.

(** The [try] statement that ends [main]. *)
Definition create_and_report (space_key space_name description : string)
    : M unit :=
  try_except
    (let* space := create_space space_key space_name description in
     print ("Space created successfully!" +:+ Str.nl) >>
     print Str.rule40 >>
     print "  DETAILS" >>
     print Str.rule40 >>
     let* key := lift (get_item space "key") in
     print ("Key:    " +:+ py_str key) >>
     let* name := lift (get_item space "name") in
     print ("Name:   " +:+ py_str name) >>
     let* type := lift (get_item space "type") in
     print ("Type:   " +:+ py_str type) >>
     let* id := lift (get_item space "id") in
     print ("ID:     " +:+ py_str id) >>
     let* status := lift (dict_get space "status" (PStr "current")) in
     print ("Status: " +:+ py_str status) >>
     print (Str.nl +:+ Str.rule40) >>
     print "  LINKS" >>
     print Str.rule40 >>
     let* key := lift (get_item space "key") in
     print ("Web:    " +:+ JIRA_BASE_URL +:+ "/wiki/spaces/" +:+ py_str key) >>
     let* key := lift (get_item space "key") in
     print ("API:    " +:+ JIRA_BASE_URL +:+ "/wiki/rest/api/space/"
            +:+ py_str key) >>
     print (Str.rule40 +:+ Str.nl))
    (λ e,
       let error_msg := str_exn e in
       (if Str.contains "409" error_msg then
          print ("Error: Space with key '" +:+ space_key +:+ "' already exists.") >>
          print "Please choose a different space key."
        else if Str.contains "403" error_msg then
          print "Error: You do not have permission to create spaces." >>
          print "Contact your Confluence administrator."
        else
          print ("Error creating space: " +:+ str_exn e)) >>
       sys_exit 1).

(** [main], on [args = sys.argv[1:]] *)
Definition main (args : list string) : M unit :=
  match args with
  | arg0 :: arg1 :: rest =>
      if wants_help args then show_usage >> sys_exit 0
      else
        let space_key := Str.upper arg0 in
        let space_name := arg1 in
        let description := match rest with d :: _ => d | [] => "" end in
        if negb (key_pattern_matches space_key) then
          print "Error: Space key must start with a letter and contain only uppercase letters and numbers." >>
          print "Example: DOCS, PROJ, TUSTLE" >>
          sys_exit 1
        else
          print Str.rule40 >>
          print "  CREATE CONFLUENCE SPACE" >>
          print (Str.rule40 +:+ Str.nl) >>
          print "Creating space:" >>
          print ("  Key:         " +:+ space_key) >>
          print ("  Name:        " +:+ space_name) >>
          (if negb (String.eqb description "") then
             print ("  Description: " +:+ description)
           else ret tt) >>
          print "" >>
          create_and_report space_key space_name description
  | _ => show_usage >> sys_exit (if wants_help args then 0 else 1)
  end.

End CreateSpace.
End CreateSpace.

(** ** Vocabulary of the specification *)

Module Spec.

(** Is the key present in the section? *)
Definition has_key (section : gmap string pyval) (key : string) : bool :=
  match section !! key with
  | Some _ => true
  | None => false
  end.

(** The number of keys of a section among heading, paragraph, bullets
    and code. *)
Definition count_keys (section : gmap string pyval) : nat :=
  ((if has_key section "heading" then 1 else 0)
   + (if has_key section "paragraph" then 1 else 0)
   + (if has_key section "bullets" then 1 else 0)
   + (if has_key section "code" then 1 else 0))%nat.

(** The block types a section contributes, in the fixed order. *)
Definition expected_types (section : gmap string pyval) : list string :=
  (if has_key section "heading" then ["heading"] else [])
  ++ (if has_key section "paragraph" then ["paragraph"] else [])
  ++ (if has_key section "bullets" then ["bulletList"] else [])
  ++ (if has_key section "code" then ["codeBlock"] else []).

(** A variable counts for the configuration when it is set to a
    non-empty string. *)
Definition usable (env : gmap string string) (key : string) : bool :=
  match env !! key with
  | Some v => negb (String.eqb v "")
  | None => false
  end.

(** What [os.environ.get(key)] reads. *)
Definition env_value (env : gmap string string) (key : string) : pyval :=
  match env !! key with
  | Some v => PStr v
  | None => PNone
  end.

(** The configuration record for the environment [env]: the three
    credentials as they are read, the project key with SCRUM and the
    board id with 1 as defaults. *)
Definition config_of (env : gmap string string) : pyval :=
  PDict [("email", env_value env "JIRA_EMAIL");
         ("token", env_value env "JIRA_API_TOKEN");
         ("base_url", env_value env "JIRA_BASE_URL");
         ("project_key", PStr (default "SCRUM" (env !! "JIRA_PROJECT_KEY")));
         ("board_id", PStr (default "1" (env !! "JIRA_BOARD_ID")))].

(** [s'] keeps every variable [s] has, with its value. *)
Definition keeps_environ {R : Remote} (s s' : proc) : Prop :=
  ∀ key value, environ s !! key = Some value → environ s' !! key = Some value.

(** A computation that sends nothing to the server. *)
Definition silent {R : Remote} {A} (m : M A) : Prop :=
  ∀ s, sent (m s).2 = sent s ∧ remote (m s).2 = remote s.

(** A computation that sends exactly the request [req]. *)
Definition sends_one {R : Remote} {A} (req : request) (m : M A) : Prop :=
  ∀ s, sent (m s).2 = sent s ++ [req].

(** A computation that can only fail with an [Exception], never with
    [SystemExit]. *)
Definition tame {R : Remote} {A} (m : M A) : Prop :=
  ∀ s e, (m s).1 = Raise e → is_Exception e = true.

(** The lines [get_config] writes to the standard error stream. *)
Definition missing_report : list string :=
  ["Error: Missing required environment variables.";
   "Required: JIRA_EMAIL, JIRA_API_TOKEN, JIRA_BASE_URL";
   "Set these in .claude/skills/jira/.env or export them manually."].

(** The ["type"] entry of a block node. *)
Definition block_type (block : pyval) : option pyval :=
  match block with
  | PDict d => assoc "type" d
  | _ => None
  end.

(** What an HTTP helper makes of the reply to its request: no content
    for the success statuses of [empty_on], the parsed body for the
    other success statuses, and for an error status an exception whose
    message is the status code and the first [snippet] characters of the
    body. *)
Definition helper_outcome {R : Remote} (empty_on : list Z) (snippet : nat)
    (r : reply) : result pyval :=
  match r with
  | HttpReply status _ body =>
      if (200 <=? status) && (status <? 300) then
        if existsb (Z.eqb status) empty_on then Ok PNone
        else match json_loads body with
             | inr v => Ok v
             | inl msg => Raise (JSONDecodeError msg)
             end
      else Raise (Exception (pretty status +:+ ": " +:+ Str.take snippet body))
  | Unreachable reason => Raise (URLError reason)
  end.

Definition is_status (code : Z) (r : reply) : bool :=
  match r with
  | HttpReply status _ _ => status =? code
  | Unreachable _ => false
  end.

(** The request the helpers build. *)
Definition request_for (url method : string) (headers : list (string * string))
    (data : pyval) : request :=
  {| req_url := url;
     req_data := if truthy data then Some data else None;
     req_headers := headers;
     req_method := method |}.

(** The body of an issue creation with the given summary, followed by
    the optional fields [more]. *)
Definition issue_body {G : Globals} (issue_type summary : string)
    (more : list (string * pyval)) : pyval :=
  PDict [("fields",
          PDict ([("project", PDict [("key", PStr PROJECT_KEY)]);
                  ("issuetype", PDict [("name", PStr issue_type)]);
                  ("summary", PStr summary)] ++ more))].

(** A transition as the specification has it: an id, a display name
    and the name of the destination status. *)
Record transition : Type := {
  tr_id : string;
  tr_name : string;
  tr_to : string
}.

(** The JSON value of a transition. *)
Definition transition_value (t : transition) : pyval :=
  PDict [("id", PStr (tr_id t)); ("name", PStr (tr_name t));
         ("to", PDict [("name", PStr (tr_to t))])].

(** The destination status of [t] is [target], whatever the case. *)
Definition goes_to (target : string) (t : transition) : bool :=
  String.eqb (Str.lower (tr_to t)) (Str.lower target).

(** The display name of [t] is [target], whatever the case. *)
Definition is_named (target : string) (t : transition) : bool :=
  String.eqb (Str.lower (tr_name t)) (Str.lower target).

(** [found] is the first transition of [ts] that satisfies [p], or
    [None] when no transition of [ts] does. *)
Definition first_match (p : transition → bool) (ts : list transition)
    (found : pyval) : Prop :=
  (found = PNone ∧ Forall (λ t, p t = false) ts)
  ∨ ∃ before t after,
      ts = before ++ t :: after
      ∧ found = transition_value t
      ∧ p t = true
      ∧ Forall (λ t, p t = false) before.

(** The entry of the description in the body of a space creation. *)
Definition description_entry (description : string) : list (string * pyval) :=
  if negb (String.eqb description "") then
    [("description",
      PDict [("plain", PDict [("value", PStr description);
                              ("representation", PStr "plain")])])]
  else [].

(** What [delete_and_report] prints for an exception message. *)
Definition failure_lines (space_key error_msg : string) : list string :=
  if Str.contains "403" error_msg then
    ["Error: You do not have permission to delete this space.";
     "Contact your Confluence administrator."]
  else if Str.contains "404" error_msg then
    ["Error: Space '" +:+ space_key
     +:+ "' not found (may have already been deleted)."]
  else ["Error deleting space: " +:+ error_msg].

(** The request that creates a space: key, name and type, followed by
    the optional description. *)
Definition space_request {G : Globals} (key name : string)
    (more : list (string * pyval)) : request :=
  request_for (JIRA_BASE_URL +:+ "/wiki/rest/api/space") "POST" HEADERS
    (PDict ([("key", PStr key); ("name", PStr name);
             ("type", PStr "global")] ++ more)).

(** The request that creates an issue. *)
Definition create_request {G : Globals} (issue_type summary : string)
    (more : list (string * pyval)) : request :=
  request_for (JIRA_BASE_URL +:+ "/rest/api/3/issue") "POST" HEADERS
    (issue_body issue_type summary more).

(** The request [create_issue] of bulk-create sends for a commit
    message. *)
Definition item_request {G : Globals} (commit_msg : string) : request :=
  create_request "Story" (Str.take 255 commit_msg) [].

(** Is [req] a POST to the issue endpoint? *)
Definition is_create {G : Globals} (req : request) : bool :=
  String.eqb (req_method req) "POST"
  && String.eqb (req_url req) (JIRA_BASE_URL +:+ "/rest/api/3/issue").

(** The issue creations of a log of requests, in order. *)
Definition creations {G : Globals} (log : list request) : list request :=
  List.filter is_create log.

(** A computation that sends no issue creation. *)
Definition quiet {R : Remote} {G : Globals} {A} (m : M A) : Prop :=
  ∀ s, creations (sent (m s).2) = creations (sent s).

(** Every batch but the last has [n] items; the last has between 1 and
    [n]. *)
Fixpoint full_but_last {A} (n : nat) (bs : list (list A)) : Prop :=
  match bs with
  | [] => True
  | [b] => (0 < length b ≤ n)%nat
  | b :: rest => length b = n ∧ full_but_last n rest
  end.

(** The counters after a run over [n] items that started from
    [counts]. *)
Definition advanced (n : nat) (counts counts' : Z * Z) : Prop :=
  counts.1 ≤ counts'.1 ∧ counts.2 ≤ counts'.2
  ∧ counts'.1 + counts'.2 = counts.1 + counts.2 + Z.of_nat n.


(** A list with the positions of its elements, counted from [k]. *)
Fixpoint numbered_from {A} (k : nat) (l : list A) : list (nat * A) :=
  match l with
  | [] => []
  | x :: l' => (k, x) :: numbered_from (S k) l'
  end.

(** The elements with their positions, counted from 1. *)
Definition numbered {A} : list A → list (nat * A) := numbered_from 1.

(** The line that announces batch [number] of [total]. *)
Definition batch_header (number total : nat) : string :=
  Str.nl +:+ "--- Processing batch " +:+ pretty number +:+ "/"
  +:+ pretty total +:+ " ---".

(** A run over batches that are given as such: each batch in turn is
    announced by its header, with its position and the number of
    batches, and then its items are processed one by one; the counters
    start at zero. *)
Definition run_batches {R : Remote} {G : Globals}
    (batches : list (list string)) : M (Z * Z) :=
  for_fold (numbered batches)
    (λ nb counts,
       print (batch_header nb.1 (length batches)) >>
       for_fold nb.2 BulkCreate.process_item counts)
    (0, 0).

(** The strings the pattern [^[A-Z][A-Z0-9]*$] accepts, said without the
    matcher: an upper-case letter, then upper-case letters and digits
    only, and possibly one line feed at the very end (the dollar sign
    also matches just before a final line feed). *)
Definition follows_key_pattern (s : string) : Prop :=
  ∃ (first : ascii) (rest : string),
    (s = String first rest ∨ s = String first (rest +:+ Str.nl))
    ∧ Str.is_upper first = true
    ∧ Forall (λ c, Str.is_upper c = true ∨ Str.is_digit c = true)
        (String.list_ascii_of_string rest).

(** A string of ASCII characters: on these [Str.upper] and [Str.lower]
    are the [upper] and [lower] of Python, which change more than the
    letters a to z on other characters. *)
Definition is_ascii (s : string) : bool :=
  forallb (λ c, (N_of_ascii c <? 128)%N) (String.list_ascii_of_string s).

End Spec.

(** ** A scripted server, for concrete runs *)

Module Scripted.

(** A JSON object whose values are strings, as text. *)
Definition quoted (s : string) : string := Str.dq +:+ s +:+ Str.dq.

Fixpoint members (fields : list (string * string)) : string :=
  match fields with
  | [] => ""
  | [(k, v)] => quoted k +:+ ": " +:+ quoted v
  | (k, v) :: rest => quoted k +:+ ": " +:+ quoted v +:+ ", " +:+ members rest
  end.

Definition object_text (fields : list (string * string)) : string :=
  "{" +:+ members fields +:+ "}".

Definition object_value (fields : list (string * string)) : pyval :=
  PDict ((λ kv, (kv.1, PStr kv.2)) <$> fields).

(** The parser knows the objects of [known]; any other text is not
    JSON for it. *)
Fixpoint parse (known : list (list (string * string))) (text : string)
    : string + pyval :=
  match known with
  | [] => inl "Expecting value: line 1 column 1 (char 0)"
  | fields :: rest =>
      if String.eqb text (object_text fields) then inr (object_value fields)
      else parse rest text
  end.

(** The server state is the list of the replies still to give, one per
    request, whatever the request. *)
Definition remote_of (known : list (list (string * string))) : Remote :=
  {| server := list reply;
     answer := λ replies _,
       match replies with
       | [] => (Unreachable "connection refused", [])
       | r :: rest => (r, rest)
       end;
     json_loads := parse known;
     repr := λ _, "<container>" |}.

Definition globals : Globals :=
  {| JIRA_BASE_URL := "https://example.atlassian.net";
     PROJECT_KEY := "SCRUM";
     HEADERS := [("Authorization", "Basic dXNlcjp0b2tlbg==");
                 ("Content-Type", "application/json");
                 ("Accept", "application/json")] |}.

(** A fresh process: nothing sent, nothing printed. *)
Definition start {known} (replies : list reply) (inp : list string)
    (env : gmap string string) (envfile : option string)
    : @proc (remote_of known) :=
  {| remote := (replies : @server (remote_of known)); sent := [];
     stdout := []; stderr := [];
     stdin := inp; environ := env;
     dotenv := λ _, envfile; git_log := λ _, None |}.

(** A transition, and the answer to a request for transitions, as JSON
    text. *)
Definition transition_text (t : Spec.transition) : string :=
  "{" +:+ quoted "id" +:+ ": " +:+ quoted (Spec.tr_id t) +:+ ", "
  +:+ quoted "name" +:+ ": " +:+ quoted (Spec.tr_name t) +:+ ", "
  +:+ quoted "to" +:+ ": {" +:+ quoted "name" +:+ ": "
  +:+ quoted (Spec.tr_to t) +:+ "}}".

Fixpoint elements (texts : list string) : string :=
  match texts with
  | [] => ""
  | [t] => t
  | t :: rest => t +:+ ", " +:+ elements rest
  end.

Definition transitions_text (ts : list Spec.transition) : string :=
  "{" +:+ quoted "transitions" +:+ ": [" +:+ elements (transition_text <$> ts)
  +:+ "]}".

Definition transitions_value (ts : list Spec.transition) : pyval :=
  PDict [("transitions", PList (Spec.transition_value <$> ts))].

(** A parser given by a table of texts and their values. *)
Fixpoint parse_table (table : list (string * pyval)) (text : string)
    : string + pyval :=
  match table with
  | [] => inl "Expecting value: line 1 column 1 (char 0)"
  | (known, v) :: rest =>
      if String.eqb text known then inr v else parse_table rest text
  end.

(** The scripted server with a parser given by a table. *)
Definition remote_with (table : list (string * pyval)) : Remote :=
  {| server := list reply;
     answer := λ replies _,
       match replies with
       | [] => (Unreachable "connection refused", [])
       | r :: rest => (r, rest)
       end;
     json_loads := parse_table table;
     repr := λ _, "<container>" |}.

Definition start_with {table} (replies : list reply) (inp : list string)
    : @proc (remote_with table) :=
  {| remote := (replies : @server (remote_with table)); sent := [];
     stdout := []; stderr := [];
     stdin := inp; environ := ∅;
     dotenv := λ _, None; git_log := λ _, None |}.

End Scripted.

(** ** Concrete runs *)

Module Examples.

Definition space_fields : list (string * string) :=
  [("id", "98306"); ("key", "DOCS"); ("name", "Project Documentation");
   ("type", "global")].

Definition issue_fields : list (string * string) :=
  [("id", "10001"); ("key", "SCRUM-1")].

(** The server of the examples understands two JSON objects: a space
    and a created issue. *)
Definition world : Remote := Scripted.remote_of [space_fields; issue_fields].

Definition run (replies : list reply) (inp : list string) : @proc world :=
  Scripted.start replies inp ∅ None.

Definition not_found : reply := HttpReply 404 "Not Found" "".

Definition space_found : reply :=
  HttpReply 200 "OK" (Scripted.object_text space_fields).

Definition issue_created : reply :=
  HttpReply 201 "Created" (Scripted.object_text issue_fields).

Definition server_error : reply :=
  HttpReply 500 "Internal Server Error" "".

(** The three transitions of the scenario. *)
Definition start_transition : Spec.transition :=
  {| Spec.tr_id := "11"; Spec.tr_name := "Start"; Spec.tr_to := "Progressing" |}.
Definition close_transition : Spec.transition :=
  {| Spec.tr_id := "21"; Spec.tr_name := "Close"; Spec.tr_to := "Done" |}.
Definition reopen_transition : Spec.transition :=
  {| Spec.tr_id := "31"; Spec.tr_name := "Reopen"; Spec.tr_to := "To Do" |}.

Definition demo_transitions : list Spec.transition :=
  [start_transition; close_transition; reopen_transition].

(** A transition whose display name is Done and whose destination
    status has another name. *)
Definition named_done : Spec.transition :=
  {| Spec.tr_id := "41"; Spec.tr_name := "Done"; Spec.tr_to := "Closed" |}.

(** A summary of 256 characters. *)
Definition long_summary : string := Str.repeat (ascii_of_N 97) 256.

(** A process whose environment has the e-mail address set, started
    next to a [.env] file that gives another address and a token. *)
Definition env_example : @proc world :=
  Scripted.start [] [] {[ "JIRA_EMAIL" := "me@example.com" ]}
    (Some ("# credentials" +:+ Str.nl
           +:+ "JIRA_EMAIL = other@example.com" +:+ Str.nl
           +:+ "JIRA_API_TOKEN=secret" +:+ Str.nl)).

(** All three required variables are present, the e-mail address with
    an empty value (a line [JIRA_EMAIL=] of the [.env] file gives
    that). *)
Definition empty_email : @proc world :=
  Scripted.start [] []
    {[ "JIRA_EMAIL" := ""; "JIRA_API_TOKEN" := "secret";
       "JIRA_BASE_URL" := "https://example.atlassian.net" ]} None.

(** The three credentials are set in the process environment; the
    [.env] file defines the project key twice and the board id once. *)
Definition configured : @proc world :=
  Scripted.start [] []
    {[ "JIRA_EMAIL" := "me@example.com"; "JIRA_API_TOKEN" := "secret";
       "JIRA_BASE_URL" := "https://example.atlassian.net";
       "JIRA_BOARD_ID" := "7" ]}
    (Some ("JIRA_PROJECT_KEY=DOCS" +:+ Str.nl
           +:+ "JIRA_PROJECT_KEY=OTHER" +:+ Str.nl
           +:+ "JIRA_BOARD_ID=2" +:+ Str.nl)).

(** A server that understands the listing of the three transitions of
    the scenario, a created issue and a space. *)
Definition listing_world : Remote :=
  Scripted.remote_with
    [(Scripted.transitions_text demo_transitions,
      Scripted.transitions_value demo_transitions);
     (Scripted.object_text issue_fields, Scripted.object_value issue_fields);
     (Scripted.object_text space_fields, Scripted.object_value space_fields)].

Definition listing_run (replies : list reply) (inp : list string)
    : @proc listing_world :=
  Scripted.start_with replies inp.

Definition transitions_listed : reply :=
  HttpReply 200 "OK" (Scripted.transitions_text demo_transitions).

Definition no_content : reply := HttpReply 204 "No Content" "".

(** An issue of a search result, and one that lacks its key. *)
Definition found_issue : pyval := PDict [("id", PStr "10001"); ("key", PStr "SCRUM-1")].
Definition keyless_issue : pyval := PDict [("id", PStr "10002")].
Definition second_issue : pyval := PDict [("id", PStr "10003"); ("key", PStr "SCRUM-2")].

End Examples.

(** ** Vocabulary of the further properties *)

Module Vocab.

(** Can [for x in v] run? *)
Definition iterable (v : pyval) : bool :=
  match v with
  | PList _ | PDict _ | PStr _ => true
  | _ => false
  end.

(** The section gives a [bullets] value that cannot be iterated. *)
Definition bad_bullets (section : gmap string pyval) : bool :=
  match section !! "bullets" with
  | Some bullets => negb (iterable bullets)
  | None => false
  end.

(** The variable a line of the [.env] file defines, if it defines one:
    the line is not blank, is not a comment and has an equals sign; the
    name is what precedes the first equals sign, the value what follows
    it, both without surrounding white space. *)
Definition env_entry (line : string) : option (string * string) :=
  let line := Str.strip line in
  if negb (String.eqb line "")
     && negb (String.prefix "#" line)
     && Str.has_char (ascii_of_N 61) line
  then match Str.split_once (ascii_of_N 61) line with
       | Some (key, value) => Some (Str.strip key, Str.strip value)
       | None => None
       end
  else None.

(** The definitions of a [.env] file, in the order of its lines. *)
Definition file_entries (text : string) : list (string * string) :=
  omap env_entry (Str.lines text).

(** The definitions [load_env] reads: those of the file, none when the
    file does not exist. *)
Definition loaded_entries (file : option string) : list (string * string) :=
  match file with
  | Some text => file_entries text
  | None => []
  end.

(** The value of the first definition of [key] in a list of
    definitions. *)
Fixpoint first_value (key : string) (entries : list (string * string))
    : option string :=
  match entries with
  | [] => None
  | (k, v) :: rest => if String.eqb key k then Some v else first_value key rest
  end.

(** The value of a variable once the definitions [entries] were merged
    into the environment [env]: the value of [env] if it has one, else
    the first definition. *)
Definition merged (env : gmap string string) (entries : list (string * string))
    (key : string) : option string :=
  match env !! key with
  | Some v => Some v
  | None => first_value key entries
  end.

(** [s'] differs from [s] in [os.environ] at most. *)
Definition same_but_environ {R : Remote} (s s' : proc) : Prop :=
  remote s' = remote s ∧ sent s' = sent s
  ∧ stdout s' = stdout s ∧ stderr s' = stderr s ∧ stdin s' = stdin s
  ∧ dotenv s' = dotenv s ∧ git_log s' = git_log s.

(** The request [delete_issue] of delete-all sends. *)
Definition delete_issue_request {G : Globals} (issue_key : string)
    (delete_subtasks : bool) : request :=
  {| req_url := JIRA_BASE_URL +:+ "/rest/api/3/issue/" +:+ issue_key
                +:+ "?deleteSubtasks="
                +:+ (if delete_subtasks then "true" else "false");
     req_data := None;
     req_headers := HEADERS;
     req_method := "DELETE" |}.

(** The optional fields of a story: the parent and the labels, each
    only when it is given and not empty. *)
Definition story_options (parent_epic_key labels : pyval)
    : list (string * pyval) :=
  (if truthy parent_epic_key then [("parent", PDict [("key", parent_epic_key)])]
   else [])
  ++ (if truthy labels then [("labels", labels)] else []).

(** The request of the template that creates an issue of type
    [issue_type] with a description. *)
Definition described_issue_request (base_url : string)
    (headers : list (string * string)) (project_key issue_type summary : string)
    (description : pyval) (more : list (string * pyval)) : request :=
  Spec.request_for (base_url +:+ "/rest/api/3/issue") "POST" headers
    (PDict [("fields",
             PDict ([("project", PDict [("key", PStr project_key)]);
                     ("issuetype", PDict [("name", PStr issue_type)]);
                     ("summary", PStr summary);
                     ("description", description)] ++ more))]).

(** The answer of the server to a request for the transitions of an
    issue parses to a value whose [transitions] are [ts]. *)
Definition lists_transitions {R : Remote} (r : reply)
    (ts : list Spec.transition) : Prop :=
  ∃ status reason body v,
    r = HttpReply status reason body
    ∧ 200 ≤ status < 300 ∧ status ≠ 204
    ∧ json_loads body = inr v
    ∧ get_item v "transitions" = Ok (PList (Spec.transition_value <$> ts)).

(** The line [transition_to] prints for an available transition. *)
Definition transition_line (t : Spec.transition) : string :=
  "  - " +:+ Spec.tr_name t +:+ " -> " +:+ Spec.tr_to t.

(** The request that executes the transition [t] on an issue. *)
Definition transition_request {G : Globals} (issue_key : string)
    (t : Spec.transition) : request :=
  Spec.request_for (JIRA_BASE_URL +:+ "/rest/api/3/issue/" +:+ issue_key
                    +:+ "/transitions") "POST" HEADERS
    (PDict [("transition", PDict [("id", PStr (Spec.tr_id t))])]).






(** The request with which delete-all searches the issues of the
    project. *)
Definition search_request {G : Globals} : request :=
  Spec.request_for
    (JIRA_BASE_URL +:+ "/rest/api/3/search/jql?jql="
     +:+ Str.quote ("project = " +:+ PROJECT_KEY +:+ " ORDER BY key ASC")
     +:+ "&maxResults=500&fields=key") "GET" HEADERS PNone.

(** A computation that only adds to the log of requests. *)
Definition appends {R : Remote} {A} (m : M A) : Prop :=
  ∀ s, ∃ more, sent (m s).2 = sent s ++ more.

(** The actions of workflow-demo. *)
Definition known_action (action : string) : bool :=
  bool_decide (action ∈ ["demo"; "start"; "complete"; "reopen"; "status"]).

(** The request with which create-one creates its test story. *)
Definition test_story_request {G : Globals} : request :=
  Spec.create_request "Story" "[Test-Python] Story created from Python script"
    [("description",
      Template.simple_adf
        (PStr "This is a test story created by the Python Jira script."))].

(** The only ways a run of an entry point ends: it returns, or it calls
    [sys.exit] with 0 or 1; no other exception leaves it. *)
Definition ends_cleanly {A} (r : result A) : Prop :=
  (∃ a, r = Ok a) ∨ r = Raise (SystemExit 0) ∨ r = Raise (SystemExit 1).

(** A text that can stand in the path of a request: printable ASCII
    characters only, no blank, and no number sign (which would start a
    fragment).  http.client refuses a request line with a blank or a
    control character, and one that is not ASCII cannot be encoded. *)
Definition url_safe (text : string) : bool :=
  forallb (λ c, Str.in_range 33 126 c && negb (ascii_eqb c (ascii_of_N 35)))
    (String.list_ascii_of_string text).

(** A printed line that announces a batch. *)
Definition is_batch_header (line : string) : bool :=
  String.prefix (Str.nl +:+ "--- Processing batch ") line.

(** The batch headers among the lines printed, in order. *)
Definition batch_headers (out : list string) : list string :=
  List.filter is_batch_header out.

(** A computation that prints no batch header. *)
Definition plain {R : Remote} {A} (m : M A) : Prop :=
  ∀ s, batch_headers (stdout (m s).2) = batch_headers (stdout s).

End Vocab.

(** * Properties *)

Module StrFacts.

Lemma length_take n s :
  String.length (Str.take n s) = Nat.min n (String.length s).
Proof.
  revert s; induction n as [|n IH]; intros [|c s]; simpl; auto.
Qed.

Lemma take_all n s : (String.length s ≤ n)%nat → Str.take n s = s.
Proof.
  revert s; induction n as [|n IH]; intros [|c s]; simpl; intros H;
    try reflexivity; try lia.
  f_equal. apply IH. lia.
Qed.

Lemma take_is_prefix n s : ∃ rest, s = Str.take n s +:+ rest.
Proof.
  revert s; induction n as [|n IH]; intros [|c s]; simpl.
  - by exists "".
  - by eexists.
  - by exists "".
  - destruct (IH s) as [r Hr]. exists r.
    change (String c s = String c (Str.take n s +:+ r)). congruence.
Qed.

Lemma prefix_app s t : String.prefix s (s +:+ t) = true.
Proof.
  induction s as [|c s IH]; simpl.
  - by destruct t.
  - destruct (Stdlib.Strings.Ascii.ascii_dec c c); [apply IH | congruence].
Qed.

Lemma contains_prefix sub t : Str.contains sub (sub +:+ t) = true.
Proof.
  assert (H := prefix_app sub t).
  destruct (sub +:+ t); cbn [Str.contains]; rewrite H; reflexivity.
Qed.

End StrFacts.

(** ** The ADF builder *)

Module AdfFacts.
Import Template Spec.

Lemma add_section_app content section :
  add_section content section =
  and_then (add_section [] section) (λ blocks, Ok (content ++ blocks)).
Proof.
  unfold add_section.
  destruct (section !! "heading"), (section !! "paragraph"),
    (section !! "bullets") as [bullets|], (section !! "code");
    try destruct (iterate bullets); simpl;
    rewrite <- ?app_assoc, ?app_nil_r; reflexivity.
Qed.

Lemma add_section_blocks section blocks :
  add_section [] section = Ok blocks →
  block_type <$> blocks = (λ t, Some (PStr t)) <$> expected_types section
  ∧ length blocks = count_keys section.
Proof.
  unfold add_section, expected_types, count_keys, has_key.
  destruct (section !! "heading"), (section !! "paragraph"),
    (section !! "bullets") as [bullets|], (section !! "code");
    try destruct (iterate bullets); simpl;
    intros [= <-]; split; reflexivity.
Qed.

Lemma add_section_raises section e :
  add_section [] section = Raise e →
  ∃ bullets, section !! "bullets" = Some bullets ∧ iterate bullets = Raise e.
Proof.
  unfold add_section.
  destruct (section !! "heading"), (section !! "paragraph"),
    (section !! "bullets") as [bullets|], (section !! "code");
    try destruct (iterate bullets) eqn:E; simpl; intros [= <-]; eauto.
Qed.

Lemma build_adf_loop_spec sections : ∀ content,
  match build_adf_loop content sections with
  | Ok content' =>
      ∃ groups,
        content' = content ++ concat groups
        ∧ Forall2 (λ section blocks, add_section [] section = Ok blocks)
            sections groups
  | Raise e =>
      ∃ section, section ∈ sections ∧ add_section [] section = Raise e
  end.
Proof.
  induction sections as [|section rest IH]; intros content; simpl.
  - exists []. simpl. rewrite app_nil_r. auto.
  - rewrite add_section_app.
    destruct (add_section [] section) as [blocks|e] eqn:E; simpl.
    + specialize (IH (content ++ blocks)).
      destruct (build_adf_loop (content ++ blocks) rest) as [content'|e'].
      * destruct IH as (groups & -> & HF).
        exists (blocks :: groups). simpl. rewrite app_assoc. auto.
      * destruct IH as (sec & Hin & Hsec).
        exists sec. split; [by right | done].
    + exists section. split; [by left | done].
Qed.

(** C1.  Whenever [build_adf] returns a document, it is a dict of type
    doc whose entry [content] is the list of blocks that is the
    concatenation, in section order, of the blocks each section emits
    on its own; the block types of one section are heading, paragraph,
    bulletList, codeBlock restricted to the keys that are present, and
    the content has as many blocks as there are such keys in all the
    sections.  The only way not to return a document is a [bullets]
    value that cannot be iterated. *)
Theorem build_adf_content (sections : list (gmap string pyval)) :
  match build_adf sections with
  | Ok document =>
      ∃ groups : list (list pyval),
        document = doc (concat groups)
        ∧ get_item document "type" = Ok (PStr "doc")
        ∧ get_item document "content" = Ok (PList (concat groups))
        ∧ Forall2 (λ section blocks,
              add_section [] section = Ok blocks
              ∧ block_type <$> blocks
                = (λ t, Some (PStr t)) <$> expected_types section)
            sections groups
        ∧ length (concat groups) = sum_list (count_keys <$> sections)
  | Raise e =>
      ∃ section bullets,
        section ∈ sections
        ∧ section !! "bullets" = Some bullets
        ∧ iterate bullets = Raise e
  end.
Proof.
  unfold build_adf.
  pose proof (build_adf_loop_spec sections []) as H.
  destruct (build_adf_loop [] sections) as [content|e].
  - destruct H as (groups & -> & HF). exists groups. simpl.
    split; [reflexivity|]. split; [reflexivity|]. split; [reflexivity|]. split.
    + eapply Forall2_impl; [exact HF|]. simpl. intros sec g Hg.
      split; [done|]. by apply add_section_blocks.
    + clear -HF. induction HF as [|sec g secs gs Hg _ IH]; simpl; [done|].
      rewrite length_app, IH. f_equal. by apply add_section_blocks.
  - destruct H as (sec & Hin & Hsec).
    apply add_section_raises in Hsec as (bullets & ? & ?). eauto.
Qed.

(** The call of the docstring of [build_adf]. *)
Example build_adf_docstring :
  build_adf [ {[ "heading" := PStr "Overview" ]};
              {[ "paragraph" := PStr "This is the overview text." ]};
              {[ "heading" := PStr "Steps"; "level" := PInt 3 ]};
              {[ "bullets" := PList [PStr "Step 1"; PStr "Step 2"; PStr "Step 3"] ]};
              {[ "code" := PStr "console.log(hello)";
                 "language" := PStr "javascript" ]} ]
  = Ok (doc [ heading_block ∅ (PStr "Overview");
              paragraph_block (PStr "This is the overview text.");
              heading_block {[ "level" := PInt 3 ]} (PStr "Steps");
              bullet_list_block [PStr "Step 1"; PStr "Step 2"; PStr "Step 3"];
              code_block {[ "language" := PStr "javascript" ]}
                (PStr "console.log(hello)") ]).
Proof. vm_compute. reflexivity. Qed.

(** A section with several keys emits several blocks, in the fixed
    order; a string given for [bullets] is iterated character by
    character. *)
Example build_adf_mixed :
  build_adf [ {[ "code" := PStr "x = 1"; "bullets" := PStr "ab";
                 "heading" := PStr "Title" ]} ]
  = Ok (doc [ heading_block ∅ (PStr "Title");
              bullet_list_block [PStr "a"; PStr "b"];
              code_block ∅ (PStr "x = 1") ]).
Proof. vm_compute. reflexivity. Qed.

End AdfFacts.

(** ** Configuration loading *)

Module ConfigFacts.
Import Template Spec.

Section ConfigFacts.
Context {R : Remote}.

Lemma keeps_environ_refl s : keeps_environ s s.
Proof. by intros k v. Qed.

Lemma keeps_environ_trans s1 s2 s3 :
  keeps_environ s1 s2 → keeps_environ s2 s3 → keeps_environ s1 s3.
Proof. intros H12 H23 k v Hk. eauto. Qed.

Lemma environ_setdefault_keeps key value s :
  keeps_environ s (environ_setdefault key value s).2.
Proof.
  unfold environ_setdefault.
  destruct (environ s !! key) as [old|] eqn:E; simpl.
  - apply keeps_environ_refl.
  - destruct (_ || _); [apply keeps_environ_refl|].
    destruct (String.eqb key ""); [apply keeps_environ_refl|].
    intros k v Hk. simpl.
    rewrite lookup_insert_ne; [done|]. congruence.
Qed.

Lemma load_env_line_keeps line s :
  keeps_environ s (load_env_line line s).2.
Proof.
  unfold load_env_line.
  destruct (_ && _); [|apply keeps_environ_refl].
  destruct (Str.split_once _ _) as [[key value]|];
    [apply environ_setdefault_keeps | apply keeps_environ_refl].
Qed.

Lemma for_each_keeps {A} (body : A → M unit) xs :
  (∀ x s, keeps_environ s (body x s).2) →
  ∀ s, keeps_environ s (for_each xs body s).2.
Proof.
  intros Hbody. induction xs as [|x xs IH]; intros s; simpl.
  - apply keeps_environ_refl.
  - unfold bind. specialize (Hbody x s).
    destruct (body x s) as [[[]|e] s1]; simpl in *; [|done].
    eapply keeps_environ_trans; [exact Hbody | apply IH].
Qed.

(** C5.  Loading the [.env] file leaves every variable that is set in
    the process environment with the value it had, whatever the file
    contains and whether or not the load runs to its end. *)
Theorem load_env_keeps_existing (levels_up : nat) (s : proc)
    (key value : string) :
  environ s !! key = Some value →
  environ (load_env levels_up s).2 !! key = Some value.
Proof.
  revert key value. change (keeps_environ s (load_env levels_up s).2).
  unfold load_env. destruct (dotenv s levels_up) as [text|].
  - apply for_each_keeps. intros; apply load_env_line_keeps.
  - apply keeps_environ_refl.
Qed.

(** C6, as the code has it.  [get_config] stops the process with
    [sys.exit(1)], after writing the three lines that name the required
    variables to the standard error stream, exactly when one of the
    e-mail address, the API token and the base URL is unset or set to
    the empty string; otherwise it returns the configuration, where the
    project key defaults to SCRUM and the board id to 1, and prints
    nothing. *)
Theorem get_config_outcome (s : proc) :
  get_config s =
  if usable (environ s) "JIRA_EMAIL"
     && usable (environ s) "JIRA_API_TOKEN"
     && usable (environ s) "JIRA_BASE_URL"
  then (Ok (config_of (environ s)), s)
  else (Raise (SystemExit 1), set_stderr (stderr s ++ missing_report) s).
Proof.
  unfold get_config, config_of, usable, env_value, bind, environ_get,
    environ_get_default, eprint, sys_exit, raise, ret, missing_report.
  simpl.
  destruct (environ s !! "JIRA_EMAIL") as [email|]; simpl;
    [destruct (String.eqb email ""); simpl|];
    (destruct (environ s !! "JIRA_API_TOKEN") as [token|]; simpl;
     [destruct (String.eqb token ""); simpl|]);
    (destruct (environ s !! "JIRA_BASE_URL") as [url|]; simpl;
     [destruct (String.eqb url ""); simpl|]);
    try reflexivity;
    unfold set_stderr; simpl; rewrite <- !app_assoc; reflexivity.
Qed.

End ConfigFacts.

Import Examples.

Lemma load_env_keeps_existing_witness :
  environ env_example !! "JIRA_EMAIL" = Some "me@example.com"
  ∧ environ (load_env 2 env_example).2 !! "JIRA_EMAIL" = Some "me@example.com"
  ∧ environ (load_env 2 env_example).2 !! "JIRA_API_TOKEN" = Some "secret".
Proof.
  split; [reflexivity|]. split.
  - apply (load_env_keeps_existing 2 env_example). reflexivity.
  - vm_compute. reflexivity.
Defined.

(** C6, as the specification states it, fails: no variable is absent,
    and [get_config] still exits with code 1. *)
Lemma get_config_present_but_empty :
  ¬ ((get_config empty_email).1 = Raise (SystemExit 1)
     ↔ (environ empty_email !! "JIRA_EMAIL" = None
        ∨ environ empty_email !! "JIRA_API_TOKEN" = None
        ∨ environ empty_email !! "JIRA_BASE_URL" = None)).
Proof.
  intros [Hfail _].
  assert (Hrun : (get_config empty_email).1 = Raise (SystemExit 1))
    by (vm_compute; reflexivity).
  destruct (Hfail Hrun) as [H|[H|H]]; vm_compute in H; discriminate H.
Qed.

End ConfigFacts.

(** ** The HTTP helpers *)

Module HelperFacts.
Import Spec.

Section HelperFacts.
Context {R : Remote} {G : Globals}.

Lemma jira_request_outcome base_url headers path method data s :
  let req := request_for (base_url +:+ "/rest/api/3" +:+ path) method headers data in
  Template.jira_request base_url headers path method data s
  = (helper_outcome [204] 300 (answer (remote s) req).1,
     set_remote (answer (remote s) req).2 req s).
Proof.
  unfold Template.jira_request, except_HTTPError, bind, urlopen, request_for,
    helper_outcome, loads, ret, raise. simpl.
  destruct (answer _ _) as [[status reason body|why] srv]; simpl; [|done].
  destruct ((200 <=? status) && (status <? 300)); simpl; [|done].
  rewrite orb_false_r. destruct (status =? 204); [done|].
  by destruct (json_loads body).
Qed.

Lemma make_request_outcome method path data s :
  let req := request_for (JIRA_BASE_URL +:+ "/rest/api/3" +:+ path) method HEADERS data in
  BulkCreate.make_request method path data s
  = (helper_outcome [204] 200 (answer (remote s) req).1,
     set_remote (answer (remote s) req).2 req s).
Proof.
  unfold BulkCreate.make_request, except_HTTPError, bind, urlopen, request_for,
    helper_outcome, loads, ret, raise. simpl.
  destruct (answer _ _) as [[status reason body|why] srv]; simpl; [|done].
  destruct ((200 <=? status) && (status <? 300)); simpl; [|done].
  rewrite orb_false_r. destruct (status =? 204); [done|].
  by destruct (json_loads body).
Qed.

Lemma confluence_request_outcome path method data s :
  let req := request_for (JIRA_BASE_URL +:+ "/wiki/rest/api" +:+ path) method HEADERS data in
  DeleteSpace.confluence_request path method data s
  = (helper_outcome [204; 202] 300 (answer (remote s) req).1,
     set_remote (answer (remote s) req).2 req s).
Proof.
  unfold DeleteSpace.confluence_request, except_HTTPError, bind, urlopen,
    request_for, helper_outcome, loads, ret, raise. simpl.
  destruct (answer _ _) as [[status reason body|why] srv]; simpl; [|done].
  destruct ((200 <=? status) && (status <? 300)); simpl; [|done].
  rewrite orb_false_r. destruct ((status =? 204) || (status =? 202)); [done|].
  by destruct (json_loads body).
Qed.

Lemma delete_all_make_request_outcome method path data s :
  let req := request_for (JIRA_BASE_URL +:+ "/rest/api/3" +:+ path) method HEADERS data in
  DeleteAll.make_request method path data s
  = (if is_status 404 (answer (remote s) req).1 then Ok PNone
     else helper_outcome [204] 200 (answer (remote s) req).1,
     set_remote (answer (remote s) req).2 req s).
Proof.
  unfold DeleteAll.make_request, except_HTTPError, bind, urlopen, request_for,
    helper_outcome, is_status, loads, ret, raise. simpl.
  destruct (answer _ _) as [[status reason body|why] srv]; simpl; [|done].
  destruct (Z.eqb_spec status 404) as [->|Hne]; simpl; [done|].
  apply Z.eqb_neq in Hne.
  destruct ((200 <=? status) && (status <? 300)); simpl; [|by rewrite Hne].
  rewrite orb_false_r. destruct (status =? 204); [done|].
  by destruct (json_loads body).
Qed.

Lemma check_issues_make_request_outcome method path data s :
  let req := request_for (JIRA_BASE_URL +:+ "/rest/api/3" +:+ path) method HEADERS data in
  CheckIssues.make_request method path data s
  = (helper_outcome [] 200 (answer (remote s) req).1,
     set_remote (answer (remote s) req).2 req s).
Proof.
  unfold CheckIssues.make_request, except_HTTPError, bind, urlopen, request_for,
    helper_outcome, loads, ret, raise. simpl.
  destruct (answer _ _) as [[status reason body|why] srv]; simpl; [|done].
  destruct ((200 <=? status) && (status <? 300)); simpl; [|done].
  by destruct (json_loads body).
Qed.

(** C7, as the code has it.  The helper of the template and the
    [make_request] of bulk-create, create-one and workflow-demo return
    no content on 204, the parsed body on any other success status, and
    raise an exception that carries the status code and the first 300
    (template) or 200 (scripts) characters of the body on an error
    status; the Confluence helper of create-space and delete-space does
    the same with 204 and 202 and 300 characters.  The [make_request] of
    delete-all returns no content on a 404 error instead of raising, and
    the one of check-issues parses the body of every success status. *)
Theorem http_helpers_outcome (base_url : string)
    (headers : list (string * string)) (path method : string) (data : pyval)
    (s : proc) :
  let jira := request_for (base_url +:+ "/rest/api/3" +:+ path) method headers data in
  let script := request_for (JIRA_BASE_URL +:+ "/rest/api/3" +:+ path) method HEADERS data in
  let wiki := request_for (JIRA_BASE_URL +:+ "/wiki/rest/api" +:+ path) method HEADERS data in
  (Template.jira_request base_url headers path method data s).1
    = helper_outcome [204] 300 (answer (remote s) jira).1
  ∧ (BulkCreate.make_request method path data s).1
    = helper_outcome [204] 200 (answer (remote s) script).1
  ∧ (CreateOne.make_request method path data s).1
    = helper_outcome [204] 200 (answer (remote s) script).1
  ∧ (WorkflowDemo.make_request method path data s).1
    = helper_outcome [204] 200 (answer (remote s) script).1
  ∧ (DeleteSpace.confluence_request path method data s).1
    = helper_outcome [204; 202] 300 (answer (remote s) wiki).1
  ∧ (CreateSpace.confluence_request path method data s).1
    = helper_outcome [204; 202] 300 (answer (remote s) wiki).1
  ∧ (DeleteAll.make_request method path data s).1
    = (if is_status 404 (answer (remote s) script).1 then Ok PNone
       else helper_outcome [204] 200 (answer (remote s) script).1)
  ∧ (CheckIssues.make_request method path data s).1
    = helper_outcome [] 200 (answer (remote s) script).1
  ∧ (∀ n body, (String.length (Str.take n body) ≤ n)%nat
               ∧ ∃ rest, body = Str.take n body +:+ rest).
Proof.
  simpl. unfold CreateOne.make_request, WorkflowDemo.make_request,
    CreateSpace.confluence_request.
  rewrite jira_request_outcome, make_request_outcome,
    confluence_request_outcome, delete_all_make_request_outcome,
    check_issues_make_request_outcome. simpl.
  repeat split; try reflexivity.
  - rewrite StrFacts.length_take. lia.
  - apply StrFacts.take_is_prefix.
Qed.

End HelperFacts.
End HelperFacts.

(** ** Effects of the monadic primitives *)

Module MonadFacts.
Import Spec.

Section MonadFacts.
Context {R : Remote}.

Lemma bind_print {B} line (k : M B) s :
  (print line >> k) s = k (set_stdout (stdout s ++ [line]) s).
Proof. reflexivity. Qed.

Lemma bind_raises {A B} (m : M A) (k : A → M B) s e s1 :
  m s = (Raise e, s1) → bind m k s = (Raise e, s1).
Proof. intros H. unfold bind. by rewrite H. Qed.

Lemma bind_returns {A B} (m : M A) (k : A → M B) s a s1 :
  m s = (Ok a, s1) → bind m k s = k a s1.
Proof. intros H. unfold bind. by rewrite H. Qed.

Lemma bind_lift {A B} (a : A) (k : A → M B) s :
  bind (lift (Ok a)) k s = k a s.
Proof. reflexivity. Qed.

Lemma silent_ret {A} (a : A) : silent (ret a).
Proof. by intros s. Qed.

Lemma silent_raise {A} e : silent (raise e : M A).
Proof. by intros s. Qed.

Lemma silent_sys_exit {A} code : silent (sys_exit code : M A).
Proof. by intros s. Qed.

Lemma silent_lift {A} (r : result A) : silent (lift r).
Proof. by intros s. Qed.

Lemma silent_print line : silent (print line).
Proof. by intros s. Qed.

Lemma silent_bind {A B} (m : M A) (k : A → M B) :
  silent m → (∀ a, silent (k a)) → silent (bind m k).
Proof.
  intros Hm Hk s. unfold bind. specialize (Hm s).
  destruct (m s) as [[a|e] s1]; simpl in *; [|done].
  destruct (Hk a s1) as [-> ->]. done.
Qed.

Lemma silent_for_each {A} (body : A → M unit) xs :
  (∀ x, silent (body x)) → silent (for_each xs body).
Proof.
  intros Hbody. induction xs as [|x xs IH]; simpl.
  - apply silent_ret.
  - apply silent_bind; auto.
Qed.

(** A request followed by silent code, inside a [try] with a silent
    handler: the server and the log are as the request left them. *)
Lemma try_except_after {A B} (m : M A) (k : A → M B) (h : exn → M B) s :
  (∀ a, silent (k a)) → (∀ e, silent (h e)) →
  sent (try_except (bind m k) h s).2 = sent (m s).2
  ∧ remote (try_except (bind m k) h s).2 = remote (m s).2.
Proof.
  intros Hk Hh. unfold try_except, bind.
  destruct (m s) as [[a|e] s1]; simpl.
  - specialize (Hk a s1). destruct (k a s1) as [[b|e] s2]; simpl in *; [done|].
    destruct (is_Exception e); [|done].
    destruct (Hh e s2) as [-> ->]. done.
  - destruct (is_Exception e); [|done]. apply Hh.
Qed.

Lemma sends_one_print {A} req line (k : M A) :
  sends_one req k → sends_one req (print line >> k).
Proof. intros Hk s. unfold bind, print. by rewrite Hk. Qed.

(** Silent code that does not fail, before code that sends [req]. *)
Lemma sends_one_bind_silent {A B} req (m : M A) (k : A → M B) :
  silent m → (∀ s, ∃ a, (m s).1 = Ok a) →
  (∀ a, sends_one req (k a)) → sends_one req (bind m k).
Proof.
  intros Hm Hok Hk s. unfold bind.
  destruct (Hok s) as [a Ha]. destruct (Hm s) as [Hsent _].
  destruct (m s) as [r s1]. simpl in *. subst r.
  by rewrite Hk, Hsent.
Qed.

Lemma tame_ret {A} (a : A) : tame (ret a).
Proof. intros s e. discriminate. Qed.

Lemma tame_print line : tame (print line).
Proof. intros s e. discriminate. Qed.

Lemma tame_bind {A B} (m : M A) (k : A → M B) :
  tame m → (∀ a, tame (k a)) → tame (bind m k).
Proof.
  intros Hm Hk s e. unfold bind. specialize (Hm s).
  destruct (m s) as [[a|e'] s1]; simpl in *.
  - apply Hk.
  - intros [= <-]. by apply Hm.
Qed.

Lemma tame_get_item v k : tame (lift (get_item v k)).
Proof.
  intros s e. unfold lift, get_item. simpl.
  destruct v; try destruct (assoc k d); intros [= <-]; reflexivity.
Qed.

Lemma tame_iterate v : tame (lift (iterate v)).
Proof.
  intros s e. unfold lift, iterate. simpl.
  destruct v; intros [= <-]; reflexivity.
Qed.

Lemma and_then_tame {A B} (r : result A) (k : A → result B) e :
  (∀ e', r = Raise e' → is_Exception e' = true) →
  (∀ a e', k a = Raise e' → is_Exception e' = true) →
  and_then r k = Raise e → is_Exception e = true.
Proof.
  intros Hr Hk. destruct r as [a|e0]; simpl.
  - apply Hk.
  - intros [= <-]. by apply Hr.
Qed.

Lemma get_item_tame v k e : get_item v k = Raise e → is_Exception e = true.
Proof.
  unfold get_item.
  destruct v; try destruct (assoc k d); intros [= <-]; reflexivity.
Qed.

Lemma method_lower_tame v e :
  method_lower v = Raise e → is_Exception e = true.
Proof. destruct v; simpl; intros [= <-]; reflexivity. Qed.

End MonadFacts.

Create HintDb silent.
Create HintDb tame.

Global Hint Resolve silent_ret silent_raise silent_sys_exit silent_lift
  silent_print silent_for_each : silent.
Global Hint Resolve tame_ret tame_print tame_get_item tame_iterate : tame.

(** Decomposes a goal [silent m] along the binds and the tests of [m]. *)
Ltac silence :=
  repeat first
    [ apply silent_bind; [|intros]
    | match goal with
      | |- silent (if ?b then _ else _) => destruct b
      | |- silent (match ?x with _ => _ end) => destruct x
      end
    | solve [auto with silent] ].

Ltac tame_steps :=
  repeat first
    [ solve [auto with tame]
    | apply tame_bind; [|intros]
    | match goal with
      | |- tame (if ?b then _ else _) => destruct b
      end ].

End MonadFacts.

(** ** Issue creation and the summary *)

Module IssueFacts.
Import Spec.

Section IssueFacts.
Context {R : Remote} {G : Globals}.

Lemma bulk_create_issue_sends summary issue_type s :
  sent (BulkCreate.create_issue summary issue_type s).2
  = sent s ++ [create_request issue_type (Str.take 255 summary) []].
Proof.
  unfold BulkCreate.create_issue.
  rewrite HelperFacts.make_request_outcome. reflexivity.
Qed.

Lemma create_one_issue_sends summary issue_type description parent_key s :
  ∃ more,
    sent (CreateOne.create_issue summary issue_type description parent_key s).2
    = sent s ++ [create_request issue_type summary more].
Proof.
  unfold CreateOne.create_issue, CreateOne.make_request.
  rewrite HelperFacts.make_request_outcome. simpl.
  destruct (truthy description), (truthy parent_key); simpl;
    eexists; reflexivity.
Qed.

(** C4, as the code has it.  The [create_issue] of bulk-create sends
    the first 255 characters of the summary, so exactly 255 characters
    when the summary is longer; the [create_issue] of create-one sends
    the summary as it is, whatever its length. *)
Theorem summary_in_create_request (summary issue_type : string)
    (description parent_key : pyval) (s : proc) :
  sent (BulkCreate.create_issue summary issue_type s).2
    = sent s ++ [create_request issue_type (Str.take 255 summary) []]
  ∧ String.length (Str.take 255 summary) = Nat.min 255 (String.length summary)
  ∧ (∃ rest, summary = Str.take 255 summary +:+ rest)
  ∧ ∃ more,
      sent (CreateOne.create_issue summary issue_type description parent_key s).2
      = sent s ++ [create_request issue_type summary more].
Proof.
  split; [apply bulk_create_issue_sends|].
  split; [apply StrFacts.length_take|].
  split; [apply StrFacts.take_is_prefix|].
  apply create_one_issue_sends.
Qed.

End IssueFacts.

Import Examples.

(** C4, as the specification states it, fails on create-one: a summary
    of 256 characters reaches the request with its 256 characters. *)
Lemma create_one_sends_long_summary :
  String.length long_summary = 256%nat
  ∧ long_summary ≠ Str.take 255 long_summary
  ∧ sent (CreateOne.create_issue (G := Scripted.globals)
            long_summary "Story" PNone PNone (run [issue_created] [])).2
    = [create_request (G := Scripted.globals) "Story" long_summary []].
Proof.
  split; [vm_compute; reflexivity|]. split; [|vm_compute; reflexivity].
  intros H. apply (f_equal String.length) in H. vm_compute in H. discriminate H.
Qed.

End IssueFacts.

(** ** Deleting what is not there *)

Module DeleteFacts.
Import Spec MonadFacts.

Section DeleteFacts.
Context {R : Remote} {G : Globals}.

Lemma pretty_404 : pretty 404 = "404".
Proof. vm_compute. reflexivity. Qed.

Lemma delete_issue_404 issue_key delete_subtasks s reason body :
  (∀ req, (answer (remote s) req).1 = HttpReply 404 reason body) →
  (DeleteAll.delete_issue issue_key delete_subtasks s).1 = Ok true.
Proof.
  intros H404. unfold DeleteAll.delete_issue, except_HTTPError, bind, urlopen.
  match goal with |- context [answer (remote s) ?req] =>
    specialize (H404 req); destruct (answer (remote s) req) as [r srv]
  end.
  simpl in H404. subst r. reflexivity.
Qed.

Lemma delete_and_report_404 space_key s reason body :
  (∀ req, (answer (remote s) req).1 = HttpReply 404 reason body) →
  let r := DeleteSpace.delete_and_report space_key s in
  r.1 = Raise (SystemExit 1)
  ∧ stdout r.2
    = stdout s ++ [Str.nl +:+ "Deleting space " +:+ space_key +:+ "..."]
      ++ failure_lines space_key ("404: " +:+ Str.take 300 body).
Proof.
  intros H404. unfold DeleteSpace.delete_and_report, try_except.
  rewrite bind_print.
  erewrite bind_raises; cycle 1.
  { unfold DeleteSpace.delete_space.
    rewrite HelperFacts.confluence_request_outcome. simpl.
    rewrite H404. simpl. rewrite pretty_404. reflexivity. }
  unfold failure_lines. simpl.
  destruct (Str.contains "403" _); simpl; rewrite <- ?app_assoc; done.
Qed.

Lemma main_lookup_404 arg0 rest s reason body :
  (∀ req, (answer (remote s) req).1 = HttpReply 404 reason body) →
  DeleteSpace.wants_help (arg0 :: rest) = false →
  ∃ s',
    DeleteSpace.main (arg0 :: rest) s = (Raise (SystemExit 1), s')
    ∧ stdout s'
      = stdout s ++ [Str.rule40; "  DELETE CONFLUENCE SPACE";
                     Str.rule40 +:+ Str.nl;
                     "Looking up space " +:+ Str.upper arg0 +:+ "...";
                     "Error: Space '" +:+ Str.upper arg0 +:+ "' not found."].
Proof.
  intros H404 Hhelp. unfold DeleteSpace.main. rewrite Hhelp.
  rewrite !bind_print.
  unfold bind at 1. unfold DeleteSpace.get_space, try_except_all.
  rewrite HelperFacts.confluence_request_outcome. simpl.
  rewrite H404. simpl. eexists. split; [reflexivity|].
  simpl. rewrite <- !app_assoc. done.
Qed.

(** C3, as the code has it.  When the server answers 404,
    [delete_issue] of delete-all returns [True]: the issue counts as
    deleted.  The entry point of delete-space does not: a 404 to the
    deletion request, like a 404 to the lookup that precedes it, ends
    in an error message and [sys.exit(1)]. *)
Theorem delete_answered_404 (s : proc) (issue_key space_key arg0 : string)
    (rest : list string) (delete_subtasks : bool) (reason body : string) :
  (∀ req, (answer (remote s) req).1 = HttpReply 404 reason body) →
  (DeleteAll.delete_issue issue_key delete_subtasks s).1 = Ok true
  ∧ exit_code (DeleteSpace.delete_and_report space_key s).1 = 1
  ∧ stdout (DeleteSpace.delete_and_report space_key s).2
    = stdout s ++ [Str.nl +:+ "Deleting space " +:+ space_key +:+ "..."]
      ++ failure_lines space_key ("404: " +:+ Str.take 300 body)
  ∧ (DeleteSpace.wants_help (arg0 :: rest) = false →
     exit_code (DeleteSpace.main (arg0 :: rest) s).1 = 1).
Proof.
  intros H404.
  split; [by eapply delete_issue_404|].
  destruct (delete_and_report_404 space_key s reason body H404) as [Hr Hout].
  split; [by rewrite Hr|]. split; [exact Hout|].
  intros Hhelp.
  destruct (main_lookup_404 arg0 rest s reason body H404 Hhelp)
    as (s' & Hm & _).
  by rewrite Hm.
Qed.

End DeleteFacts.

Import Examples.

Lemma delete_answered_404_witness :
  (∀ req, (answer (remote (run [not_found] [])) req).1 = HttpReply 404 "Not Found" "")
  ∧ DeleteSpace.wants_help ["docs"] = false
  ∧ (DeleteAll.delete_issue (G := Scripted.globals) "SCRUM-1" true
       (run [not_found] [])).1 = Ok true
  ∧ exit_code (DeleteSpace.delete_and_report (G := Scripted.globals) "DOCS"
                 (run [not_found] [])).1 = 1
  ∧ exit_code (DeleteSpace.main (G := Scripted.globals) ["docs"]
                 (run [not_found] [])).1 = 1.
Proof.
  split; [reflexivity|]. split; [reflexivity|].
  destruct (delete_answered_404 (G := Scripted.globals) (run [not_found] [])
              "SCRUM-1" "DOCS" "docs" [] true "Not Found" "")
    as (H1 & H2 & _ & H3); [reflexivity|].
  split; [exact H1|]. split; [exact H2|]. apply H3. reflexivity.
Defined.

(** C3, as the specification states it, fails on delete-space: the
    space is found, the deletion is confirmed on the command line, the
    server answers 404 to the DELETE request, and the process exits
    with code 1 after an error message. *)
Lemma delete_space_404_exits_1 :
  let r := DeleteSpace.main (G := Scripted.globals) ["docs"; "--confirm"]
             (run [space_found; not_found] []) in
  exit_code r.1 = 1
  ∧ req_method <$> sent r.2 = ["GET"; "DELETE"]
  ∧ last (stdout r.2)
    = Some "Error: Space 'DOCS' not found (may have already been deleted).".
Proof. vm_compute. repeat split; reflexivity. Qed.

End DeleteFacts.

(** ** The key of a new space *)

Module SpaceKeyFacts.
Import Spec MonadFacts.

Section SpaceKeyFacts.
Context {R : Remote} {G : Globals}.

Lemma upper_char_idem c : Str.upper_char (Str.upper_char c) = Str.upper_char c.
Proof. destruct c as [[] [] [] [] [] [] [] []]; reflexivity. Qed.

Lemma upper_idem s : Str.upper (Str.upper s) = Str.upper s.
Proof.
  unfold Str.upper. induction s as [|c s IH]; simpl; [done|].
  by rewrite upper_char_idem, IH.
Qed.

Lemma create_space_sends key name description :
  sends_one (space_request (Str.upper key) name (description_entry description))
    (CreateSpace.create_space key name description).
Proof.
  intros s. unfold CreateSpace.create_space, CreateSpace.confluence_request.
  rewrite HelperFacts.confluence_request_outcome. simpl.
  unfold description_entry.
  destruct (negb (String.eqb description "")); reflexivity.
Qed.

Lemma create_and_report_sends key name description :
  sends_one (space_request (Str.upper key) name (description_entry description))
    (CreateSpace.create_and_report key name description).
Proof.
  intros s. rewrite <- (create_space_sends key name description s).
  unfold CreateSpace.create_and_report.
  apply try_except_after; intros; silence.
Qed.

Lemma main_checks_key arg0 arg1 rest s :
  CreateSpace.wants_help (arg0 :: arg1 :: rest) = false →
  if CreateSpace.key_pattern_matches (Str.upper arg0)
  then sent (CreateSpace.main (arg0 :: arg1 :: rest) s).2
       = sent s ++ [space_request (Str.upper arg0) arg1
                      (description_entry (default "" (head rest)))]
  else exit_code (CreateSpace.main (arg0 :: arg1 :: rest) s).1 = 1
       ∧ sent (CreateSpace.main (arg0 :: arg1 :: rest) s).2 = sent s
       ∧ remote (CreateSpace.main (arg0 :: arg1 :: rest) s).2 = remote s.
Proof.
  intros Hhelp.
  unfold CreateSpace.main. rewrite Hhelp.
  destruct (CreateSpace.key_pattern_matches (Str.upper arg0)); simpl; [|done].
  replace (match rest with d :: _ => d | [] => "" end)
    with (default "" (head rest)) by (by destruct rest).
  pose proof (create_and_report_sends (Str.upper arg0) arg1
                (default "" (head rest))) as Hsend.
  rewrite upper_idem in Hsend.
  revert s. repeat apply sends_one_print.
  apply sends_one_bind_silent; [silence| |].
  - intros s0. destruct (negb _); by eexists.
  - intros _. by apply sends_one_print.
Qed.

Lemma match_rest_shape s :
  CreateSpace.match_rest s = true
  ↔ ∃ rest, (s = rest ∨ s = rest +:+ Str.nl)
      ∧ Forall (λ c, Str.is_upper c = true ∨ Str.is_digit c = true)
          (String.list_ascii_of_string rest).
Proof.
  split.
  - induction s as [|c s IH]; simpl.
    + intros _. exists "". split; [by left | constructor].
    + destruct (Str.is_upper c || Str.is_digit c) eqn:E.
      * intros H. destruct (IH H) as (rest & Hs & Hall).
        exists (String c rest). split.
        -- destruct Hs as [->| ->]; [by left | by right].
        -- simpl. constructor; [|done]. by apply orb_true_iff in E.
      * intros H. apply andb_true_iff in H as [Hc Hs].
        apply Stdlib.Strings.Ascii.eqb_eq in Hc. apply String.eqb_eq in Hs.
        subst. exists "". split; [by right | constructor].
  - intros (rest & Hs & Hall). revert s Hs Hall.
    induction rest as [|c rest IH]; intros s Hs Hall.
    + destruct Hs as [->| ->]; reflexivity.
    + simpl in Hall. inversion Hall as [|? ? Hc Hrest]; subst.
      assert (E : Str.is_upper c || Str.is_digit c = true)
        by (by apply orb_true_iff).
      destruct Hs as [->| ->]; simpl; rewrite E; apply IH; auto.
Qed.

Lemma key_pattern_shape key :
  CreateSpace.key_pattern_matches key = true ↔ follows_key_pattern key.
Proof.
  unfold follows_key_pattern. destruct key as [|c key]; simpl.
  - split; [done | by intros (? & ? & [?|?] & _)].
  - rewrite andb_true_iff, match_rest_shape. split.
    + intros (Hc & rest & Hs & Hall). exists c, rest.
      split; [destruct Hs as [->| ->]; auto | done].
    + intros (first & rest & Hs & Hc & Hall).
      destruct Hs as [[= -> ->]|[= -> ->]]; (split; [done|]);
        exists rest; auto.
Qed.

(** C9.  Without a help flag, the entry point of create-space checks
    the upper-cased first argument against the pattern, which accepts
    exactly an upper-case letter followed by upper-case letters and
    digits (and a final line feed).  When the upper-cased key is not of
    this shape the process exits with code 1 and nothing has been sent to
    the server; when it is, one request goes out, the creation of the
    space under the upper-cased key.  The key docs becomes DOCS, which
    passes; 1DOC fails.  The argument is taken to be ASCII, where
    upper-casing touches the letters a to z only. *)
Theorem space_key_validation (arg0 arg1 : string) (rest : list string)
    (s : proc) :
  CreateSpace.wants_help (arg0 :: arg1 :: rest) = false →
  is_ascii arg0 = true →
  (∀ key, CreateSpace.key_pattern_matches key = true ↔ follows_key_pattern key)
  ∧ (follows_key_pattern (Str.upper arg0) →
     sent (CreateSpace.main (arg0 :: arg1 :: rest) s).2
     = sent s ++ [space_request (Str.upper arg0) arg1
                    (description_entry (default "" (head rest)))])
  ∧ (¬ follows_key_pattern (Str.upper arg0) →
     exit_code (CreateSpace.main (arg0 :: arg1 :: rest) s).1 = 1
     ∧ sent (CreateSpace.main (arg0 :: arg1 :: rest) s).2 = sent s
     ∧ remote (CreateSpace.main (arg0 :: arg1 :: rest) s).2 = remote s)
  ∧ Str.upper "docs" = "DOCS"
  ∧ follows_key_pattern (Str.upper "docs")
  ∧ ¬ follows_key_pattern (Str.upper "1DOC").
Proof.
  intros Hhelp _.
  pose proof (main_checks_key arg0 arg1 rest s Hhelp) as Hmain.
  split; [apply key_pattern_shape|]. split; [|split].
  - intros Hshape. apply key_pattern_shape in Hshape.
    by rewrite Hshape in Hmain.
  - intros Hshape.
    destruct (CreateSpace.key_pattern_matches (Str.upper arg0)) eqn:E;
      [|exact Hmain].
    exfalso. by apply Hshape, key_pattern_shape.
  - split; [reflexivity|]. split.
    + by apply key_pattern_shape.
    + rewrite <- key_pattern_shape. by vm_compute.
Qed.

End SpaceKeyFacts.

Import Examples.

Lemma space_key_validation_witness :
  CreateSpace.wants_help ["1DOC"; "Docs"] = false
  ∧ is_ascii "1DOC" = true
  ∧ exit_code (CreateSpace.main (G := Scripted.globals) ["1DOC"; "Docs"]
                 (run [space_found] [])).1 = 1
  ∧ sent (CreateSpace.main (G := Scripted.globals) ["1DOC"; "Docs"]
            (run [space_found] [])).2 = [].
Proof.
  split; [reflexivity|]. split; [reflexivity|].
  destruct (space_key_validation (G := Scripted.globals) "1DOC" "Docs" []
              (run [space_found] []) eq_refl eq_refl)
    as (_ & _ & Hfails & _ & _ & Hbad).
  destruct (Hfails Hbad) as (H1 & H2 & _). split; [exact H1 | exact H2].
Defined.

(** The two keys of the scenario, run through [main]. *)
Example create_space_docs :
  let r := CreateSpace.main (G := Scripted.globals)
             ["docs"; "Project Documentation"] (run [space_found] []) in
  exit_code r.1 = 0
  ∧ sent r.2
    = [space_request (G := Scripted.globals) "DOCS" "Project Documentation" []].
Proof. vm_compute. split; reflexivity. Qed.

End SpaceKeyFacts.

(** ** Looking up a transition *)

Module TransitionFacts.
Import Spec Examples.

Lemma matches_value t target :
  WorkflowDemo.matches (transition_value t) target
  = Ok (goes_to target t || is_named target t).
Proof.
  unfold WorkflowDemo.matches, goes_to, is_named, transition_value. simpl.
  by destruct (String.eqb (Str.lower (tr_to t)) (Str.lower target)).
Qed.

Lemma first_match_skip p t ts found :
  p t = false → first_match p ts found → first_match p (t :: ts) found.
Proof.
  intros Hp [[-> Hall]|(before & t' & after & -> & -> & Ht' & Hbefore)].
  - left. split; [done|]. by constructor.
  - right. exists (t :: before), t', after. repeat split; try done.
    by constructor.
Qed.

Lemma first_match_here p t ts :
  p t = true → first_match p (t :: ts) (transition_value t).
Proof.
  intros Hp. right. exists [], t, ts. repeat split; done.
Qed.

Lemma find_transition_first (ts : list transition) (target : string) :
  ∃ found,
    WorkflowDemo.find_transition (transition_value <$> ts) target = Ok found
    ∧ first_match (λ t, goes_to target t || is_named target t) ts found.
Proof.
  induction ts as [|t ts (found & Hfound & Hfirst)].
  - exists PNone. split; [done|]. left. split; [done | constructor].
  - cbn [fmap list_fmap WorkflowDemo.find_transition].
    rewrite matches_value. cbn [and_then].
    destruct (goes_to target t || is_named target t) eqn:Hp.
    + exists (transition_value t). split; [done|]. by apply first_match_here.
    + exists found. split; [done|]. by apply first_match_skip.
Qed.

Lemma find_done_value t rest :
  BulkCreate.find_done (transition_value t :: rest)
  = if goes_to "Done" t then Ok (transition_value t)
    else BulkCreate.find_done rest.
Proof. reflexivity. Qed.

Lemma find_done_first (ts : list transition) :
  ∃ found,
    BulkCreate.find_done (transition_value <$> ts) = Ok found
    ∧ first_match (goes_to "Done") ts found.
Proof.
  induction ts as [|t ts (found & Hfound & Hfirst)].
  - exists PNone. split; [done|]. left. split; [done | constructor].
  - cbn [fmap list_fmap]. rewrite find_done_value.
    destruct (goes_to "Done" t) eqn:Hp.
    + exists (transition_value t). split; [done|]. by apply first_match_here.
    + exists found. split; [done|]. by apply first_match_skip.
Qed.

(** C2, as the code has it.  The lookup of [transition_to]
    (workflow-demo) compares the target, without regard to case, with
    the destination status and with the display name of each
    transition, and returns the first transition in list order for
    which one of the two agrees, or [None] when there is none.  The
    lookup of [transition_to_done] (bulk-create) has the fixed target
    Done and compares it with the destination status only.  On the
    three transitions of the scenario both return the transition with
    id 21. *)
Theorem transition_lookup (ts : list transition) (target : string) :
  (∃ found,
     WorkflowDemo.find_transition (transition_value <$> ts) target = Ok found
     ∧ first_match (λ t, goes_to target t || is_named target t) ts found)
  ∧ (∃ found,
       BulkCreate.find_done (transition_value <$> ts) = Ok found
       ∧ first_match (goes_to "Done") ts found)
  ∧ WorkflowDemo.find_transition (transition_value <$> demo_transitions) "Done"
    = Ok (transition_value close_transition)
  ∧ BulkCreate.find_done (transition_value <$> demo_transitions)
    = Ok (transition_value close_transition)
  ∧ tr_id close_transition = "21".
Proof.
  split; [apply find_transition_first|].
  split; [apply find_done_first|].
  repeat split; vm_compute; reflexivity.
Qed.

(** C2, as the specification states it, fails on bulk-create: the
    target Done agrees with the display name of the only transition,
    which [transition_to] finds, and the lookup of
    [transition_to_done] returns [None]. *)
Lemma find_done_ignores_display_name :
  is_named "Done" named_done = true
  ∧ WorkflowDemo.find_transition [transition_value named_done] "Done"
    = Ok (transition_value named_done)
  ∧ BulkCreate.find_done [transition_value named_done] = Ok PNone.
Proof. repeat split; vm_compute; reflexivity. Qed.

End TransitionFacts.

Module HelperExamples.
Import Spec Examples.

(** C7, as the specification states it, fails on delete-all: the
    server answers with the error status 404 and [make_request] returns
    [None] instead of raising. *)
Lemma delete_all_returns_none_on_404 :
  let r := DeleteAll.make_request (G := Scripted.globals) "GET"
             "/search/jql?jql=project%20%3D%20SCRUM&maxResults=500&fields=key"
             PNone (run [not_found] []) in
  r.1 = Ok PNone ∧ ∀ e, r.1 ≠ Raise e.
Proof. vm_compute. split; [reflexivity | discriminate]. Qed.

End HelperExamples.

(** ** The bulk-create loop *)

Module BulkFacts.
Import Spec MonadFacts.

(** *** Batches *)

Lemma range_go_nil fuel i stop step :
  (stop ≤ i)%nat → BulkCreate.range_go fuel i stop step = [].
Proof.
  intros H. destruct fuel as [|fuel]; simpl; [done|].
  destruct (Nat.ltb_spec i stop); [lia | done].
Qed.

Lemma concat_batches_from {A} (l : list A) fuel : ∀ i,
  (length l ≤ i + fuel)%nat →
  concat ((λ i, take 5 (drop i l)) <$> BulkCreate.range_go fuel i (length l) 5)
  = drop i l.
Proof.
  induction fuel as [|fuel IH]; intros i Hfuel; simpl.
  - rewrite drop_ge; [done | lia].
  - destruct (Nat.ltb_spec i (length l)) as [Hlt|Hge]; simpl.
    + rewrite IH by lia.
      rewrite <- (take_drop 5 (drop i l)) at 2.
      by rewrite drop_drop.
    + rewrite drop_ge; [done | lia].
Qed.

Lemma concat_batches commits :
  concat (BulkCreate.batches commits) = commits.
Proof.
  unfold BulkCreate.batches, BulkCreate.range, BulkCreate.batch_at,
    BulkCreate.batch_size.
  rewrite concat_batches_from by lia. apply drop_0.
Qed.

Lemma batches_from_full {A} (l : list A) fuel : ∀ i,
  full_but_last 5
    ((λ i, take 5 (drop i l)) <$> BulkCreate.range_go fuel i (length l) 5).
Proof.
  induction fuel as [|fuel IH]; intros i; simpl; [done|].
  destruct (Nat.ltb_spec i (length l)) as [Hlt|Hge]; simpl; [|done].
  specialize (IH (i + 5)%nat).
  destruct (Nat.le_gt_cases (length l) (i + 5)) as [Hlast|Hmore].
  - rewrite range_go_nil by done. simpl.
    rewrite length_take, length_drop. lia.
  - destruct fuel as [|fuel]; simpl in *.
    + rewrite length_take, length_drop. lia.
    + destruct (Nat.ltb_spec (i + 5) (length l)); [|lia]. simpl in *.
      split; [|exact IH].
      rewrite length_take, length_drop. lia.
Qed.

Lemma batches_full commits :
  full_but_last BulkCreate.batch_size (BulkCreate.batches commits).
Proof. apply batches_from_full. Qed.

Lemma div5_mul k : (5 * k / 5 = k)%nat.
Proof. rewrite Nat.mul_comm. apply Nat.div_mul. lia. Qed.

Lemma length_range_from n fuel : ∀ k,
  (n ≤ 5 * k + fuel)%nat →
  length (BulkCreate.range_go fuel (5 * k) n 5) = ((n + 4) / 5 - k)%nat.
Proof.
  pose proof (Nat.div_mod_eq (n + 4) 5) as Hdiv.
  pose proof (Nat.mod_upper_bound (n + 4) 5) as Hmod.
  induction fuel as [|fuel IH]; intros k Hfuel.
  - cbn [BulkCreate.range_go length]. lia.
  - cbn [BulkCreate.range_go].
    destruct (Nat.ltb_spec (5 * k) n) as [Hlt|Hge]; [|cbn [length]; lia].
    replace (5 * k + 5)%nat with (5 * (k + 1))%nat by lia.
    cbn [length]. rewrite IH by lia. lia.
Qed.

Lemma length_batches commits :
  length (BulkCreate.batches commits) = ((length commits + 4) / 5)%nat.
Proof.
  unfold BulkCreate.batches, BulkCreate.range, BulkCreate.batch_size.
  rewrite length_fmap.
  pose proof (length_range_from (length commits) (length commits) 0
                ltac:(lia)) as H.
  change (5 * 0)%nat with 0%nat in H. rewrite H. lia.
Qed.

(** *** One commit message *)

Section Items.
Context {R : Remote} {G : Globals}.

Lemma helper_outcome_tame empty_on snippet r e :
  helper_outcome empty_on snippet r = Raise e → is_Exception e = true.
Proof.
  unfold helper_outcome. destruct r as [status reason body|why].
  - destruct (_ && _); [|by intros [= <-]].
    destruct (existsb _ _); [done|].
    destruct (json_loads body); [by intros [= <-] | done].
  - by intros [= <-].
Qed.

Lemma tame_make_request method path data :
  tame (BulkCreate.make_request method path data).
Proof.
  intros s e. rewrite HelperFacts.make_request_outcome. simpl.
  apply helper_outcome_tame.
Qed.

Lemma find_done_tame ts e :
  BulkCreate.find_done ts = Raise e → is_Exception e = true.
Proof.
  revert e. induction ts as [|t ts IH]; intros e; simpl; [done|].
  apply and_then_tame; [apply get_item_tame|]. intros to e1.
  apply and_then_tame; [apply get_item_tame|]. intros name e2.
  apply and_then_tame; [apply method_lower_tame|]. intros lowered e3.
  destruct (String.eqb lowered "done"); [done | apply IH].
Qed.

Lemma tame_find_done ts : tame (lift (BulkCreate.find_done ts)).
Proof. intros s e. apply find_done_tame. Qed.

Lemma tame_transition_to_done key : tame (BulkCreate.transition_to_done key).
Proof.
  unfold BulkCreate.transition_to_done, BulkCreate.get_transitions.
  pose proof tame_make_request. pose proof tame_find_done.
  tame_steps.
Qed.

Lemma tame_try_item commit_msg : tame (BulkCreate.try_item commit_msg).
Proof.
  unfold BulkCreate.try_item, BulkCreate.create_issue.
  pose proof tame_make_request. pose proof tame_transition_to_done.
  tame_steps.
Qed.

Lemma eqb_app_l b x y : String.eqb (b +:+ x) (b +:+ y) = String.eqb x y.
Proof.
  induction b as [|c b IH]; simpl; [done|].
  by rewrite Stdlib.Strings.Ascii.eqb_refl.
Qed.

Lemma is_create_item commit_msg : is_create (item_request commit_msg) = true.
Proof.
  unfold is_create, item_request, create_request, request_for. simpl.
  apply String.eqb_refl.
Qed.

Lemma transitions_not_create method key data :
  is_create (request_for (JIRA_BASE_URL +:+ "/rest/api/3" +:+ "/issue/"
                          +:+ key +:+ "/transitions") method HEADERS data)
  = false.
Proof.
  unfold is_create, request_for. simpl req_url. simpl req_method.
  rewrite eqb_app_l. apply andb_false_r.
Qed.

Lemma creations_snoc log req :
  creations (log ++ [req])
  = creations log ++ (if is_create req then [req] else []).
Proof. unfold creations. by rewrite List.filter_app. Qed.

Lemma silent_quiet {A} (m : M A) : silent m → quiet m.
Proof. intros Hm s. by destruct (Hm s) as [-> _]. Qed.

Lemma quiet_bind {A B} (m : M A) (k : A → M B) :
  quiet m → (∀ a, quiet (k a)) → quiet (bind m k).
Proof.
  intros Hm Hk s. unfold bind. specialize (Hm s).
  destruct (m s) as [[a|e] s1]; simpl in *; [|done].
  by rewrite Hk.
Qed.

Lemma quiet_transitions_request method key data :
  quiet (BulkCreate.make_request method ("/issue/" +:+ key +:+ "/transitions") data).
Proof.
  intros s. rewrite HelperFacts.make_request_outcome. simpl.
  rewrite creations_snoc, transitions_not_create. apply app_nil_r.
Qed.

Lemma quiet_transition_to_done key : quiet (BulkCreate.transition_to_done key).
Proof.
  unfold BulkCreate.transition_to_done, BulkCreate.get_transitions.
  repeat first
    [ apply quiet_transitions_request
    | apply silent_quiet; solve [auto with silent]
    | apply quiet_bind; [|intros]
    | match goal with |- quiet (if ?b then _ else _) => destruct b end ].
Qed.

(** What [try_item] leaves behind: one more creation in the log, and
    only an [Exception] when it fails. *)
Lemma try_item_effect commit_msg s :
  creations (sent (BulkCreate.try_item commit_msg s).2)
  = creations (sent s) ++ [item_request commit_msg]
  ∧ ∀ e, (BulkCreate.try_item commit_msg s).1 = Raise e → is_Exception e = true.
Proof.
  split; [|apply tame_try_item].
  unfold BulkCreate.try_item.
  pose proof (IssueFacts.bulk_create_issue_sends commit_msg "Story" s) as Hsent.
  unfold bind at 1.
  destruct (BulkCreate.create_issue commit_msg "Story" s) as [[issue|e] s1];
    simpl in Hsent |- *.
  - match goal with |- creations (sent (?k s1).2) = _ =>
      assert (Hq : quiet k)
    end.
    { repeat first
        [ apply quiet_transition_to_done
        | apply silent_quiet; solve [auto with silent]
        | apply quiet_bind; [|intros]
        | match goal with |- quiet (if ?b then _ else _) => destruct b end ]. }
    rewrite Hq, Hsent. fold (item_request commit_msg).
    by rewrite creations_snoc, is_create_item.
  - rewrite Hsent. fold (item_request commit_msg).
    by rewrite creations_snoc, is_create_item.
Qed.

(** One turn of the inner loop never fails; it adds one to [created]
    when the body of the [try] returns and one to [failed] when it
    raises. *)
Lemma process_item_effect commit_msg counts s :
  ∃ s',
    BulkCreate.process_item commit_msg counts s
    = (Ok (match (BulkCreate.try_item commit_msg s).1 with
           | Ok _ => (counts.1 + 1, counts.2)
           | Raise _ => (counts.1, counts.2 + 1)
           end), s')
    ∧ creations (sent s') = creations (sent s) ++ [item_request commit_msg].
Proof.
  destruct (try_item_effect commit_msg s) as [Hlog Htame].
  unfold BulkCreate.process_item, try_except, bind.
  destruct (BulkCreate.try_item commit_msg s) as [[[]|e] s1]; simpl in *.
  - eexists. split; [reflexivity | done].
  - rewrite (Htame e eq_refl). eexists. split; [reflexivity | done].
Qed.

(** *** The loops *)

Lemma items_effect batch : ∀ counts s,
  ∃ counts' s',
    for_fold batch BulkCreate.process_item counts s = (Ok counts', s')
    ∧ advanced (length batch) counts counts'
    ∧ creations (sent s') = creations (sent s) ++ (item_request <$> batch).
Proof.
  induction batch as [|commit_msg batch IH]; intros counts s; simpl.
  - exists counts, s. unfold advanced. rewrite app_nil_r.
    repeat split; try done; lia.
  - destruct (process_item_effect commit_msg counts s) as (s1 & Hitem & Hlog1).
    unfold bind. rewrite Hitem.
    set (counts1 := match (BulkCreate.try_item commit_msg s).1 with
                    | Ok _ => (counts.1 + 1, counts.2)
                    | Raise _ => (counts.1, counts.2 + 1)
                    end).
    assert (Hstep : advanced 1 counts counts1).
    { unfold advanced, counts1.
      destruct (BulkCreate.try_item commit_msg s).1; simpl; lia. }
    destruct (IH counts1 s1) as (counts' & s' & Hrest & Hadv & Hlog).
    exists counts', s'. split; [done|]. split.
    + unfold advanced in *. lia.
    + rewrite Hlog, Hlog1, <- app_assoc. done.
Qed.

Lemma process_batch_effect commits i counts s :
  ∃ counts' s',
    BulkCreate.process_batch commits i counts s = (Ok counts', s')
    ∧ advanced (length (BulkCreate.batch_at commits i)) counts counts'
    ∧ creations (sent s')
      = creations (sent s) ++ (item_request <$> BulkCreate.batch_at commits i).
Proof.
  unfold BulkCreate.process_batch. rewrite bind_print.
  match goal with |- context [for_fold _ _ counts ?s1] =>
    destruct (items_effect (BulkCreate.batch_at commits i) counts s1)
      as (counts' & s' & Hrun & Hadv & Hlog)
  end.
  exists counts', s'. done.
Qed.

Lemma batches_effect commits starts : ∀ counts s,
  ∃ counts' s',
    for_fold starts (BulkCreate.process_batch commits) counts s = (Ok counts', s')
    ∧ advanced (length (concat (BulkCreate.batch_at commits <$> starts)))
        counts counts'
    ∧ creations (sent s')
      = creations (sent s)
        ++ (item_request <$> concat (BulkCreate.batch_at commits <$> starts)).
Proof.
  induction starts as [|i starts IH]; intros counts s.
  - exists counts, s. unfold advanced. simpl. rewrite app_nil_r.
    repeat split; try done; lia.
  - cbn [for_fold].
    destruct (process_batch_effect commits i counts s)
      as (counts1 & s2 & Hbatch & Hadv1 & Hlog1).
    unfold bind. rewrite Hbatch.
    destruct (IH counts1 s2) as (counts' & s' & Hrest & Hadv & Hlog).
    exists counts', s'. split; [done|]. split.
    + unfold advanced in *. cbn [fmap list_fmap concat].
      rewrite length_app. lia.
    + cbn [fmap list_fmap concat].
      rewrite Hlog, Hlog1, fmap_app, <- app_assoc. done.
Qed.

Lemma bind_cong {A B} (m : M A) (k k' : A → M B) s :
  (∀ a s1, k a s1 = k' a s1) → bind m k s = bind m k' s.
Proof. intros Hk. unfold bind. by destruct (m s) as [[a|e] s1]. Qed.

(** The outer loop over the starts is a loop over the numbered
    batches. *)
Lemma starts_as_batches commits total fuel : ∀ k counts s,
  for_fold (BulkCreate.range_go fuel (5 * k) (length commits) 5)
    (λ i counts,
       print (batch_header (i / 5 + 1) total) >>
       for_fold (BulkCreate.batch_at commits i) BulkCreate.process_item counts)
    counts s
  = for_fold
      (numbered_from (k + 1)
         (BulkCreate.batch_at commits
            <$> BulkCreate.range_go fuel (5 * k) (length commits) 5))
      (λ nb counts,
         print (batch_header nb.1 total) >>
         for_fold nb.2 BulkCreate.process_item counts)
      counts s.
Proof.
  induction fuel as [|fuel IH]; intros k counts s; [reflexivity|].
  cbn [BulkCreate.range_go].
  destruct (5 * k <? length commits)%nat; [|reflexivity].
  cbn [fmap list_fmap numbered_from for_fold fst snd].
  rewrite div5_mul.
  replace (5 * k + 5)%nat with (5 * (k + 1))%nat by lia.
  replace (S (k + 1)) with (k + 1 + 1)%nat by lia.
  apply bind_cong. intros counts1 s1. apply IH.
Qed.

Lemma main_loop_batches commits s :
  BulkCreate.main_loop commits s = run_batches (BulkCreate.batches commits) s.
Proof.
  unfold run_batches, numbered. rewrite length_batches.
  replace (length commits + 4)%nat
    with (length commits + BulkCreate.batch_size - 1)%nat
    by (unfold BulkCreate.batch_size; lia).
  exact (starts_as_batches commits
           ((length commits + BulkCreate.batch_size - 1) / BulkCreate.batch_size)
           (length commits) 0 (0, 0) s).
Qed.

Lemma main_loop_effect commits s :
  ∃ created failed s',
    BulkCreate.main_loop commits s = (Ok (created, failed), s')
    ∧ 0 ≤ created ∧ 0 ≤ failed
    ∧ created + failed = Z.of_nat (length commits)
    ∧ creations (sent s') = creations (sent s) ++ (item_request <$> commits).
Proof.
  unfold BulkCreate.main_loop.
  destruct (batches_effect commits
              (BulkCreate.range 0 (length commits) BulkCreate.batch_size) (0, 0) s)
    as ([created failed] & s' & Hrun & Hadv & Hlog).
  fold (BulkCreate.batches commits) in Hadv, Hlog.
  rewrite concat_batches in Hadv, Hlog.
  exists created, failed, s'. unfold advanced in Hadv. simpl in Hadv.
  repeat split; try done; lia.
Qed.

(** C8.  The outer loop cuts the commit messages into consecutive
    batches of five, the last one possibly shorter (seven messages give a
    batch of five and a batch of two): it is the run over these batches,
    one after the other, each announced by its header with its number
    and the number of batches, its messages then processed in order.
    One turn of the inner loop never
    fails: it adds one to [created] when the body of the [try] returns
    and one to [failed] when it raises, and goes on with the next
    message.  The whole loop therefore returns, its two counters add up
    to the number of messages, and the log shows one creation request per
    message, in order. *)
Theorem bulk_create_tally (commits : list string) (s : proc) :
  BulkCreate.main_loop commits s = run_batches (BulkCreate.batches commits) s
  ∧ concat (BulkCreate.batches commits) = commits
  ∧ full_but_last 5 (BulkCreate.batches commits)
  ∧ length (BulkCreate.batches commits) = ((length commits + 4) / 5)%nat
  ∧ (∀ c1 c2 c3 c4 c5 c6 c7 : string,
       BulkCreate.batches [c1; c2; c3; c4; c5; c6; c7]
       = [[c1; c2; c3; c4; c5]; [c6; c7]])
  ∧ (∀ commit_msg counts s0,
       (BulkCreate.process_item commit_msg counts s0).1
       = Ok (match (BulkCreate.try_item commit_msg s0).1 with
             | Ok _ => (counts.1 + 1, counts.2)
             | Raise _ => (counts.1, counts.2 + 1)
             end))
  ∧ ∃ created failed s',
      BulkCreate.main_loop commits s = (Ok (created, failed), s')
      ∧ 0 ≤ created ∧ 0 ≤ failed
      ∧ created + failed = Z.of_nat (length commits)
      ∧ creations (sent s') = creations (sent s) ++ (item_request <$> commits).
Proof.
  split; [apply main_loop_batches|].
  split; [apply concat_batches|].
  split; [apply batches_full|].
  split; [apply length_batches|].
  split; [reflexivity|].
  split; [|apply main_loop_effect].
  intros commit_msg counts s0.
  destruct (process_item_effect commit_msg counts s0) as (s1 & Hitem & _).
  by rewrite Hitem.
Qed.


End Items.

Import Examples.


End BulkFacts.

(** * Further properties *)

(** ** More on the ADF builder *)

Module AdfMore.
Import Template Spec Vocab.

Lemma build_adf_loop_app content xs ys :
  build_adf_loop content (xs ++ ys)
  = and_then (build_adf_loop content xs) (λ mid, build_adf_loop mid ys).
Proof.
  revert content. induction xs as [|x xs IH]; intros content; simpl; [done|].
  destruct (add_section content x); simpl; [apply IH | done].
Qed.

Lemma build_adf_loop_from content sections :
  build_adf_loop content sections
  = and_then (build_adf_loop [] sections) (λ blocks, Ok (content ++ blocks)).
Proof.
  revert content. induction sections as [|x xs IH]; intros content; simpl.
  - by rewrite app_nil_r.
  - rewrite AdfFacts.add_section_app.
    destruct (add_section [] x) as [blocks|e]; simpl; [|done].
    rewrite IH, (IH blocks).
    destruct (build_adf_loop [] xs); simpl; [|done].
    by rewrite app_assoc.
Qed.

(** X1.  [build_adf] on a single paragraph section is [simple_adf]. *)
Theorem paragraph_section_is_simple_adf (text : pyval) :
  build_adf [ {[ "paragraph" := text ]} ] = Ok (simple_adf text).
Proof.
  unfold build_adf, simple_adf. simpl. unfold add_section.
  rewrite lookup_singleton_eq.
  rewrite !lookup_singleton_ne by done. reflexivity.
Qed.

(** X2.  The document of two lists of sections put end to end is the two
    documents put end to end. *)
Theorem build_adf_app (xs ys : list (gmap string pyval))
    (front back : list pyval) :
  build_adf xs = Ok (doc front) →
  build_adf ys = Ok (doc back) →
  build_adf (xs ++ ys) = Ok (doc (front ++ back)).
Proof.
  unfold build_adf. rewrite build_adf_loop_app.
  destruct (build_adf_loop [] xs) as [a|]; [|done]. intros [= ->]. simpl.
  rewrite (build_adf_loop_from front).
  destruct (build_adf_loop [] ys) as [b|]; [|done].
  intros [= ->]. reflexivity.
Qed.

Lemma build_adf_app_witness :
  build_adf [ {[ "heading" := PStr "Overview" ]} ]
    = Ok (doc [heading_block ∅ (PStr "Overview")])
  ∧ build_adf [ {[ "paragraph" := PStr "Text" ]} ]
    = Ok (doc [paragraph_block (PStr "Text")])
  ∧ build_adf [ {[ "heading" := PStr "Overview" ]};
                {[ "paragraph" := PStr "Text" ]} ]
    = Ok (doc [heading_block ∅ (PStr "Overview"); paragraph_block (PStr "Text")]).
Proof.
  assert (H1 : build_adf [ {[ "heading" := PStr "Overview" ]} ]
               = Ok (doc [heading_block ∅ (PStr "Overview")]))
    by (vm_compute; reflexivity).
  assert (H2 : build_adf [ {[ "paragraph" := PStr "Text" ]} ]
               = Ok (doc [paragraph_block (PStr "Text")]))
    by (vm_compute; reflexivity).
  split; [exact H1|]. split; [exact H2|].
  exact (build_adf_app _ _ _ _ H1 H2).
Defined.

Lemma add_section_outcome content section :
  if bad_bullets section
  then ∃ msg, add_section content section = Raise (TypeError msg)
  else ∃ blocks, add_section content section = Ok blocks.
Proof.
  unfold bad_bullets, add_section.
  destruct (section !! "bullets") as [bullets|]; [destruct bullets|];
    simpl; eexists; reflexivity.
Qed.

(** X3.  [build_adf] fails exactly when some section has a [bullets] value
    that cannot be iterated (a number, a boolean, [None]), and then with
    a [TypeError]; nothing else in a section can make it fail. *)
Theorem build_adf_fails_iff (sections : list (gmap string pyval)) :
  if existsb bad_bullets sections
  then ∃ msg, build_adf sections = Raise (TypeError msg)
  else ∃ content, build_adf sections = Ok (doc content).
Proof.
  unfold build_adf.
  assert (H : ∀ content,
             if existsb bad_bullets sections
             then ∃ msg, build_adf_loop content sections = Raise (TypeError msg)
             else ∃ blocks, build_adf_loop content sections = Ok blocks).
  { induction sections as [|x xs IH]; intros content; simpl; [by eexists|].
    pose proof (add_section_outcome content x) as Hx.
    destruct (bad_bullets x); simpl.
    - destruct Hx as [msg ->]. by eexists.
    - destruct Hx as [blocks ->]. apply IH. }
  specialize (H []).
  destruct (existsb bad_bullets sections).
  - destruct H as [msg ->]. by eexists.
  - destruct H as [blocks ->]. by eexists.
Qed.

End AdfMore.

(** ** More on configuration loading *)

Module ConfigMore.
Import Template Spec Vocab.

Section ConfigMore.
Context {R : Remote}.

Lemma load_env_line_entry line :
  load_env_line line
  = match env_entry line with
    | Some (key, value) => environ_setdefault key value
    | None => ret tt
    end.
Proof.
  unfold load_env_line, env_entry.
  destruct (_ && _); [|done].
  by destruct (Str.split_once _ _) as [[key value]|].
Qed.

Lemma same_but_environ_refl s : same_but_environ s s.
Proof. by repeat split. Qed.

Lemma same_but_environ_trans s1 s2 s3 :
  same_but_environ s1 s2 → same_but_environ s2 s3 → same_but_environ s1 s3.
Proof.
  unfold same_but_environ. intros (?&?&?&?&?&?&?) (?&?&?&?&?&?&?).
  repeat split; congruence.
Qed.

Lemma environ_setdefault_frame key value s :
  same_but_environ s (environ_setdefault key value s).2.
Proof.
  unfold environ_setdefault.
  destruct (environ s !! key); [apply same_but_environ_refl|].
  destruct (_ || _); [apply same_but_environ_refl|].
  destruct (String.eqb key ""); [apply same_but_environ_refl|].
  by repeat split.
Qed.

Lemma load_env_line_frame line s :
  same_but_environ s (load_env_line line s).2.
Proof.
  rewrite load_env_line_entry.
  destruct (env_entry line) as [[key value]|];
    [apply environ_setdefault_frame | apply same_but_environ_refl].
Qed.

Lemma for_each_lines_frame lines : ∀ s,
  same_but_environ s (for_each lines load_env_line s).2.
Proof.
  induction lines as [|line lines IH]; intros s; simpl.
  - apply same_but_environ_refl.
  - unfold bind. pose proof (load_env_line_frame line s) as H.
    destruct (load_env_line line s) as [[[]|e] s1]; simpl in *; [|done].
    eapply same_but_environ_trans; [exact H | apply IH].
Qed.

Lemma load_env_same levels_up s :
  same_but_environ s (load_env levels_up s).2.
Proof.
  unfold load_env. destruct (dotenv s levels_up).
  - apply for_each_lines_frame.
  - apply same_but_environ_refl.
Qed.

(** X4.  [load_env] prints nothing, sends nothing and reads no input: it can
    only change [os.environ], also when it stops on an exception. *)
Theorem load_env_frame (levels_up : nat) (s : proc) :
  same_but_environ s (load_env levels_up s).2.
Proof. apply load_env_same. Qed.

Lemma environ_setdefault_merged key value s s' entries k :
  environ_setdefault key value s = (Ok tt, s') →
  merged (environ s') entries k = merged (environ s) ((key, value) :: entries) k.
Proof.
  unfold environ_setdefault, merged.
  destruct (environ s !! key) as [old|] eqn:E.
  - intros [= <-]. simpl.
    destruct (String.eqb_spec k key) as [->|Hne]; [by rewrite E | done].
  - destruct (_ || _); [done|]. destruct (String.eqb key ""); [done|].
    intros [= <-]. simpl.
    destruct (String.eqb_spec k key) as [->|Hne].
    + by rewrite lookup_insert_eq, E.
    + by rewrite lookup_insert_ne.
Qed.

Lemma for_each_lines_merged lines : ∀ s s' k,
  for_each lines load_env_line s = (Ok tt, s') →
  environ s' !! k = merged (environ s) (omap env_entry lines) k.
Proof.
  induction lines as [|line lines IH]; intros s s' k; simpl.
  - intros [= <-]. unfold merged. simpl. by destruct (environ s !! k).
  - unfold bind. rewrite load_env_line_entry.
    destruct (env_entry line) as [[key value]|] eqn:E.
    + destruct (environ_setdefault key value s) as [[[]|e] s1] eqn:Hset; [|done].
      intros Hrest. specialize (IH s1 s' k Hrest). rewrite IH.
      by apply environ_setdefault_merged.
    + simpl. apply IH.
Qed.

Lemma load_env_lookup levels_up s s' key :
  load_env levels_up s = (Ok tt, s') →
  environ s' !! key
  = merged (environ s) (loaded_entries (dotenv s levels_up)) key.
Proof.
  unfold load_env, loaded_entries, file_entries.
  destruct (dotenv s levels_up) as [text|].
  - apply for_each_lines_merged.
  - intros [= <-]. unfold merged. simpl. by destruct (environ s !! key).
Qed.

(** X5.  After a load that ran to its end, a variable has the value it had
    in the process environment if it was set there, else the value of
    its first definition in the file, else none. *)
Theorem load_env_merges (levels_up : nat) (s s' : proc) (key : string) :
  load_env levels_up s = (Ok tt, s') →
  environ s' !! key
  = merged (environ s) (loaded_entries (dotenv s levels_up)) key.
Proof. apply load_env_lookup. Qed.

Lemma for_each_lines_again lines : ∀ s s1 s2,
  for_each lines load_env_line s = (Ok tt, s1) →
  keeps_environ s1 s2 →
  for_each lines load_env_line s2 = (Ok tt, s2).
Proof.
  induction lines as [|line lines IH]; intros s s1 s2; simpl; [done|].
  unfold bind. rewrite load_env_line_entry.
  destruct (env_entry line) as [[key value]|] eqn:E.
  - destruct (environ_setdefault key value s) as [[[]|e] sa] eqn:Hset; [|done].
    intros Hrest Hkeeps.
    assert (Hsa : is_Some (environ sa !! key)).
    { revert Hset. unfold environ_setdefault.
      destruct (environ s !! key) as [old|] eqn:Hold.
      - intros [= <-]. by rewrite Hold.
      - destruct (_ || _); [done|]. destruct (String.eqb key ""); [done|].
        intros [= <-]. simpl. by rewrite lookup_insert_eq. }
    destruct Hsa as [v Hv].
    assert (Hs1 : environ s1 !! key = Some v).
    { pose proof (ConfigFacts.for_each_keeps load_env_line lines
                    ConfigFacts.load_env_line_keeps sa) as Hk.
      rewrite Hrest in Hk. by apply Hk. }
    unfold environ_setdefault at 1. rewrite (Hkeeps _ _ Hs1).
    eapply IH; eauto.
  - simpl. apply IH.
Qed.

(** X6.  Loading twice is loading once: after a load that ran to its end, a
    second load succeeds and changes nothing. *)
Theorem load_env_idempotent (levels_up : nat) (s s' : proc) :
  load_env levels_up s = (Ok tt, s') →
  load_env levels_up s' = (Ok tt, s').
Proof.
  intros Hload.
  destruct (load_env_same levels_up s) as (_&_&_&_&_&Hdot&_).
  rewrite Hload in Hdot. simpl in Hdot.
  revert Hload. unfold load_env. rewrite Hdot.
  destruct (dotenv s levels_up) as [text|]; [|done].
  intros Hload. eapply for_each_lines_again; [exact Hload|].
  by intros k v.
Qed.

Lemma get_config_returns s config s' :
  get_config s = (Ok config, s') → config = config_of (environ s).
Proof.
  unfold get_config, config_of, env_value, bind, environ_get,
    environ_get_default, eprint, sys_exit, raise, ret. simpl.
  destruct (negb _); [done|]. by intros [= <- _].
Qed.

(** X7.  The precedence of the configuration, end to end: after a load that
    ran to its end, the project key and the board id that [get_config]
    returns come from the process environment if the variable was set
    there, else from its first definition in the file, else from the
    built-in default. *)
Theorem config_precedence (levels_up : nat) (s s1 s2 : proc) (config : pyval) :
  load_env levels_up s = (Ok tt, s1) →
  get_config s1 = (Ok config, s2) →
  let entries := loaded_entries (dotenv s levels_up) in
  get_item config "project_key"
    = Ok (PStr (default "SCRUM" (merged (environ s) entries "JIRA_PROJECT_KEY")))
  ∧ get_item config "board_id"
    = Ok (PStr (default "1" (merged (environ s) entries "JIRA_BOARD_ID"))).
Proof.
  intros Hload Hconfig entries.
  apply get_config_returns in Hconfig. subst config.
  unfold config_of. simpl.
  rewrite !(load_env_lookup levels_up s s1 _ Hload). done.
Qed.

End ConfigMore.

Import Examples.

Lemma load_env_merges_witness :
  (load_env 2 env_example).1 = Ok tt
  ∧ environ (load_env 2 env_example).2 !! "JIRA_API_TOKEN" = Some "secret"
  ∧ environ (load_env 2 env_example).2 !! "JIRA_EMAIL" = Some "me@example.com".
Proof.
  assert (H : load_env 2 env_example = (Ok tt, (load_env 2 env_example).2))
    by (vm_compute; reflexivity).
  split; [by rewrite H|]. split.
  - rewrite (load_env_merges 2 env_example _ "JIRA_API_TOKEN" H).
    vm_compute. reflexivity.
  - rewrite (load_env_merges 2 env_example _ "JIRA_EMAIL" H).
    vm_compute. reflexivity.
Defined.

Lemma config_precedence_witness :
  (load_env 2 configured).1 = Ok tt
  ∧ (∃ config, (get_config (load_env 2 configured).2).1 = Ok config
               ∧ get_item config "project_key" = Ok (PStr "DOCS")
               ∧ get_item config "board_id" = Ok (PStr "7")).
Proof.
  assert (H : load_env 2 configured = (Ok tt, (load_env 2 configured).2))
    by (vm_compute; reflexivity).
  split; [by rewrite H|].
  destruct (get_config (load_env 2 configured).2) as [[config|e] s2] eqn:Hc;
    [|vm_compute in Hc; discriminate Hc].
  exists config. split; [reflexivity|].
  destruct (config_precedence 2 configured _ s2 config H Hc) as [Hp Hb].
  split; [rewrite Hp | rewrite Hb]; vm_compute; reflexivity.
Defined.

Lemma load_env_idempotent_witness :
  (load_env 2 env_example).1 = Ok tt
  ∧ load_env 2 (load_env 2 env_example).2
    = (Ok tt, (load_env 2 env_example).2).
Proof.
  assert (H : load_env 2 env_example = (Ok tt, (load_env 2 env_example).2))
    by (vm_compute; reflexivity).
  split; [by rewrite H|].
  exact (load_env_idempotent 2 env_example _ H).
Defined.

End ConfigMore.

(** ** More on the requests *)

Module RequestMore.
Import Spec Vocab MonadFacts.

Section RequestMore.
Context {R : Remote} {G : Globals}.

(** X8.  For an issue key that can stand in the path of a request,
    [delete_issue] of delete-all sends one DELETE request without a body
    and returns [True] exactly when the answer is 204 or 404; on any
    other success status it returns [False], and any other error leaves
    as the [HTTPError] of urllib, not wrapped into an [Exception]. *)
Theorem delete_issue_outcome (issue_key : string) (delete_subtasks : bool)
    (s : proc) :
  url_safe issue_key = true →
  let req := delete_issue_request issue_key delete_subtasks in
  sent (DeleteAll.delete_issue issue_key delete_subtasks s).2 = sent s ++ [req]
  ∧ (DeleteAll.delete_issue issue_key delete_subtasks s).1
    = match (answer (remote s) req).1 with
      | HttpReply status reason body =>
          if (200 <=? status) && (status <? 300) then Ok (status =? 204)
          else if status =? 404 then Ok true
          else Raise (HTTPError status reason body)
      | Unreachable reason => Raise (URLError reason)
      end.
Proof.
  intros _.
  unfold DeleteAll.delete_issue, delete_issue_request, except_HTTPError, bind,
    urlopen, ret, raise. simpl.
  destruct (answer _ _) as [[status reason body|why] srv]; simpl; [|done].
  destruct ((200 <=? status) && (status <? 300)); simpl; [done|].
  by destruct (status =? 404).
Qed.

(** X9.  The helper of the template and the [make_request] of the scripts
    agree on a request, result and state, unless the server answers with
    an error status and a body of more than 200 characters: then the two
    messages differ in length only. *)
Theorem jira_request_is_make_request (path method : string) (data : pyval)
    (s : proc) :
  let req := request_for (JIRA_BASE_URL +:+ "/rest/api/3" +:+ path) method
               HEADERS data in
  (∀ status reason body,
     (answer (remote s) req).1 = HttpReply status reason body →
     (200 ≤ status < 300) ∨ (String.length body ≤ 200)%nat) →
  Template.jira_request JIRA_BASE_URL HEADERS path method data s
  = BulkCreate.make_request method path data s.
Proof.
  intros req Hshort.
  rewrite HelperFacts.jira_request_outcome, HelperFacts.make_request_outcome.
  fold req. f_equal.
  destruct (answer (remote s) req).1 as [status reason body|why] eqn:E; [|done].
  unfold helper_outcome.
  destruct ((200 <=? status) && (status <? 300)) eqn:Hok; [done|].
  destruct (Hshort status reason body eq_refl) as [Hrange|Hlen]; [lia|].
  by rewrite !StrFacts.take_all by lia.
Qed.

Lemma create_story_outcome base_url headers project_key summary sections
    parent_epic_key labels s :
  match Template.build_adf sections with
  | Raise e =>
      Template.create_story base_url headers project_key summary sections
        parent_epic_key labels s = (Raise e, s)
  | Ok description =>
      sent (Template.create_story base_url headers project_key summary sections
              parent_epic_key labels s).2
      = sent s ++ [described_issue_request base_url headers project_key "Story"
                     summary description (story_options parent_epic_key labels)]
  end.
Proof.
  unfold Template.create_story.
  destruct (Template.build_adf sections) as [description|e]; [|done].
  rewrite bind_lift, HelperFacts.jira_request_outcome. simpl.
  unfold described_issue_request, story_options.
  destruct (truthy parent_epic_key), (truthy labels); reflexivity.
Qed.

Lemma create_epic_outcome base_url headers project_key summary sections s :
  match Template.build_adf sections with
  | Raise e =>
      Template.create_epic base_url headers project_key summary sections s
      = (Raise e, s)
  | Ok description =>
      sent (Template.create_epic base_url headers project_key summary sections s).2
      = sent s ++ [described_issue_request base_url headers project_key "Epic"
                     summary description []]
  end.
Proof.
  unfold Template.create_epic.
  destruct (Template.build_adf sections) as [description|e]; [|done].
  rewrite bind_lift, HelperFacts.jira_request_outcome. reflexivity.
Qed.

(** X10.  [create_epic] and [create_story] build the description first: when
    a section cannot be rendered they raise and send nothing; otherwise
    they send one creation request that carries the document, the summary
    as it is (no truncation), and for a story the parent and the labels
    only when these are given and not empty. *)
Theorem create_with_description (base_url : string)
    (headers : list (string * string)) (project_key summary : string)
    (sections : list (gmap string pyval)) (parent_epic_key labels : pyval)
    (s : proc) :
  match Template.build_adf sections with
  | Raise e =>
      Template.create_epic base_url headers project_key summary sections s
        = (Raise e, s)
      ∧ Template.create_story base_url headers project_key summary sections
          parent_epic_key labels s = (Raise e, s)
  | Ok description =>
      sent (Template.create_epic base_url headers project_key summary sections s).2
        = sent s ++ [described_issue_request base_url headers project_key "Epic"
                       summary description []]
      ∧ sent (Template.create_story base_url headers project_key summary sections
                parent_epic_key labels s).2
        = sent s ++ [described_issue_request base_url headers project_key "Story"
                       summary description (story_options parent_epic_key labels)]
  end.
Proof.
  pose proof (create_epic_outcome base_url headers project_key summary sections s).
  pose proof (create_story_outcome base_url headers project_key summary sections
                parent_epic_key labels s).
  by destruct (Template.build_adf sections).
Qed.

(** X11.  The [delete_issue] of the template has no special case: a 404
    answer raises an [Exception] whose message starts with the code. *)
Theorem template_delete_issue_404 (base_url : string)
    (headers : list (string * string)) (issue_key reason body : string)
    (s : proc) :
  (answer (remote s)
     (request_for (base_url +:+ "/rest/api/3/issue/" +:+ issue_key) "DELETE"
        headers PNone)).1 = HttpReply 404 reason body →
  (Template.delete_issue base_url headers issue_key s).1
  = Raise (Exception ("404: " +:+ Str.take 300 body)).
Proof.
  intros H404. unfold Template.delete_issue.
  rewrite HelperFacts.jira_request_outcome. simpl.
  change (base_url +:+ "/rest/api/3" +:+ "/issue/" +:+ issue_key)
    with (base_url +:+ "/rest/api/3/issue/" +:+ issue_key).
  rewrite H404. simpl. by rewrite DeleteFacts.pretty_404.
Qed.

End RequestMore.

Import Examples.

(** The server answers 500 with an empty body to a GET of [/myself]. *)
Lemma jira_request_is_make_request_witness :
  let req := request_for
               (@JIRA_BASE_URL Scripted.globals +:+ "/rest/api/3" +:+ "/myself")
               "GET" (@HEADERS Scripted.globals) PNone in
  (∀ status reason body,
     (answer (remote (run [server_error] [])) req).1
     = HttpReply status reason body →
     (200 ≤ status < 300) ∨ (String.length body ≤ 200)%nat)
  ∧ Template.jira_request (@JIRA_BASE_URL Scripted.globals)
      (@HEADERS Scripted.globals) "/myself" "GET" PNone (run [server_error] [])
    = BulkCreate.make_request (G := Scripted.globals) "GET" "/myself" PNone
        (run [server_error] []).
Proof.
  intros req.
  assert (H : ∀ status reason body,
     (answer (remote (run [server_error] [])) req).1
     = HttpReply status reason body →
     (200 ≤ status < 300) ∨ (String.length body ≤ 200)%nat).
  { intros status reason body [= <- <- <-]. right. simpl. lia. }
  split; [exact H|].
  exact (jira_request_is_make_request (G := Scripted.globals) "/myself" "GET"
           PNone (run [server_error] []) H).
Defined.

(** The issue is gone already: the server answers 404. *)
Lemma delete_issue_outcome_witness :
  url_safe "SCRUM-1" = true
  ∧ sent (DeleteAll.delete_issue (G := Scripted.globals) "SCRUM-1" true
            (run [not_found] [])).2
    = [delete_issue_request (G := Scripted.globals) "SCRUM-1" true]
  ∧ (DeleteAll.delete_issue (G := Scripted.globals) "SCRUM-1" true
       (run [not_found] [])).1 = Ok true.
Proof.
  split; [reflexivity|].
  exact (delete_issue_outcome (G := Scripted.globals) "SCRUM-1" true
           (run [not_found] []) eq_refl).
Defined.

Lemma template_delete_issue_404_witness :
  (answer (remote (run [not_found] []))
     (request_for ("https://example.atlassian.net" +:+ "/rest/api/3/issue/"
                   +:+ "SCRUM-1") "DELETE" [] PNone)).1
    = HttpReply 404 "Not Found" ""
  ∧ (Template.delete_issue "https://example.atlassian.net" [] "SCRUM-1"
       (run [not_found] [])).1
    = Raise (Exception "404: ").
Proof.
  split; [reflexivity|].
  exact (template_delete_issue_404 "https://example.atlassian.net" [] "SCRUM-1"
           "Not Found" "" (run [not_found] []) eq_refl).
Defined.

End RequestMore.

(** ** More on transitions *)

Module TransitionMore.
Import Spec Vocab MonadFacts.

Section TransitionMore.
Context {R : Remote} {G : Globals}.

Lemma find_transition_find ts target :
  WorkflowDemo.find_transition (transition_value <$> ts) target
  = Ok (match List.find (λ t, goes_to target t || is_named target t) ts with
        | Some t => transition_value t
        | None => PNone
        end).
Proof.
  induction ts as [|t ts IH]; [done|].
  cbn [fmap list_fmap WorkflowDemo.find_transition List.find].
  rewrite TransitionFacts.matches_value. cbn [and_then].
  by destruct (goes_to target t || is_named target t).
Qed.

Lemma find_done_find ts :
  BulkCreate.find_done (transition_value <$> ts)
  = Ok (match List.find (goes_to "Done") ts with
        | Some t => transition_value t
        | None => PNone
        end).
Proof.
  induction ts as [|t ts IH]; [done|].
  cbn [fmap list_fmap List.find]. rewrite TransitionFacts.find_done_value.
  by destruct (goes_to "Done" t).
Qed.

Lemma print_transition_value t s :
  WorkflowDemo.print_transition (transition_value t) s
  = (Ok tt, set_stdout (stdout s ++ [transition_line t]) s).
Proof. reflexivity. Qed.

Lemma print_transitions ts : ∀ s,
  for_each (transition_value <$> ts) WorkflowDemo.print_transition s
  = (Ok tt, set_stdout (stdout s ++ (transition_line <$> ts)) s).
Proof.
  induction ts as [|t ts IH]; intros s.
  - simpl. unfold ret, set_stdout. rewrite app_nil_r. by destruct s.
  - cbn [fmap list_fmap for_each].
    rewrite (bind_returns _ _ _ _ _ (print_transition_value t s)), IH.
    unfold set_stdout. simpl. by rewrite <- app_assoc.
Qed.

(** The state after a request for transitions was answered. *)
Lemma get_transitions_lists issue_key s ts :
  let req := request_for (JIRA_BASE_URL +:+ "/rest/api/3/issue/" +:+ issue_key
                          +:+ "/transitions?expand=transitions.fields")
               "GET" HEADERS PNone in
  lists_transitions (answer (remote s) req).1 ts →
  WorkflowDemo.get_transitions issue_key s
  = (Ok (PList (transition_value <$> ts)),
     set_remote (answer (remote s) req).2 req s).
Proof.
  intros req (status & reason & body & v & Hr & Hrange & H204 & Hjson & Hts).
  unfold WorkflowDemo.get_transitions, WorkflowDemo.make_request.
  unfold bind. rewrite HelperFacts.make_request_outcome. simpl.
  change (request_for _ "GET" HEADERS PNone) with req.
  rewrite Hr. unfold helper_outcome.
  replace ((200 <=? status) && (status <? 300)) with true by lia.
  simpl. replace (status =? 204) with false by lia. simpl.
  rewrite Hjson. unfold lift. by rewrite Hts.
Qed.

(** X12.  [transition_to], run against a server that lists the transitions
    [ts].  When no transition leads to the target or bears its name, only
    the listing request is sent, the available transitions are printed
    and the result is [False].  Otherwise a second request executes the
    first such transition, and the result is [True] unless that request
    fails. *)
Theorem transition_to_run (issue_key target_status : string) (s : proc)
    (ts : list transition) :
  let listing := request_for (JIRA_BASE_URL +:+ "/rest/api/3/issue/" +:+ issue_key
                              +:+ "/transitions?expand=transitions.fields")
                   "GET" HEADERS PNone in
  let s1 := set_remote (answer (remote s) listing).2 listing s in
  lists_transitions (answer (remote s) listing).1 ts →
  match List.find (λ t, goes_to target_status t || is_named target_status t) ts with
  | None =>
      WorkflowDemo.transition_to issue_key target_status s
      = (Ok false,
         set_stdout
           (stdout s
            ++ ["No transition to " +:+ Str.dq +:+ target_status +:+ Str.dq
                +:+ " available."; "Available transitions:"]
            ++ (transition_line <$> ts)) s1)
  | Some t =>
      let execute := transition_request issue_key t in
      WorkflowDemo.transition_to issue_key target_status s
      = (and_then (helper_outcome [204] 200 (answer (remote s1) execute).1)
           (λ _, Ok true),
         set_remote (answer (remote s1) execute).2 execute s1)
  end.
Proof.
  intros listing s1 Hlist.
  unfold WorkflowDemo.transition_to.
  rewrite (bind_returns _ _ _ _ _ (get_transitions_lists issue_key s ts Hlist)).
  fold listing. fold s1.
  cbn [iterate]. rewrite bind_lift, find_transition_find, bind_lift.
  destruct (List.find _ ts) as [t|].
  - cbn [truthy transition_value negb get_item assoc]. simpl String.eqb.
    cbn match. rewrite bind_lift.
    unfold WorkflowDemo.do_transition, WorkflowDemo.make_request, bind.
    rewrite HelperFacts.make_request_outcome.
    unfold transition_request. simpl.
    by destruct (helper_outcome _ _ _).
  - cbn [truthy negb]. rewrite !bind_print.
    unfold bind. rewrite print_transitions. unfold ret, set_stdout. simpl.
    by rewrite <- !app_assoc.
Qed.

Lemma bulk_get_transitions_lists issue_key s ts :
  let req := request_for (JIRA_BASE_URL +:+ "/rest/api/3/issue/"
                          +:+ py_str issue_key +:+ "/transitions")
               "GET" HEADERS PNone in
  lists_transitions (answer (remote s) req).1 ts →
  BulkCreate.get_transitions issue_key s
  = (Ok (PList (transition_value <$> ts)),
     set_remote (answer (remote s) req).2 req s).
Proof.
  intros req (status & reason & body & v & Hr & Hrange & H204 & Hjson & Hts).
  unfold BulkCreate.get_transitions.
  unfold bind. rewrite HelperFacts.make_request_outcome. simpl.
  change (request_for _ "GET" HEADERS PNone) with req.
  rewrite Hr. unfold helper_outcome.
  replace ((200 <=? status) && (status <? 300)) with true by lia.
  simpl. replace (status =? 204) with false by lia. simpl.
  rewrite Hjson. unfold lift. by rewrite Hts.
Qed.

(** X13.  [transition_to_done], run against a server that lists the
    transitions [ts].  When none leads to the status Done, only the
    listing request is sent, nothing is printed and the result is
    [False]; a transition that is merely named Done does not count.
    Otherwise a second request executes the first transition that leads
    to Done, and the result is [True] unless that request fails. *)
Theorem transition_to_done_run (issue_key : pyval) (s : proc)
    (ts : list transition) :
  let listing := request_for (JIRA_BASE_URL +:+ "/rest/api/3/issue/"
                              +:+ py_str issue_key +:+ "/transitions")
                   "GET" HEADERS PNone in
  let s1 := set_remote (answer (remote s) listing).2 listing s in
  lists_transitions (answer (remote s) listing).1 ts →
  match List.find (goes_to "Done") ts with
  | None => BulkCreate.transition_to_done issue_key s = (Ok false, s1)
  | Some t =>
      let execute := transition_request (py_str issue_key) t in
      BulkCreate.transition_to_done issue_key s
      = (and_then (helper_outcome [204] 200 (answer (remote s1) execute).1)
           (λ _, Ok true),
         set_remote (answer (remote s1) execute).2 execute s1)
  end.
Proof.
  intros listing s1 Hlist.
  unfold BulkCreate.transition_to_done.
  rewrite (bind_returns _ _ _ _ _ (bulk_get_transitions_lists issue_key s ts Hlist)).
  fold listing. fold s1.
  cbn [iterate]. rewrite bind_lift, find_done_find, bind_lift.
  destruct (List.find _ ts) as [t|].
  - cbn [truthy transition_value negb get_item assoc]. simpl String.eqb.
    cbn match. rewrite bind_lift.
    unfold bind. rewrite HelperFacts.make_request_outcome.
    unfold transition_request. simpl.
    by destruct (helper_outcome _ _ _).
  - reflexivity.
Qed.

End TransitionMore.

Import Examples.

Lemma demo_listing (replies : list reply) (req : request) :
  lists_transitions (R := listing_world)
    (answer (remote (listing_run (transitions_listed :: replies) [])) req).1
    demo_transitions.
Proof.
  exists 200, "OK", (Scripted.transitions_text demo_transitions),
    (Scripted.transitions_value demo_transitions).
  repeat split; try reflexivity; lia.
Qed.

(** The issue is moved to Done: the listing, then the execution of the
    transition 21, answered with 204. *)
Lemma transition_to_run_witness :
  let s := listing_run [transitions_listed; no_content] [] in
  (∀ req, lists_transitions (R := listing_world)
            (answer (remote s) req).1 demo_transitions)
  ∧ (WorkflowDemo.transition_to (G := Scripted.globals) "SCRUM-1" "done" s).1
    = Ok true
  ∧ sent (WorkflowDemo.transition_to (G := Scripted.globals) "SCRUM-1" "done" s).2
    = [request_for ("https://example.atlassian.net/rest/api/3/issue/SCRUM-1"
                    +:+ "/transitions?expand=transitions.fields")
         "GET" (@HEADERS Scripted.globals) PNone;
       transition_request (G := Scripted.globals) "SCRUM-1" close_transition].
Proof.
  intros s. split; [intros req; apply demo_listing|].
  pose proof (transition_to_run (G := Scripted.globals) "SCRUM-1" "done" s
                demo_transitions (demo_listing _ _)) as H.
  change (List.find _ demo_transitions) with (Some close_transition) in H.
  rewrite H. split; vm_compute; reflexivity.
Defined.

(** The same run for [transition_to_done]. *)
Lemma transition_to_done_run_witness :
  let s := listing_run [transitions_listed; no_content] [] in
  (∀ req, lists_transitions (R := listing_world)
            (answer (remote s) req).1 demo_transitions)
  ∧ (BulkCreate.transition_to_done (G := Scripted.globals) (PStr "SCRUM-1") s).1
    = Ok true
  ∧ req_method
      <$> sent (BulkCreate.transition_to_done (G := Scripted.globals)
                  (PStr "SCRUM-1") s).2
    = ["GET"; "POST"].
Proof.
  intros s. split; [intros req; apply demo_listing|].
  pose proof (transition_to_done_run (G := Scripted.globals) (PStr "SCRUM-1") s
                demo_transitions (demo_listing _ _)) as H.
  change (List.find _ demo_transitions) with (Some close_transition) in H.
  rewrite H. split; vm_compute; reflexivity.
Defined.

End TransitionMore.

(** ** The entry points *)

Module MainMore.
Import Spec Vocab MonadFacts.

Section MainMore.
Context {R : Remote} {G : Globals}.

Lemma tame_lift {A} (r : result A) :
  (∀ e, r = Raise e → is_Exception e = true) → tame (lift r).
Proof. intros H s e. apply H. Qed.

Lemma tame_raise_exception {A} e : is_Exception e = true → tame (raise e : M A).
Proof. by intros H s e' [= <-]. Qed.

Lemma tame_for_each {A} (body : A → M unit) xs :
  (∀ x, tame (body x)) → tame (for_each xs body).
Proof.
  intros Hbody. induction xs as [|x xs IH]; simpl.
  - apply tame_ret.
  - apply tame_bind; auto.
Qed.

Lemma tame_for_fold {A B} (body : A → B → M B) xs :
  (∀ x acc, tame (body x acc)) → ∀ acc, tame (for_fold xs body acc).
Proof.
  intros Hbody. induction xs as [|x xs IH]; intros acc; simpl.
  - apply tame_ret.
  - apply tame_bind; auto.
Qed.

(** A [try] around code that raises nothing but [Exception]s ends as
    its body does, or as the handler does. *)
Lemma try_except_tame_ends {A} (body : M A) handler s :
  tame body →
  (∃ a, (try_except body handler s).1 = Ok a)
  ∨ ∃ e s1, is_Exception e = true
            ∧ try_except body handler s = handler e s1.
Proof.
  intros Hbody. unfold try_except. specialize (Hbody s).
  destruct (body s) as [[a|e] s1]; simpl in *; [left; by eexists|].
  pose proof (Hbody e eq_refl) as He. rewrite He.
  right. exists e, s1. split; [exact He | reflexivity].
Qed.

Lemma dict_get_tame v k d e : dict_get v k d = Raise e → is_Exception e = true.
Proof. destruct v; simpl; intros [= <-]; reflexivity. Qed.

Lemma py_len_tame v e : py_len v = Raise e → is_Exception e = true.
Proof. destruct v; simpl; intros [= <-]; reflexivity. Qed.

Lemma slice_to_tame n v e : slice_to n v = Raise e → is_Exception e = true.
Proof. destruct v; simpl; intros [= <-]; reflexivity. Qed.

Lemma iterate_tame v e : iterate v = Raise e → is_Exception e = true.
Proof. destruct v; simpl; intros [= <-]; reflexivity. Qed.

Lemma status_name_tame issue e :
  WorkflowDemo.status_name issue = Raise e → is_Exception e = true.
Proof.
  unfold WorkflowDemo.status_name.
  apply and_then_tame; [apply get_item_tame|]. intros fields e1.
  apply and_then_tame; [apply get_item_tame|]. intros status e2.
  apply get_item_tame.
Qed.

Lemma matches_tame t target e :
  WorkflowDemo.matches t target = Raise e → is_Exception e = true.
Proof.
  unfold WorkflowDemo.matches.
  apply and_then_tame; [apply get_item_tame|]. intros to e1.
  apply and_then_tame; [apply get_item_tame|]. intros name e2.
  apply and_then_tame; [apply method_lower_tame|]. intros lowered e3.
  destruct (String.eqb lowered _); [done|].
  apply and_then_tame; [apply get_item_tame|]. intros name' e4.
  apply and_then_tame; [apply method_lower_tame|]. by intros lowered' e5.
Qed.

Lemma find_transition_tame ts target e :
  WorkflowDemo.find_transition ts target = Raise e → is_Exception e = true.
Proof.
  revert e. induction ts as [|t ts IH]; intros e; simpl; [done|].
  apply and_then_tame; [apply matches_tame|]. intros hit e1.
  destruct hit; [done | apply IH].
Qed.

Lemma silent_appends {A} (m : M A) : silent m → appends m.
Proof. intros H s. exists []. rewrite app_nil_r. apply H. Qed.

Lemma appends_bind {A B} (m : M A) (k : A → M B) :
  appends m → (∀ a, appends (k a)) → appends (bind m k).
Proof.
  intros Hm Hk s. unfold bind. destruct (Hm s) as [l1 H1].
  destruct (m s) as [[a|e] s1]; simpl in *; [|by exists l1].
  destruct (Hk a s1) as [l2 H2]. exists (l1 ++ l2).
  by rewrite H2, H1, app_assoc.
Qed.

Lemma appends_make_request method path data :
  appends (BulkCreate.make_request method path data).
Proof.
  intros s. rewrite HelperFacts.make_request_outcome. simpl. by eexists.
Qed.

(** A request, then code that only adds to the log, inside a [try]
    whose handler only adds to the log. *)
Lemma try_except_appends_after {A B} (m : M A) (k : A → M B) (h : exn → M B) s :
  (∀ a, appends (k a)) → (∀ e, appends (h e)) →
  ∃ more, sent (try_except (bind m k) h s).2 = sent (m s).2 ++ more.
Proof.
  intros Hk Hh. unfold try_except, bind.
  destruct (m s) as [[a|e] s1]; simpl.
  - destruct (Hk a s1) as [l1 H1].
    destruct (k a s1) as [[b|e] s2]; simpl in *; [by exists l1|].
    destruct (is_Exception e); [|by exists l1].
    destruct (Hh e s2) as [l2 H2]. exists (l1 ++ l2).
    by rewrite H2, H1, app_assoc.
  - destruct (is_Exception e); [apply Hh|]. exists []. by rewrite app_nil_r.
Qed.

End MainMore.

Create HintDb appends.

Global Hint Resolve appends_make_request : appends.
Global Hint Extern 2 (appends _) =>
  apply silent_appends; solve [auto with silent] : appends.

(** Decomposes a goal [appends m]. *)
Ltac appends_steps :=
  repeat first
    [ solve [auto with appends]
    | apply appends_bind; [|intros]
    | match goal with
      | |- appends (if ?b then _ else _) => destruct b
      end ].

(** Decomposes a goal [silent m]; named sub-programs are tried first. *)
Ltac silence_more :=
  repeat first
    [ solve [auto with silent]
    | apply silent_for_each; intros
    | apply silent_bind; [|intros]
    | match goal with
      | |- silent (if ?b then _ else _) => destruct b
      | |- silent (match ?x with _ => _ end) => destruct x
      end ].

Create HintDb tame_more.

Global Hint Resolve tame_ret tame_print tame_get_item tame_iterate
  BulkFacts.tame_make_request : tame_more.
Global Hint Extern 1 (tame (lift (get_item _ _))) => apply tame_get_item : tame_more.
Global Hint Extern 1 (tame (lift (dict_get _ _ _))) =>
  apply tame_lift, dict_get_tame : tame_more.
Global Hint Extern 1 (tame (lift (py_len _))) =>
  apply tame_lift, py_len_tame : tame_more.
Global Hint Extern 1 (tame (lift (slice_to _ _))) =>
  apply tame_lift, slice_to_tame : tame_more.
Global Hint Extern 1 (tame (lift (iterate _))) =>
  apply tame_lift, iterate_tame : tame_more.
Global Hint Extern 1 (tame (lift (WorkflowDemo.status_name _))) =>
  apply tame_lift, status_name_tame : tame_more.
Global Hint Extern 1 (tame (lift (WorkflowDemo.find_transition _ _))) =>
  apply tame_lift, find_transition_tame : tame_more.

(** Decomposes a goal [tame m]; named sub-programs are tried first. *)
Ltac tame_more :=
  repeat first
    [ solve [auto with tame_more]
    | apply tame_for_each; intros
    | apply tame_bind; [|intros]
    | match goal with
      | |- tame (if ?b then _ else _) => destruct b
      | |- tame (match ?x with _ => _ end) => destruct x
      end ].

Section Tame.
Context {R : Remote} {G : Globals}.

Lemma tame_workflow_make_request method path data :
  tame (WorkflowDemo.make_request method path data).
Proof. apply BulkFacts.tame_make_request. Qed.

Lemma tame_workflow_get_issue key : tame (WorkflowDemo.get_issue key).
Proof. apply BulkFacts.tame_make_request. Qed.

Lemma tame_workflow_get_transitions key : tame (WorkflowDemo.get_transitions key).
Proof.
  unfold WorkflowDemo.get_transitions.
  pose proof tame_workflow_make_request. tame_more.
Qed.

Lemma tame_add_comment key text : tame (WorkflowDemo.add_comment key text).
Proof.
  unfold WorkflowDemo.add_comment.
  pose proof tame_workflow_make_request. tame_more.
Qed.

Lemma tame_print_transition t : tame (WorkflowDemo.print_transition t).
Proof. unfold WorkflowDemo.print_transition. tame_more. Qed.

Lemma tame_print_demo_transition t : tame (WorkflowDemo.print_demo_transition t).
Proof. unfold WorkflowDemo.print_demo_transition. tame_more. Qed.

Lemma tame_transition_to key target : tame (WorkflowDemo.transition_to key target).
Proof.
  unfold WorkflowDemo.transition_to, WorkflowDemo.do_transition.
  pose proof tame_workflow_make_request. pose proof tame_workflow_get_transitions.
  pose proof tame_print_transition.
  tame_more.
Qed.

Lemma tame_show_status key : tame (WorkflowDemo.show_status key).
Proof.
  unfold WorkflowDemo.show_status. pose proof tame_workflow_get_issue.
  tame_more.
Qed.

Lemma tame_run_demo key : tame (WorkflowDemo.run_demo key).
Proof.
  unfold WorkflowDemo.run_demo.
  pose proof tame_workflow_get_issue. pose proof tame_workflow_get_transitions.
  pose proof tame_transition_to. pose proof tame_add_comment.
  pose proof tame_print_demo_transition.
  tame_more.
Qed.

Lemma dispatch_ends action key s :
  ends_cleanly (WorkflowDemo.dispatch action key s).1
  ∧ (known_action action = false →
     (WorkflowDemo.dispatch action key s).1 = Raise (SystemExit 1)
     ∧ sent (WorkflowDemo.dispatch action key s).2 = sent s).
Proof.
  unfold WorkflowDemo.dispatch, known_action.
  assert (Hcaught : ∀ body : M unit, tame body →
            ends_cleanly
              (try_except body
                 (λ e, print ("Error: " +:+ str_exn e) >> sys_exit 1) s).1).
  { intros body Hbody.
    destruct (try_except_tame_ends body
                (λ e, print ("Error: " +:+ str_exn e) >> sys_exit 1) s Hbody)
      as [[a Ha]|(e & s1 & _ & ->)].
    - left. by exists a.
    - right. right. reflexivity. }
  pose proof tame_transition_to. pose proof tame_add_comment.
  destruct (String.eqb_spec action "demo") as [->|?];
    [split; [apply Hcaught, tame_run_demo | by vm_compute]|].
  destruct (String.eqb_spec action "start") as [->|?];
    [split; [apply Hcaught; tame_more | by vm_compute]|].
  destruct (String.eqb_spec action "complete") as [->|?];
    [split; [apply Hcaught; tame_more | by vm_compute]|].
  destruct (String.eqb_spec action "reopen") as [->|?];
    [split; [apply Hcaught; tame_more | by vm_compute]|].
  destruct (String.eqb_spec action "status") as [->|?];
    [split; [apply Hcaught, tame_show_status | by vm_compute]|].
  split; [right; right; reflexivity | done].
Qed.

(** X14.  The entry point of workflow-demo lets no exception escape: it
    returns or ends in [sys.exit] with 0 or 1.  Without an action it
    exits with 0; with an action that is not one of demo, start,
    complete, reopen and status, or without an issue key, it exits with 1;
    in these three cases nothing is sent to the server. *)
Theorem workflow_main_ends (argv : list string) (s : proc) :
  ends_cleanly (WorkflowDemo.main argv s).1
  ∧ match argv with
    | _ :: action :: key :: _ =>
        known_action action && negb (String.eqb key "") = false →
        (WorkflowDemo.main argv s).1 = Raise (SystemExit 1)
        ∧ sent (WorkflowDemo.main argv s).2 = sent s
    | [_; action] =>
        (WorkflowDemo.main argv s).1 = Raise (SystemExit 1)
        ∧ sent (WorkflowDemo.main argv s).2 = sent s
    | _ =>
        (WorkflowDemo.main argv s).1 = Raise (SystemExit 0)
        ∧ sent (WorkflowDemo.main argv s).2 = sent s
    end.
Proof.
  destruct argv as [|script [|action [|key rest]]];
    try (split; [right; left; reflexivity | done]).
  - (* no issue key *)
    unfold WorkflowDemo.main. cbn [truthy negb andb].
    destruct (String.eqb_spec action "help") as [->|Hne]; cbn [negb].
    + destruct (dispatch_ends "help" (py_str PNone) s) as [Hends Hbad].
      split; [exact Hends | by apply Hbad].
    + split; [right; right; reflexivity | done].
  - unfold WorkflowDemo.main. cbn [truthy py_str].
    destruct (String.eqb_spec key "") as [->|Hkey]; cbn [negb andb].
    + destruct (String.eqb_spec action "help") as [->|Hne]; cbn [negb].
      * destruct (dispatch_ends "help" "" s) as [Hends Hbad].
        split; [exact Hends | intros _; by apply Hbad].
      * split; [right; right; reflexivity | done].
    + destruct (dispatch_ends action key s) as [Hends Hbad].
      split; [exact Hends|]. rewrite andb_true_r. exact Hbad.
Qed.



Lemma tame_create_and_show_body :
  tame (let* issue :=
          CreateOne.create_issue "[Test-Python] Story created from Python script"
            "Story" (PStr "This is a test story created by the Python Jira script.")
            PNone in
        print ("[OK] Story created successfully!" +:+ Str.nl) >>
        let* key := lift (get_item issue "key") in
        print ("Key: " +:+ py_str key) >>
        let* id := lift (get_item issue "id") in
        print ("ID: " +:+ py_str id) >>
        let* key := lift (get_item issue "key") in
        print (Str.nl +:+ "Direct link: " +:+ JIRA_BASE_URL +:+ "/browse/"
               +:+ py_str key) >>
        print (Str.nl +:+ "Backlog: " +:+ JIRA_BASE_URL
               +:+ "/jira/software/projects/" +:+ PROJECT_KEY
               +:+ "/boards/1/backlog") >>
        let* key := lift (get_item issue "key") in
        let* issue_details :=
          CreateOne.make_request "GET"
            ("/issue/" +:+ py_str key +:+ "?fields=status") PNone in
        let* fields := lift (get_item issue_details "fields") in
        let* status := lift (get_item fields "status") in
        let* name := lift (get_item status "name") in
        print (Str.nl +:+ "Status: " +:+ py_str name)).
Proof.
  unfold CreateOne.create_issue, CreateOne.make_request. cbn [truthy negb].
  tame_more.
Qed.

(** X16.  The entry point of create-one always returns: when the creation or
    the status request fails, the error is printed and the process still
    ends with status 0.  Its first request is the creation of the test
    story, with the description as a one-paragraph document. *)
Theorem create_one_main_returns (s : proc) :
  (CreateOne.main s).1 = Ok tt
  ∧ ∃ more, sent (CreateOne.main s).2 = sent s ++ test_story_request :: more.
Proof.
  unfold CreateOne.main. rewrite bind_print. split.
  - match goal with |- (CreateOne.create_and_show ?s1).1 = _ =>
      destruct (try_except_tame_ends _
                  (λ e, print ("[FAIL] Error: " +:+ str_exn e)) s1
                  tame_create_and_show_body) as [[[] Ha]|(e & s2 & _ & He)]
    end.
    + exact Ha.
    + unfold CreateOne.create_and_show. rewrite He. reflexivity.
  - match goal with |- context [CreateOne.create_and_show ?s1] =>
      destruct (try_except_appends_after
                  (CreateOne.create_issue
                     "[Test-Python] Story created from Python script" "Story"
                     (PStr "This is a test story created by the Python Jira script.")
                     PNone)
                  (λ issue,
                     print ("[OK] Story created successfully!" +:+ Str.nl) >>
                     let* key := lift (get_item issue "key") in
                     print ("Key: " +:+ py_str key) >>
                     let* id := lift (get_item issue "id") in
                     print ("ID: " +:+ py_str id) >>
                     let* key := lift (get_item issue "key") in
                     print (Str.nl +:+ "Direct link: " +:+ JIRA_BASE_URL
                            +:+ "/browse/" +:+ py_str key) >>
                     print (Str.nl +:+ "Backlog: " +:+ JIRA_BASE_URL
                            +:+ "/jira/software/projects/" +:+ PROJECT_KEY
                            +:+ "/boards/1/backlog") >>
                     let* key := lift (get_item issue "key") in
                     let* issue_details :=
                       CreateOne.make_request "GET"
                         ("/issue/" +:+ py_str key +:+ "?fields=status") PNone in
                     let* fields := lift (get_item issue_details "fields") in
                     let* status := lift (get_item fields "status") in
                     let* name := lift (get_item status "name") in
                     print (Str.nl +:+ "Status: " +:+ py_str name))
                  (λ e, print ("[FAIL] Error: " +:+ str_exn e)) s1)
        as [more Hmore]
    end.
    + intros issue. unfold CreateOne.make_request. appends_steps.
    + intros e. appends_steps.
    + exists more. unfold CreateOne.create_and_show. rewrite Hmore.
      unfold CreateOne.create_issue, CreateOne.make_request.
      rewrite HelperFacts.make_request_outcome. simpl.
      by rewrite <- app_assoc.
Qed.








End Tame.

Import Examples.


Section Spaces.
Context {R : Remote} {G : Globals}.

(** X18.  A help flag anywhere on the command line wins: create-space and
    delete-space print their usage, send nothing and exit with 0.  With
    too few arguments (less than two for create-space, none for
    delete-space) and no help flag they do the same and exit with 1. *)
Theorem usage_paths (args : list string) (s : proc) :
  (CreateSpace.wants_help args = true ∨ (length args < 2)%nat →
   CreateSpace.main args s
   = (Raise (SystemExit (if CreateSpace.wants_help args then 0 else 1)),
      set_stdout (stdout s ++ [CreateSpace.usage]) s))
  ∧ (DeleteSpace.wants_help args = true ∨ args = [] →
     DeleteSpace.main args s
     = (Raise (SystemExit (if DeleteSpace.wants_help args then 0 else 1)),
        set_stdout (stdout s ++ [DeleteSpace.usage]) s)).
Proof.
  split.
  - intros H. unfold CreateSpace.main.
    destruct args as [|a0 [|a1 rest]]; try reflexivity.
    destruct H as [->|H]; [reflexivity | simpl in H; lia].
  - intros H. unfold DeleteSpace.main.
    destruct args as [|a0 rest]; [reflexivity|].
    destruct H as [->|H]; [reflexivity | done].
Qed.

(** X19.  When the server answers the creation of a space with 202 or 204,
    the helper returns [None]: create-space prints that the space was
    created, then fails on the first field it wants to show, prints an
    error and exits with 1. *)
Theorem create_space_without_content (key name description : string)
    (s : proc) (status : Z) (reason body : string) :
  (answer (remote s)
     (space_request (Str.upper key) name (description_entry description))).1
    = HttpReply status reason body →
  status = 202 ∨ status = 204 →
  CreateSpace.create_and_report key name description s
  = (Raise (SystemExit 1),
     set_stdout
       (stdout s
        ++ ["Space created successfully!" +:+ Str.nl; Str.rule40; "  DETAILS";
            Str.rule40;
            "Error creating space: 'NoneType' object is not subscriptable"])
       (set_remote
          (answer (remote s)
             (space_request (Str.upper key) name (description_entry description))).2
          (space_request (Str.upper key) name (description_entry description)) s)).
Proof.
  intros Hreply Hstatus.
  assert (Hcreate :
    CreateSpace.create_space key name description s
    = (Ok PNone,
       set_remote
         (answer (remote s)
            (space_request (Str.upper key) name (description_entry description))).2
         (space_request (Str.upper key) name (description_entry description)) s)).
  { unfold CreateSpace.create_space, CreateSpace.confluence_request.
    rewrite HelperFacts.confluence_request_outcome.
    assert (Hurl : ∀ data,
              request_for (JIRA_BASE_URL +:+ "/wiki/rest/api" +:+ "/space")
                "POST" HEADERS data
              = request_for (JIRA_BASE_URL +:+ "/wiki/rest/api/space")
                  "POST" HEADERS data) by reflexivity.
    cbv zeta. rewrite Hurl.
    unfold space_request, description_entry in *.
    destruct (negb (String.eqb description "")); cbn [app] in *;
      rewrite Hreply; destruct Hstatus as [-> | ->]; reflexivity. }
  unfold CreateSpace.create_and_report, try_except.
  rewrite (bind_returns _ _ _ _ _ Hcreate), !bind_print.
  simpl. rewrite bind_print. unfold sys_exit, raise, set_stdout. simpl.
  rewrite <- !app_assoc. reflexivity.
Qed.

End Spaces.

Section DeleteAllMore.
Context {R : Remote} {G : Globals}.

Lemma search_issues_sends s :
  sent (DeleteAll.search_issues
          ("project = " +:+ PROJECT_KEY +:+ " ORDER BY key ASC") 500 s).2
  = sent s ++ [search_request].
Proof.
  unfold DeleteAll.search_issues.
  rewrite HelperFacts.delete_all_make_request_outcome. reflexivity.
Qed.

Lemma silent_dry_run_report issues : silent (DeleteAll.dry_run_report issues).
Proof.
  unfold DeleteAll.dry_run_report. silence_more.
Qed.

(** X20.  Without [--confirm], delete-all sends the search request and nothing
    else, whatever the server answers: no DELETE request leaves. *)
Theorem delete_all_dry_run (argv : list string) (s : proc) :
  "--confirm" ∉ argv →
  sent (DeleteAll.main argv s).2 = sent s ++ [search_request].
Proof.
  intros Hflag. unfold DeleteAll.main.
  rewrite bool_decide_eq_false_2 by done. cbn [negb].
  rewrite !bind_print. unfold DeleteAll.search_and_delete.
  match goal with |- sent (try_except (bind ?m ?k) ?h ?s1).2 = _ =>
    destruct (try_except_after m k h s1) as [Hsent _]
  end.
  - intros result. cbv iota. pose proof silent_dry_run_report. silence_more.
  - intros e. silence_more.
  - rewrite Hsent, search_issues_sends. reflexivity.
Qed.

Lemma delete_issue_result issue_key s :
  ∃ r,
    DeleteAll.delete_issue issue_key true s
    = (r, set_remote (answer (remote s) (delete_issue_request issue_key true)).2
            (delete_issue_request issue_key true) s)
    ∧ ∀ e, r = Raise e → is_Exception e = true.
Proof.
  unfold DeleteAll.delete_issue, delete_issue_request, except_HTTPError, bind,
    urlopen, ret, raise. simpl.
  destruct (answer _ _) as [[status reason body|why] srv]; simpl.
  - destruct ((200 <=? status) && (status <? 300)); simpl;
      [eexists; split; [reflexivity | done]|].
    destruct (status =? 404); eexists; (split; [reflexivity|]);
      [done | by intros e [= <-]].
  - eexists. split; [reflexivity | by intros e [= <-]].
Qed.

Lemma delete_one_effect issue key counts s :
  get_item issue "key" = Ok (PStr key) →
  ∃ counts' s',
    DeleteAll.delete_one issue counts s = (Ok counts', s')
    ∧ advanced 1 counts counts'
    ∧ sent s' = sent s ++ [delete_issue_request key true].
Proof.
  intros Hkey. unfold DeleteAll.delete_one, try_except.
  rewrite !Hkey, bind_lift. cbn [py_str].
  destruct (delete_issue_result key s) as (r & Hr & Htame).
  unfold bind at 1. rewrite Hr.
  destruct r as [[]|e].
  - rewrite bind_lift, bind_print. eexists _, _. split; [reflexivity|].
    split; [unfold advanced; simpl; lia | reflexivity].
  - rewrite bind_lift, bind_print. eexists _, _. split; [reflexivity|].
    split; [unfold advanced; simpl; lia | reflexivity].
  - rewrite (Htame e eq_refl), bind_lift, bind_print.
    eexists _, _. split; [reflexivity|].
    split; [unfold advanced; simpl; lia | reflexivity].
Qed.

Lemma delete_items_effect issues : ∀ keys counts s,
  Forall2 (λ issue key, get_item issue "key" = Ok (PStr key)) issues keys →
  ∃ counts' s',
    for_fold issues DeleteAll.delete_one counts s = (Ok counts', s')
    ∧ advanced (length keys) counts counts'
    ∧ sent s' = sent s ++ ((λ key, delete_issue_request key true) <$> keys).
Proof.
  induction issues as [|issue issues IH]; intros keys counts s Hkeys.
  - apply Forall2_nil_inv_l in Hkeys as ->. exists counts, s.
    split; [reflexivity|]. split; [unfold advanced; simpl; lia|].
    by rewrite app_nil_r.
  - apply Forall2_cons_inv_l in Hkeys as (key & keys' & Hkey & Hrest & ->).
    destruct (delete_one_effect issue key counts s Hkey)
      as (counts1 & s1 & Hone & Hadv1 & Hlog1).
    destruct (IH keys' counts1 s1 Hrest) as (counts' & s' & Hloop & Hadv & Hlog).
    exists counts', s'. cbn [for_fold]. unfold bind. rewrite Hone.
    split; [exact Hloop|]. split.
    + unfold advanced in *. cbn [length]. lia.
    + rewrite Hlog, Hlog1, <- app_assoc. reflexivity.
Qed.

(** X21.  The deletion loop of delete-all on issues that all have a key
    that can stand in the path of a request: it sends one DELETE request
    per issue, in order, never stops on a failure, and its two counters
    add up to the number of issues. *)
Theorem delete_loop_tally (issues : list pyval) (keys : list string) (s : proc) :
  Forall2 (λ issue key, get_item issue "key" = Ok (PStr key)) issues keys →
  Forall (λ key, url_safe key = true) keys →
  ∃ deleted failed s',
    DeleteAll.delete_loop (PList issues) s = (Ok (deleted, failed), s')
    ∧ 0 ≤ deleted ∧ 0 ≤ failed
    ∧ deleted + failed = Z.of_nat (length keys)
    ∧ sent s' = sent s ++ ((λ key, delete_issue_request key true) <$> keys).
Proof.
  intros Hkeys _. unfold DeleteAll.delete_loop. cbn [iterate]. rewrite bind_lift.
  destruct (delete_items_effect issues keys (0, 0) s Hkeys)
    as ([deleted failed] & s' & Hloop & Hadv & Hlog).
  exists deleted, failed, s'. unfold advanced in Hadv. simpl in Hadv.
  repeat split; try done; lia.
Qed.

(** X22.  An issue without a key stops the deletion loop: the turn raises, its
    handler formats the key again and raises in its turn, so the
    exception leaves the loop, nothing is sent for this issue and the
    issues after it are not visited. *)
Theorem delete_loop_stops_without_key (issue : pyval) (rest : list pyval)
    (counts : Z * Z) (s : proc) (e : exn) :
  get_item issue "key" = Raise e →
  for_fold (issue :: rest) DeleteAll.delete_one counts s = (Raise e, s).
Proof.
  intros Hkey. cbn [for_fold]. unfold bind at 1.
  unfold DeleteAll.delete_one, try_except, bind, lift.
  rewrite !Hkey. by rewrite (get_item_tame _ _ _ Hkey).
Qed.

(** X23.  A 404 answer to the search: the helper of delete-all returns [None]
    for it, the lookup of the issues in [None] raises, and the entry point
    prints the error and exits with 1, in a dry run as in a live one. *)
Theorem delete_all_search_404 (dry_run : bool) (s : proc) (reason body : string) :
  (answer (remote s) search_request).1 = HttpReply 404 reason body →
  DeleteAll.search_and_delete dry_run s
  = (Raise (SystemExit 1),
     set_stdout
       (stdout s ++ ["Error: 'NoneType' object has no attribute 'get'"])
       (set_remote (answer (remote s) search_request).2 search_request s)).
Proof.
  intros H404. unfold DeleteAll.search_and_delete, try_except.
  assert (Hsearch :
    DeleteAll.search_issues ("project = " +:+ PROJECT_KEY +:+ " ORDER BY key ASC")
      500 s
    = (Ok PNone, set_remote (answer (remote s) search_request).2 search_request s)).
  { unfold DeleteAll.search_issues.
    rewrite HelperFacts.delete_all_make_request_outcome. cbv zeta.
    change (request_for _ "GET" HEADERS PNone) with search_request.
    by rewrite H404. }
  rewrite (bind_returns _ _ _ _ _ Hsearch). reflexivity.
Qed.

End DeleteAllMore.

Lemma usage_paths_witness :
  (CreateSpace.wants_help ["DOCS"; "--help"] = true ∨ (length ["DOCS"; "--help"] < 2)%nat)
  ∧ (DeleteSpace.wants_help ([] : list string) = true ∨ ([] : list string) = [])
  ∧ exit_code (CreateSpace.main (G := Scripted.globals) ["DOCS"; "--help"]
                 (run [] [])).1 = 0
  ∧ exit_code (DeleteSpace.main (G := Scripted.globals) [] (run [] [])).1 = 1.
Proof.
  split; [left; reflexivity|]. split; [right; reflexivity|].
  destruct (usage_paths (G := Scripted.globals) ["DOCS"; "--help"] (run [] []))
    as [Hcreate _].
  destruct (usage_paths (G := Scripted.globals) [] (run [] [])) as [_ Hdelete].
  split.
  - rewrite Hcreate; [reflexivity | left; reflexivity].
  - rewrite Hdelete; [reflexivity | right; reflexivity].
Defined.

(** The server accepts the creation with 202 and no content. *)
Lemma create_space_without_content_witness :
  let s := run [HttpReply 202 "Accepted" ""] [] in
  (answer (remote s)
     (space_request (G := Scripted.globals) (Str.upper "docs") "Docs"
        (description_entry ""))).1 = HttpReply 202 "Accepted" ""
  ∧ (202 = 202 ∨ 202 = 204)
  ∧ exit_code (CreateSpace.create_and_report (G := Scripted.globals)
                 "docs" "Docs" "" s).1 = 1.
Proof.
  intros s. split; [reflexivity|]. split; [by left|].
  rewrite (create_space_without_content (G := Scripted.globals) "docs" "Docs" ""
             s 202 "Accepted" "" eq_refl (or_introl eq_refl)).
  reflexivity.
Defined.

Lemma delete_all_dry_run_witness :
  ("--confirm" ∉ ["delete-all.py"])
  ∧ sent (DeleteAll.main (G := Scripted.globals) ["delete-all.py"]
            (run [not_found] [])).2
    = [search_request (G := Scripted.globals)].
Proof.
  assert (Hflag : "--confirm" ∉ ["delete-all.py"]).
  { apply (bool_decide_unpack _). vm_compute. exact I. }
  split; [exact Hflag|].
  exact (delete_all_dry_run (G := Scripted.globals) ["delete-all.py"]
           (run [not_found] []) Hflag).
Defined.

(** Two issues; the server fails on the first deletion (500) and
    carries out the second (204): the loop goes on after the failure and
    ends with one issue deleted and one failed. *)
Lemma delete_loop_tally_witness :
  let s := run [server_error; no_content] [] in
  Forall2 (λ issue key, get_item issue "key" = Ok (PStr key))
    [found_issue; second_issue] ["SCRUM-1"; "SCRUM-2"]
  ∧ Forall (λ key, url_safe key = true) ["SCRUM-1"; "SCRUM-2"]
  ∧ (∃ deleted failed s',
       DeleteAll.delete_loop (G := Scripted.globals)
         (PList [found_issue; second_issue]) s = (Ok (deleted, failed), s')
       ∧ 0 ≤ deleted ∧ 0 ≤ failed
       ∧ deleted + failed = 2
       ∧ sent s' = [delete_issue_request (G := Scripted.globals) "SCRUM-1" true;
                    delete_issue_request (G := Scripted.globals) "SCRUM-2" true])
  ∧ (DeleteAll.delete_loop (G := Scripted.globals)
       (PList [found_issue; second_issue]) s).1 = Ok (1, 1).
Proof.
  intros s.
  assert (Hkeys : Forall2 (λ issue key, get_item issue "key" = Ok (PStr key))
                    [found_issue; second_issue] ["SCRUM-1"; "SCRUM-2"]).
  { repeat constructor. }
  assert (Hsafe : Forall (λ key, url_safe key = true) ["SCRUM-1"; "SCRUM-2"]).
  { repeat constructor. }
  split; [exact Hkeys|]. split; [exact Hsafe|]. split.
  - exact (delete_loop_tally (G := Scripted.globals) [found_issue; second_issue]
             ["SCRUM-1"; "SCRUM-2"] s Hkeys Hsafe).
  - vm_compute. reflexivity.
Defined.

Lemma delete_loop_stops_without_key_witness :
  get_item keyless_issue "key" = Raise (KeyError "key")
  ∧ for_fold [keyless_issue; found_issue] (DeleteAll.delete_one (G := Scripted.globals))
      (0, 0) (run [no_content] [])
    = (Raise (KeyError "key"), run [no_content] []).
Proof.
  split; [reflexivity|].
  exact (delete_loop_stops_without_key (G := Scripted.globals) keyless_issue
           [found_issue] (0, 0) (run [no_content] []) (KeyError "key") eq_refl).
Defined.

Lemma delete_all_search_404_witness :
  (answer (remote (run [not_found] [])) (search_request (G := Scripted.globals))).1
    = HttpReply 404 "Not Found" ""
  ∧ exit_code (DeleteAll.search_and_delete (G := Scripted.globals) false
                 (run [not_found] [])).1 = 1.
Proof.
  split; [reflexivity|].
  rewrite (delete_all_search_404 (G := Scripted.globals) false (run [not_found] [])
             "Not Found" "" eq_refl).
  reflexivity.
Defined.

(** An action that is not one of the five, with an issue key. *)
Lemma workflow_main_ends_witness :
  known_action "fly" && negb (String.eqb "SCRUM-1" "") = false
  ∧ (WorkflowDemo.main (G := Scripted.globals) ["workflow-demo.py"; "fly"; "SCRUM-1"]
       (run [] [])).1 = Raise (SystemExit 1)
  ∧ sent (WorkflowDemo.main (G := Scripted.globals)
            ["workflow-demo.py"; "fly"; "SCRUM-1"] (run [] [])).2 = [].
Proof.
  split; [reflexivity|].
  exact (proj2 (workflow_main_ends (G := Scripted.globals)
                  ["workflow-demo.py"; "fly"; "SCRUM-1"] (run [] [])) eq_refl).
Defined.


Section Headers.
Context {R : Remote} {G : Globals}.

Lemma plain_ret {A} (a : A) : plain (ret a).
Proof. by intros s. Qed.

Lemma plain_lift {A} (r : result A) : plain (lift r).
Proof. by intros s. Qed.

Lemma plain_print line : is_batch_header line = false → plain (print line).
Proof.
  intros Hline s. unfold print, batch_headers. simpl.
  rewrite List.filter_app. simpl. rewrite Hline. apply app_nil_r.
Qed.

Lemma plain_bind {A B} (m : M A) (k : A → M B) :
  plain m → (∀ a, plain (k a)) → plain (bind m k).
Proof.
  intros Hm Hk s. unfold bind. specialize (Hm s).
  destruct (m s) as [[a|e] s1]; simpl in *; [|done].
  by rewrite Hk.
Qed.

Lemma plain_try_except {A} (body : M A) handler :
  plain body → (∀ e, plain (handler e)) → plain (try_except body handler).
Proof.
  intros Hbody Hhandler s. unfold try_except. specialize (Hbody s).
  destruct (body s) as [[a|e] s1]; simpl in *; [done|].
  destruct (is_Exception e); [by rewrite Hhandler | done].
Qed.

Lemma plain_make_request method path data :
  plain (BulkCreate.make_request method path data).
Proof. intros s. by rewrite HelperFacts.make_request_outcome. Qed.

Lemma plain_process_item commit_msg counts :
  plain (BulkCreate.process_item commit_msg counts).
Proof.
  unfold BulkCreate.process_item, BulkCreate.try_item,
    BulkCreate.transition_to_done, BulkCreate.get_transitions,
    BulkCreate.create_issue.
  repeat first
    [ apply plain_make_request
    | apply plain_ret
    | apply plain_lift
    | apply plain_print; reflexivity
    | apply plain_try_except; [|intros]
    | apply plain_bind; [|intros]
    | match goal with |- plain (if ?b then _ else _) => destruct b end ].
Qed.

Lemma items_plain batch : ∀ counts s,
  ∃ counts' s',
    for_fold batch BulkCreate.process_item counts s = (Ok counts', s')
    ∧ batch_headers (stdout s') = batch_headers (stdout s).
Proof.
  induction batch as [|commit_msg batch IH]; intros counts s; cbn [for_fold].
  - by exists counts, s.
  - destruct (BulkFacts.process_item_effect commit_msg counts s)
      as (s1 & Hitem & _).
    pose proof (plain_process_item commit_msg counts s) as Hplain.
    unfold bind. rewrite Hitem in Hplain |- *. simpl in Hplain.
    destruct (IH (match (BulkCreate.try_item commit_msg s).1 with
                  | Ok _ => (counts.1 + 1, counts.2)
                  | Raise _ => (counts.1, counts.2 + 1)
                  end) s1) as (counts' & s' & Hrest & Hout).
    exists counts', s'. split; [exact Hrest | by rewrite Hout].
Qed.

Lemma is_batch_header_header number total :
  is_batch_header (batch_header number total) = true.
Proof.
  unfold is_batch_header, batch_header.
  change (String.prefix (Str.nl +:+ "--- Processing batch ")
            ((Str.nl +:+ "--- Processing batch ")
             +:+ (pretty number +:+ "/" +:+ pretty total +:+ " ---")) = true).
  apply StrFacts.prefix_app.
Qed.

Lemma numbered_batches_headers total batches : ∀ k counts s,
  batch_headers
    (stdout (for_fold (numbered_from k batches)
               (λ nb counts,
                  print (batch_header nb.1 total) >>
                  for_fold nb.2 BulkCreate.process_item counts) counts s).2)
  = batch_headers (stdout s)
    ++ ((λ number, batch_header number total) <$> seq k (length batches)).
Proof.
  induction batches as [|batch batches IH]; intros k counts s.
  - simpl. by rewrite app_nil_r.
  - cbn [numbered_from for_fold fst snd length seq fmap list_fmap].
    unfold bind at 1. rewrite bind_print.
    match goal with |- context [for_fold batch _ counts ?s1] =>
      destruct (items_plain batch counts s1) as (counts1 & s2 & Hrun & Hout)
    end.
    rewrite Hrun, IH, Hout. simpl. unfold batch_headers.
    rewrite List.filter_app. simpl. rewrite is_batch_header_header.
    by rewrite <- app_assoc.
Qed.

(** X24.  The batch headers that the loop of bulk-create prints are
    numbered consistently: among the lines it prints, those that
    announce a batch are, in order, the headers 1/total, 2/total, ... up
    to total/total, where total is the number of batches, whatever the
    commit messages are and whatever the server answers. *)
Theorem batch_numbers (commits : list string) (s : proc) :
  let total := length (BulkCreate.batches commits) in
  batch_headers (stdout (BulkCreate.main_loop commits s).2)
  = batch_headers (stdout s)
    ++ ((λ number, batch_header number total) <$> seq 1 total).
Proof.
  intros total. rewrite BulkFacts.main_loop_batches.
  apply numbered_batches_headers.
Qed.

End Headers.

End MainMore.
